(** * Vending machine: transaction controller, change solver, inventories.

    A shallow embedding of [vending_machine/payments.py],
    [vending_machine/products.py] and [vending_machine/__init__.py], and the
    properties of the specification settled against it.

    Conventions of the embedding:
    - Python [int] is [Z]; [//] on a non-zero divisor is [Z.div] (both floor).
    - A Python [dict] is an insertion-ordered association list ([dict K V]):
      assignment to an existing key keeps its position, a new key goes last,
      iteration follows the list.
    - A method that mutates [self] is a function from the object to an
      outcome and the object afterwards; when the outcome is an exception the
      object returned is the one at the moment of the [raise], so that
      mutations done before a failure stay visible.
    - Logging calls are not modelled: they change no modelled value. *)

From Stdlib Require Import String ZArith List Bool Lia Eqdep_dec.
From Stdlib Require Import Sorted Permutation.
From Stdlib Require Import DecimalString DecimalZ.
Import ListNotations.
Local Open Scope Z_scope.

(** ** Exceptions and outcomes *)

Inductive exn : Type :=
| ValueError          (* raised by Denomination, add_monetary_unit, add_cash *)
| RuntimeError        (* raised by remove_change, get_price_of *)
| ZeroDivisionError   (* [owed // 0] *)
| KeyError            (* subscript of a plain dict on a missing key *)
| TypeError           (* [int += None] *)
| AssertionError      (* [assert self.selected_product is not None] *)
| QueueEmpty          (* queue.Empty, from Queue.get_nowait *)
| MachineError        (* transitions.core.MachineError *)
| OutOfFuel.          (* the embedding ran out of fuel; never raised by Python *)

Inductive result (A : Type) : Type :=
| Ok (a : A)
| Raise (e : exn).
Arguments Ok {A} a.
Arguments Raise {A} e.

Definition rbind {A B} (r : result A) (k : A -> result B) : result B :=
  match r with
  | Ok a => k a
  | Raise e => Raise e
  end.

(** Computations on a mutable object of type [S]. *)
Definition M (S A : Type) : Type := S -> result A * S.

Definition ret {S A} (a : A) : M S A := fun s => (Ok a, s).
Definition raise {S A} (e : exn) : M S A := fun s => (Raise e, s).
Definition bind {S A B} (m : M S A) (k : A -> M S B) : M S B :=
  fun s => match m s with
           | (Ok a, s') => k a s'
           | (Raise e, s') => (Raise e, s')
           end.
Definition get {S} : M S S := fun s => (Ok s, s).
Definition put {S} (s : S) : M S unit := fun _ => (Ok tt, s).
Definition modify {S} (f : S -> S) : M S unit := fun s => (Ok tt, f s).
(** A failing or succeeding pure computation, run without touching the object. *)
Definition lift {S A} (r : result A) : M S A := fun s => (r, s).

Declare Scope py_scope.
Delimit Scope py_scope with py.
Notation "x <- m ;; k" := (bind m (fun x => k))
  (at level 100, m at next level, right associativity) : py_scope.
Notation "m ;;; k" := (bind m (fun _ => k))
  (at level 100, right associativity) : py_scope.
Notation "x <-r m ;; k" := (rbind m (fun x => k))
  (at level 100, m at next level, right associativity) : py_scope.
Local Open Scope py_scope.

(** ** Insertion-ordered dictionaries *)

(** Key equality, as [__eq__] decides it. *)
Class EqKey (K : Type) : Type := { key_eqb : K -> K -> bool }.

#[export] Instance EqKey_Z : EqKey Z := {| key_eqb := Z.eqb |}.

Section Dict.
Context {K V : Type} `{EqKey K}.

Definition dict : Type := list (K * V).

(** [d.get(k)] *)
Fixpoint dict_get (k : K) (d : dict) : option V :=
  match d with
  | [] => None
  | (k', v) :: d' => if key_eqb k k' then Some v else dict_get k d'
  end.

(** [k in d] *)
Definition dict_in (k : K) (d : dict) : bool :=
  match dict_get k d with Some _ => true | None => false end.

(** [d[k] = v] *)
Fixpoint dict_set (k : K) (v : V) (d : dict) : dict :=
  match d with
  | [] => [(k, v)]
  | (k', v') :: d' =>
      if key_eqb k k' then (k', v) :: d' else (k', v') :: dict_set k v d'
  end.

(** [d.keys()] *)
Definition dict_keys (d : dict) : list K := map fst d.

(** [{k: v for k, v in items}], and [dict.update] *)
Definition dict_update (d : dict) (items : list (K * V)) : dict :=
  fold_left (fun acc kv => dict_set (fst kv) (snd kv) acc) items d.

Definition dict_of_items (items : list (K * V)) : dict := dict_update [] items.

(** [a | b] *)
Definition dict_union (a b : dict) : dict := dict_update a b.

(** [defaultdict.__getitem__]: a missing key is inserted with the default. *)
Definition defaultdict_getitem (default : V) (k : K) (d : dict) : V * dict :=
  match dict_get k d with
  | Some v => (v, d)
  | None => (default, d ++ [(k, default)])
  end.
End Dict.
Arguments dict K V : clear implicits.

(** ** payments.py *)

(** [sys.maxsize] of a 64-bit CPython. *)
Definition sys_maxsize : Z := 2 ^ 63 - 1.

(** The test of [Denomination.__init__]: [True] when the value is accepted. *)
Definition denomination_value_ok (value : Z) : bool :=
  negb ((value <? 0) || ((value >? 100) && negb (value mod 100 =? 0))).

(** A [Denomination] object: a value that passed the constructor's test. *)
Record Denomination : Type := mkDenomination {
  value : Z;
  value_ok : denomination_value_ok value = true
}.

(** [Denomination(value)]: [tested] is the outcome of the constructor's
    test. *)
Definition Denomination_check (v : Z) (tested : bool)
  : denomination_value_ok v = tested -> result Denomination :=
  match tested with
  | true => fun ok => Ok (mkDenomination v ok)
  | false => fun _ => Raise ValueError
  end.

Definition Denomination_init (v : Z) : result Denomination :=
  Denomination_check v (denomination_value_ok v) eq_refl.

(** [Denomination.__eq__] *)
Definition Denomination_eqb (a b : Denomination) : bool := value a =? value b.

#[export] Instance EqKey_Denomination : EqKey Denomination :=
  {| key_eqb := Denomination_eqb |}.

(** [x in lst] for a list of denominations *)
Definition Denomination_in (d : Denomination) (l : list Denomination) : bool :=
  existsb (Denomination_eqb d) l.

Record MonetaryInventory : Type := mkMonetaryInventory {
  inventory : dict Denomination Z;           (* defaultdict(lambda: 0) *)
  _supported_denominantions : list Denomination
}.

(** [Denomination(v)] for a literal [v] the constructor accepts. *)
Definition D (v : Z) (ok : denomination_value_ok v = true) : Denomination :=
  mkDenomination v ok.

(** The class attribute [MonetaryInventory._supported_denominantions]. *)
Definition default_supported_denominantions : list Denomination :=
  [D 200 eq_refl; D 100 eq_refl; D 50 eq_refl; D 20 eq_refl;
   D 10 eq_refl; D 5 eq_refl; D 2 eq_refl; D 1 eq_refl].

Definition set_inventory (inv : dict Denomination Z) (m : MonetaryInventory)
  : MonetaryInventory :=
  mkMonetaryInventory inv (_supported_denominantions m).

(** [self.inventory[k] += q] on the defaultdict *)
Definition inventory_iadd (k : Denomination) (q : Z) : M MonetaryInventory unit :=
  fun m =>
    let '(cur, inv) := defaultdict_getitem 0 k (inventory m) in
    (Ok tt, set_inventory (dict_set k (cur + q) inv) m).

(** [MonetaryInventory.add_monetary_unit] *)
Definition add_monetary_unit (denomination : Denomination)
  : M MonetaryInventory unit :=
  fun m =>
    if negb (Denomination_in denomination (_supported_denominantions m))
    then raise ValueError m
    else inventory_iadd denomination 1 m.

Fixpoint add_cash_check (keys : list Denomination) : M MonetaryInventory unit :=
  match keys with
  | [] => ret tt
  | cash :: keys' =>
      fun m =>
        if negb (Denomination_in cash (_supported_denominantions m))
        then raise ValueError m
        else add_cash_check keys' m
  end.

Fixpoint add_cash_loop (items : list (Denomination * Z))
  : M MonetaryInventory unit :=
  match items with
  | [] => ret tt
  | (cash, quantity) :: items' =>
      inventory_iadd cash quantity ;;; add_cash_loop items'
  end.

(** [MonetaryInventory.add_cash] *)
Definition add_cash (supply : dict Denomination Z) : M MonetaryInventory unit :=
  add_cash_check (dict_keys supply) ;;; add_cash_loop supply.

(** [MonetaryInventory.remove_change]: the loop over [change.items()]. *)
Fixpoint remove_change (change : dict Denomination Z)
  : M MonetaryInventory unit :=
  match change with
  | [] => ret tt
  | (denomination, quantity) :: change' =>
      fun m =>
        let '(cur, inv) := defaultdict_getitem 0 denomination (inventory m) in
        if cur <? quantity
        then raise RuntimeError (set_inventory inv m)
        else remove_change change'
               (set_inventory (dict_set denomination (cur - quantity) inv) m)
  end.

(** [MonetaryInventory.available_change] *)
Definition available_change (m : MonetaryInventory) : dict Denomination Z :=
  filter (fun kv => snd kv >? 0) (inventory m).

(** [MonetaryInventory.__init__]: no object comes out of a constructor that
    raises. *)
Definition MonetaryInventory_init (initial_inventory : dict Denomination Z)
    (supported_denominantions : option (list Denomination))
  : result MonetaryInventory :=
  let supported := match supported_denominantions with
                   | Some l => l
                   | None => default_supported_denominantions
                   end in
  match add_cash initial_inventory (mkMonetaryInventory [] supported) with
  | (Ok _, m) => Ok m
  | (Raise e, _) => Raise e
  end.

Record ChangeConfiguration : Type := mkChangeConfiguration {
  owed : Z;
  configuration : dict Denomination Z
}.

(** [ChangeConfiguration.__init__]: an empty defaultdict updated with the
    argument. *)
Definition ChangeConfiguration_init (owed : Z) (configuration : dict Denomination Z)
  : ChangeConfiguration :=
  mkChangeConfiguration owed (dict_union [] configuration).

Definition is_exact (c : ChangeConfiguration) : bool := owed c =? 0.

(** *** The change search *)

(** [sorted(l, reverse=True)] *)
Fixpoint insert_desc (x : Z) (l : list Z) : list Z :=
  match l with
  | [] => [x]
  | y :: l' => if y <? x then x :: l else y :: insert_desc x l'
  end.

Definition sorted_reverse (l : list Z) : list Z := fold_right insert_desc [] l.

(** [reversed(range(1, m + 1))] *)
Definition reversed_range_1 (m : Z) : list Z :=
  map Z.of_nat (rev (seq 1 (Z.to_nat m))).

(** [[k for k, v in change.items() if v > 0]] *)
Definition positive_keys (change : dict Z Z) : list Z :=
  map fst (filter (fun kv => snd kv >? 0) change).

Definition solution : Type := option (dict Z Z).

(** What a loop of [backtrack_best_change] hands back: a [return] taken
    inside the body, or the loop variables after the last iteration. *)
Inductive loop_outcome : Type :=
| Returned (r : solution * Z)
| Fallthrough (best_solution : solution) (lowest_owed : Z).

Section BacktrackLoops.
(** The recursive call, at the depth below. *)
Variable recurse :
  Z -> dict Z Z -> solution -> solution -> Z -> result (solution * Z).
Variables (owed : Z) (change current_solution : dict Z Z).

(** [for number_of_monetary_units in reversed(range(1, max + 1))] *)
Fixpoint for_units (denomination : Z) (units : list Z)
    (best_solution : solution) (lowest_owed : Z) : result loop_outcome :=
  match units with
  | [] => Ok (Fallthrough best_solution lowest_owed)
  | number_of_monetary_units :: units' =>
      let new_change := dict_set denomination 0 change in
      let new_owed_amount := owed - number_of_monetary_units * denomination in
      let new_solution :=
        dict_set denomination number_of_monetary_units current_solution in
      r <-r recurse new_owed_amount new_change (Some new_solution)
              best_solution lowest_owed ;;
      let '(new_solution, difference) := r in
      if difference =? 0 then Ok (Returned (new_solution, 0))
      else if difference <? lowest_owed
           then for_units denomination units' new_solution difference
           else for_units denomination units' best_solution lowest_owed
  end.

(** [for denomination in denominations].  [owed // denomination] raises
    [ZeroDivisionError] on a zero denomination, before [change[denomination]]
    is read. *)
Fixpoint for_denominations (denominations : list Z)
    (best_solution : solution) (lowest_owed : Z) : result loop_outcome :=
  match denominations with
  | [] => Ok (Fallthrough best_solution lowest_owed)
  | denomination :: denominations' =>
      if denomination =? 0 then Raise ZeroDivisionError else
      match dict_get denomination change with
      | None => Raise KeyError
      | Some available =>
          let max_number_of_monetary_units :=
            Z.min (owed / denomination) available in
          o <-r for_units denomination
                  (reversed_range_1 max_number_of_monetary_units)
                  best_solution lowest_owed ;;
          match o with
          | Returned r => Ok (Returned r)
          | Fallthrough best_solution lowest_owed =>
              for_denominations denominations' best_solution lowest_owed
          end
      end
  end.
End BacktrackLoops.

(** [backtrack_best_change].  [fuel] bounds the recursion depth; every call
    sets one positive count to zero, so a depth of one more than the number
    of keys is never exceeded (see [find_optimal_change]). *)
Fixpoint backtrack_best_change (fuel : nat) (owed : Z) (change : dict Z Z)
    (current_solution best_solution : solution) (lowest_owed : Z)
  : result (solution * Z) :=
  match fuel with
  | O => Raise OutOfFuel
  | S fuel' =>
      let current_solution :=
        match current_solution with None => [] | Some s => s end in
      let '(best_solution, lowest_owed) :=
        if owed <? lowest_owed then (Some current_solution, owed)
        else (best_solution, lowest_owed) in
      if owed =? 0 then Ok (Some current_solution, 0) else
      let denominations := sorted_reverse (positive_keys change) in
      o <-r for_denominations (backtrack_best_change fuel') owed change
              current_solution denominations best_solution lowest_owed ;;
      match o with
      | Returned r => Ok r
      | Fallthrough best_solution lowest_owed => Ok (best_solution, lowest_owed)
      end
  end.

(** [{Denomination(value): quantity for value, quantity in result.items()}] *)
Fixpoint denominations_of (items : list (Z * Z))
  : result (list (Denomination * Z)) :=
  match items with
  | [] => Ok []
  | (v, quantity) :: items' =>
      d <-r Denomination_init v ;;
      rest <-r denominations_of items' ;;
      Ok ((d, quantity) :: rest)
  end.

(** [find_optimal_change].  The inventory is read, never written. *)
Definition find_optimal_change (owed_amount : Z)
    (monetary_inventory : MonetaryInventory)
  : result (option ChangeConfiguration) :=
  let change : dict Z Z :=
    dict_of_items (map (fun kv => (value (fst kv), snd kv))
                       (inventory monetary_inventory)) in
  r <-r backtrack_best_change (S (List.length change)) owed_amount change
          None None sys_maxsize ;;
  let '(result, diff) := r in
  match result with
  | Some result =>
      items <-r denominations_of result ;;
      Ok (Some (ChangeConfiguration_init diff (dict_of_items items)))
  | None => Ok None
  end.

(** The inventory holding [l], with the default supported set. *)
Definition inv_of (l : list (Denomination * Z)) : MonetaryInventory :=
  mkMonetaryInventory l default_supported_denominantions.

(** ** products.py *)

Definition ProductID : Type := Z.

Record Product : Type := mkProduct { id : ProductID }.

Record ProductInfo : Type := mkProductInfo {
  name : string;
  price : Z
}.

(** Keys of [Stock.products] as they occur at run time: a product id, or
    [None] when [get_product] is handed an unset selection. *)
#[export] Instance EqKey_option_Z : EqKey (option Z) := {|
  key_eqb := fun a b =>
    match a, b with
    | Some x, Some y => x =? y
    | None, None => true
    | _, _ => false
    end
|}.

Record Stock : Type := mkStock {
  products : dict (option ProductID) (list Product);  (* defaultdict(Queue), head = oldest *)
  catalogue : dict ProductID ProductInfo
}.

Definition set_products (p : dict (option ProductID) (list Product)) (s : Stock)
  : Stock := mkStock p (catalogue s).

Definition set_catalogue (c : dict ProductID ProductInfo) (s : Stock) : Stock :=
  mkStock (products s) c.

(** [Stock.add_products] *)
Fixpoint add_products (ps : list Product) : M Stock unit :=
  match ps with
  | [] => ret tt
  | product :: ps' =>
      fun s =>
        let '(q, prods) := defaultdict_getitem [] (Some (id product)) (products s) in
        add_products ps'
          (set_products (dict_set (Some (id product)) (q ++ [product]) prods) s)
  end.

(** [Stock.get_product] *)
Definition get_product (product_id : option ProductID) : M Stock Product :=
  fun s =>
    let '(q, prods) := defaultdict_getitem [] product_id (products s) in
    match q with
    | [] => raise QueueEmpty (set_products prods s)
    | product :: q' => (Ok product, set_products (dict_set product_id q' prods) s)
    end.

(** [Stock.get_price_of] *)
Definition get_price_of (s : Stock) (product_id : option ProductID) : result Z :=
  match product_id with
  | None => Raise RuntimeError    (* [catalogue.get(None)] finds nothing *)
  | Some product_id =>
      match dict_get product_id (catalogue s) with
      | Some info => Ok (price info)
      | None => Raise RuntimeError
      end
  end.

(** The comprehension of [Stock.get_offer], one catalogue item at a time;
    the subscript of [self.products] inserts an empty queue for an id that
    has none. *)
Fixpoint get_offer_loop (items : list (ProductID * ProductInfo))
    (acc : dict ProductID ProductInfo) : M Stock (dict ProductID ProductInfo) :=
  match items with
  | [] => ret acc
  | (product_id, info) :: items' =>
      fun s =>
        let '(q, prods) := defaultdict_getitem [] (Some product_id) (products s) in
        let acc' := match q with
                    | [] => acc
                    | _ :: _ => dict_set product_id info acc
                    end in
        get_offer_loop items' acc' (set_products prods s)
  end.

(** [Stock.get_offer] *)
Definition get_offer : M Stock (dict ProductID ProductInfo) :=
  fun s => get_offer_loop (catalogue s) [] s.

(** [Stock.update_catalogue] *)
Definition update_catalogue (new_catalogue : dict ProductID ProductInfo)
  : M Stock unit :=
  offer <- get_offer ;;
  modify (set_catalogue (dict_union offer new_catalogue)).

(** [Stock.__init__] *)
Definition Stock_init (catalogue : dict ProductID ProductInfo)
    (products : list Product) : Stock :=
  snd (add_products products (mkStock [] catalogue)).

(** ** vending_machine/__init__.py *)

Inductive States : Type :=
| IDLE
| MAINTENANCE_MODE
| PRODUCT_SELECTION
| COLLECTING_PAYMENT
| CONFIRM_SMALLER_CHANGE
| DISPATCHING_PRODUCT
| RETURNING_CHANGE.

Definition States_eqb (a b : States) : bool :=
  match a, b with
  | IDLE, IDLE | MAINTENANCE_MODE, MAINTENANCE_MODE
  | PRODUCT_SELECTION, PRODUCT_SELECTION
  | COLLECTING_PAYMENT, COLLECTING_PAYMENT
  | CONFIRM_SMALLER_CHANGE, CONFIRM_SMALLER_CHANGE
  | DISPATCHING_PRODUCT, DISPATCHING_PRODUCT
  | RETURNING_CHANGE, RETURNING_CHANGE => true
  | _, _ => false
  end.

(** What the [DeliverySystem] has been asked to do. *)
Inductive Delivery : Type :=
| dispatch (product : Product)
| send_cash (change_configuration : ChangeConfiguration).

(** The machine.  [delivery_system] is the list of calls made to the
    collaborator, oldest first.  The attribute [is_in_maintenance_mode] is
    never read or written and is left out. *)
Record VendingMachine : Type := mkVendingMachine {
  state : States;
  stock : Stock;
  monetary_inventory : MonetaryInventory;
  selected_product : option ProductID;
  customer_balance : Z;
  delivery_system : list Delivery
}.

Definition set_state (s : States) (vm : VendingMachine) : VendingMachine :=
  mkVendingMachine s (stock vm) (monetary_inventory vm) (selected_product vm)
    (customer_balance vm) (delivery_system vm).
Definition set_stock (s : Stock) (vm : VendingMachine) : VendingMachine :=
  mkVendingMachine (state vm) s (monetary_inventory vm) (selected_product vm)
    (customer_balance vm) (delivery_system vm).
Definition set_monetary_inventory (m : MonetaryInventory) (vm : VendingMachine)
  : VendingMachine :=
  mkVendingMachine (state vm) (stock vm) m (selected_product vm)
    (customer_balance vm) (delivery_system vm).
Definition set_selected_product (p : option ProductID) (vm : VendingMachine)
  : VendingMachine :=
  mkVendingMachine (state vm) (stock vm) (monetary_inventory vm) p
    (customer_balance vm) (delivery_system vm).
Definition set_customer_balance (b : Z) (vm : VendingMachine) : VendingMachine :=
  mkVendingMachine (state vm) (stock vm) (monetary_inventory vm)
    (selected_product vm) b (delivery_system vm).
Definition tell_delivery (d : Delivery) (vm : VendingMachine) : VendingMachine :=
  mkVendingMachine (state vm) (stock vm) (monetary_inventory vm)
    (selected_product vm) (customer_balance vm) (delivery_system vm ++ [d]).

(** A method of [self.stock] / [self.monetary_inventory] called from the
    machine. *)
Definition on_stock {A} (m : M Stock A) : M VendingMachine A :=
  fun vm => let '(r, s) := m (stock vm) in (r, set_stock s vm).
Definition on_monetary_inventory {A} (m : M MonetaryInventory A)
  : M VendingMachine A :=
  fun vm => let '(r, i) := m (monetary_inventory vm) in
            (r, set_monetary_inventory i vm).

(** [VendingMachine.__init__]: the machine starts in [States.IDLE]. *)
Definition VendingMachine_init (stock : Stock)
    (monetary_inventory : MonetaryInventory) : VendingMachine :=
  mkVendingMachine IDLE stock monetary_inventory None 0 [].

(** [event.kwargs] *)
Record kwargs : Type := mkKwargs {
  kw_product_id : option ProductID;
  kw_denomination : option Z;
  kw_supply : option (dict Denomination Z);
  kw_products : option (list Product)
}.

Definition no_kwargs : kwargs := mkKwargs None None None None.

(** *** Conditions *)

Definition _not_enough_money (vm : VendingMachine) : result bool :=
  match selected_product vm with
  | None => Raise AssertionError
  | Some _ =>
      total <-r get_price_of (stock vm) (selected_product vm) ;;
      Ok (total >? customer_balance vm)
  end.

Definition _can_return_exact_change (vm : VendingMachine) : result bool :=
  match selected_product vm with
  | None => Raise AssertionError
  | Some _ =>
      p <-r get_price_of (stock vm) (selected_product vm) ;;
      let owed_change := customer_balance vm - p in
      config <-r find_optimal_change owed_change (monetary_inventory vm) ;;
      match config with
      | None => Ok false
      | Some config => Ok (is_exact config)
      end
  end.

(** *** Actions *)

Definition _select (kw : kwargs) : M VendingMachine unit :=
  modify (set_selected_product (kw_product_id kw)).

Definition _insert (kw : kwargs) : M VendingMachine unit :=
  match kw_denomination kw with
  | None => raise TypeError
  | Some denomination =>
      modify (fun vm => set_customer_balance (customer_balance vm + denomination) vm) ;;;
      d <- lift (Denomination_init denomination) ;;
      on_monetary_inventory (add_monetary_unit d)
  end.

(** Defined by the class, attached to no transition. *)
Definition _cancel (kw : kwargs) : M VendingMachine unit :=
  modify (set_selected_product None).

Definition _add_products (kw : kwargs) : M VendingMachine unit :=
  let products := match kw_products kw with Some l => l | None => [] end in
  on_stock (add_products products).

Definition _reload_change (kw : kwargs) : M VendingMachine unit :=
  let supply := match kw_supply kw with Some s => s | None => [] end in
  on_monetary_inventory (add_cash supply).

Definition _dispatch_product : M VendingMachine unit :=
  sel <- (fun vm => (Ok (selected_product vm), vm)) ;;
  product <- on_stock (get_product sel) ;;
  modify (set_selected_product None) ;;;
  modify (tell_delivery (dispatch product)).

Definition _charge_customer (kw : kwargs) : M VendingMachine unit :=
  fun vm =>
    match selected_product vm with
    | Some _ =>
        match get_price_of (stock vm) (selected_product vm) with
        | Ok p => (Ok tt, set_customer_balance (customer_balance vm - p) vm)
        | Raise e => (Raise e, vm)
        end
    | None => (Ok tt, vm)
    end.

Definition _return_change : M VendingMachine unit :=
  fun vm =>
    if customer_balance vm =? 0 then (Ok tt, vm) else
    match find_optimal_change (customer_balance vm) (monetary_inventory vm) with
    | Raise e => (Raise e, vm)
    | Ok None => (Ok tt, vm)
    | Ok (Some config) =>
        match configuration config with
        | [] => (Ok tt, vm)              (* not able to return a change *)
        | _ :: _ =>
            (on_monetary_inventory (remove_change (configuration config)) ;;;
             modify (tell_delivery (send_cash config))) vm
        end
    end.

(** *** The transition table and its interpreter

    The machine is built with [send_event=True] and with neither
    [ignore_invalid_triggers] nor [queued] nor [on_exception] set.  Firing a
    trigger then works as follows in [transitions.core]:
    - the rows of the trigger whose source is the current state are taken
      in the order of the table; when there is none, [MachineError] is raised;
    - the first row whose conditions all hold is executed: its [before]
      callbacks run, the state is set to [dest], the [on_enter] callbacks of
      [dest] run (a callback given by name is a nested firing of that
      trigger), and the call returns [True];
    - when no row passes its conditions the call returns [False];
    - an exception raised by a condition or a callback propagates to the
      caller, leaving every assignment made so far in place. *)

Module Trigger.
Inductive t : Type :=
| start_maintenance
| reload_change
| add_products
| end_maintenance
| start
| cancel
| select
| insert
| checkout
| accept
| advance.

Definition eqb (a b : t) : bool :=
  match a, b with
  | start_maintenance, start_maintenance | reload_change, reload_change
  | add_products, add_products | end_maintenance, end_maintenance
  | start, start | cancel, cancel | select, select | insert, insert
  | checkout, checkout | accept, accept | advance, advance => true
  | _, _ => false
  end.
End Trigger.

Record Transition : Type := mkTransition {
  trigger : Trigger.t;
  source : list States;
  dest : States;
  conditions : list (VendingMachine -> result bool);
  before : list (kwargs -> M VendingMachine unit)
}.

(** An [on_enter] entry: a bound method, or the name of a trigger. *)
Inductive Callback : Type :=
| Method (f : M VendingMachine unit)
| Named (t : Trigger.t).

(** [VendingMachine._get_states]: the [on_enter] lists. *)
Definition on_enter (s : States) : list Callback :=
  match s with
  | DISPATCHING_PRODUCT => [Method _dispatch_product; Named Trigger.advance]
  | RETURNING_CHANGE => [Method _return_change; Named Trigger.advance]
  | _ => []
  end.

(** [VendingMachine._get_transitions] *)
Definition _get_transitions : list Transition :=
  [ mkTransition Trigger.start_maintenance [IDLE] MAINTENANCE_MODE [] [];
    mkTransition Trigger.reload_change [MAINTENANCE_MODE] MAINTENANCE_MODE
      [] [_reload_change];
    mkTransition Trigger.add_products [MAINTENANCE_MODE] MAINTENANCE_MODE
      [] [_add_products];
    mkTransition Trigger.end_maintenance [MAINTENANCE_MODE] IDLE [] [];
    mkTransition Trigger.start [IDLE] PRODUCT_SELECTION [] [];
    mkTransition Trigger.cancel [PRODUCT_SELECTION] IDLE [] [];
    mkTransition Trigger.select [PRODUCT_SELECTION] COLLECTING_PAYMENT
      [] [_select];
    mkTransition Trigger.insert [COLLECTING_PAYMENT] COLLECTING_PAYMENT
      [] [_insert];
    mkTransition Trigger.checkout [COLLECTING_PAYMENT] COLLECTING_PAYMENT
      [_not_enough_money] [];
    mkTransition Trigger.checkout [COLLECTING_PAYMENT] DISPATCHING_PRODUCT
      [_can_return_exact_change] [_charge_customer];
    mkTransition Trigger.checkout [COLLECTING_PAYMENT] CONFIRM_SMALLER_CHANGE
      [] [];
    mkTransition Trigger.accept [CONFIRM_SMALLER_CHANGE] DISPATCHING_PRODUCT
      [] [_charge_customer];
    mkTransition Trigger.advance [DISPATCHING_PRODUCT] RETURNING_CHANGE [] [];
    mkTransition Trigger.advance [RETURNING_CHANGE] IDLE [] [];
    mkTransition Trigger.cancel [COLLECTING_PAYMENT; CONFIRM_SMALLER_CHANGE]
      RETURNING_CHANGE [] [] ].

(** The rows of trigger [t] that leave state [s], in table order. *)
Definition candidates (t : Trigger.t) (s : States) : list Transition :=
  filter (fun tr => Trigger.eqb (trigger tr) t && existsb (States_eqb s) (source tr))
         _get_transitions.

(** [all(c.check(event_data) for c in conditions)] *)
Fixpoint eval_conditions (cs : list (VendingMachine -> result bool))
  : M VendingMachine bool :=
  match cs with
  | [] => ret true
  | c :: cs' =>
      b <- (fun vm => (c vm, vm)) ;;
      if b then eval_conditions cs' else ret false
  end.

Fixpoint run_before (fs : list (kwargs -> M VendingMachine unit)) (kw : kwargs)
  : M VendingMachine unit :=
  match fs with
  | [] => ret tt
  | f :: fs' => f kw ;;; run_before fs' kw
  end.

Section Fire.
(** Firing a trigger from inside a callback. *)
Variable nested : Trigger.t -> kwargs -> M VendingMachine bool.

Fixpoint run_callbacks (cbs : list Callback) : M VendingMachine unit :=
  match cbs with
  | [] => ret tt
  | Method f :: cbs' => f ;;; run_callbacks cbs'
  | Named t :: cbs' => nested t no_kwargs ;;; run_callbacks cbs'
  end.

(** [Transition.execute] once the conditions hold. *)
Definition execute (tr : Transition) (kw : kwargs) : M VendingMachine unit :=
  run_before (before tr) kw ;;;
  modify (set_state (dest tr)) ;;;
  run_callbacks (on_enter (dest tr)).

(** [Event._process]: the first row that passes. *)
Fixpoint try_transitions (trs : list Transition) (kw : kwargs)
  : M VendingMachine bool :=
  match trs with
  | [] => ret false
  | tr :: trs' =>
      ok <- eval_conditions (conditions tr) ;;
      if ok then execute tr kw ;;; ret true
      else try_transitions trs' kw
  end.
End Fire.

(** [Event.trigger], with [depth] bounding the nesting of firings. *)
Fixpoint fire_at (depth : nat) (t : Trigger.t) (kw : kwargs)
  : M VendingMachine bool :=
  match depth with
  | O => raise OutOfFuel
  | S depth' =>
      fun vm =>
        match candidates t (state vm) with
        | [] => raise MachineError vm
        | trs => try_transitions (fire_at depth') trs kw vm
        end
  end.

(** A trigger called on the machine.  A firing nests at most twice: the
    entry of [DISPATCHING_PRODUCT] fires [advance], whose entry of
    [RETURNING_CHANGE] fires [advance] again, and [IDLE] fires nothing. *)
Definition fire (t : Trigger.t) (kw : kwargs) : M VendingMachine bool :=
  fire_at 3 t kw.

(** The triggers, as the methods the machine exposes. *)
Definition start_maintenance := fire Trigger.start_maintenance no_kwargs.
Definition end_maintenance := fire Trigger.end_maintenance no_kwargs.
Definition start := fire Trigger.start no_kwargs.
Definition cancel := fire Trigger.cancel no_kwargs.
Definition checkout := fire Trigger.checkout no_kwargs.
Definition accept := fire Trigger.accept no_kwargs.
Definition advance := fire Trigger.advance no_kwargs.
Definition select (product_id : ProductID) :=
  fire Trigger.select (mkKwargs (Some product_id) None None None).
Definition insert (denomination : Z) :=
  fire Trigger.insert (mkKwargs None (Some denomination) None None).
Definition reload_change (supply : dict Denomination Z) :=
  fire Trigger.reload_change (mkKwargs None None (Some supply) None).
Definition machine_add_products (products : list Product) :=
  fire Trigger.add_products (mkKwargs None None None (Some products)).

(** A sequence of calls; it stops at the first exception. *)
Fixpoint run (calls : list (M VendingMachine bool)) : M VendingMachine unit :=
  match calls with
  | [] => ret tt
  | c :: calls' => c ;;; run calls'
  end.

(** The machine of [tests/test_vending_machine.py]. *)
Definition test_machine : VendingMachine :=
  VendingMachine_init
    (Stock_init
       [(1, mkProductInfo "Soda" 210); (2, mkProductInfo "Water" 100);
        (3, mkProductInfo "Ice tea" 195)]
       [mkProduct 1; mkProduct 1; mkProduct 2; mkProduct 3])
    (inv_of [(D 100 eq_refl, 5); (D 10 eq_refl, 3)]).

(** ** Notions used to state the properties *)

(** A dictionary has no two equal keys. *)
Fixpoint distinct_keys {K V} `{EqKey K} (d : dict K V) : bool :=
  match d with
  | [] => true
  | (k, _) :: d' => negb (dict_in k d') && distinct_keys d'
  end.

(** The count the inventory holds of a denomination: [inventory[d]], read
    without inserting. *)
Definition count_of (m : MonetaryInventory) (d : Denomination) : Z :=
  match dict_get d (inventory m) with Some q => q | None => 0 end.

(** The quantity a change mapping asks of a denomination. *)
Definition quantity_of (change : dict Denomination Z) (d : Denomination) : Z :=
  match dict_get d change with Some q => q | None => 0 end.

(** The money a change mapping is worth. *)
Definition monetary_value (change : dict Denomination Z) : Z :=
  fold_right (fun kv acc => value (fst kv) * snd kv + acc) 0 change.

Definition int_value (sol : dict Z Z) : Z :=
  fold_right (fun kv acc => fst kv * snd kv + acc) 0 sol.

(** The view of the inventory the search works on:
    [{denomination.value: quantity for ...}]. *)
Definition change_of (m : MonetaryInventory) : dict Z Z :=
  dict_of_items (map (fun kv => (value (fst kv), snd kv)) (inventory m)).

(** No denomination of value zero is held with a positive count. *)
Definition nonzero_denominations (m : MonetaryInventory) : bool :=
  forallb (fun kv => negb ((snd kv >? 0) && (value (fst kv) =? 0))) (inventory m).

(** The search space of [backtrack_best_change]: the nodes [(solution,
    remainder)] reached from a call with [owed], [change] and
    [current_solution], by choosing a denomination with a positive count, a
    number of units between 1 and [min(owed // denomination, count)], and
    going on with that denomination's count set to zero. *)
Inductive search_space : Z -> dict Z Z -> dict Z Z -> dict Z Z -> Z -> Prop :=
| search_here : forall owed change current,
    search_space owed change current current owed
| search_step : forall owed change current denomination available units sol r,
    In denomination (positive_keys change) ->
    dict_get denomination change = Some available ->
    1 <= units <= Z.min (owed / denomination) available ->
    search_space (owed - units * denomination) (dict_set denomination 0 change)
      (dict_set denomination units current) sol r ->
    search_space owed change current sol r.

(** Some row of the table has trigger [t] and a source equal to [s]. *)
Definition source_matches (t : Trigger.t) (s : States) : bool :=
  existsb (fun tr => Trigger.eqb (trigger tr) t && existsb (States_eqb s) (source tr))
          _get_transitions.

(** At least one unit of the product is queued. *)
Definition in_stock (s : Stock) (product_id : ProductID) : bool :=
  match dict_get (Some product_id) (products s) with
  | Some (_ :: _) => true
  | _ => false
  end.

(** The value [insert] is called with is a denomination the inventory
    supports. *)
Definition supports (m : MonetaryInventory) (v : Z) : bool :=
  match Denomination_init v with
  | Ok d => Denomination_in d (_supported_denominantions m)
  | Raise _ => false
  end.

(** Every denomination the search may pick is positive. *)
Definition positive_denominations (change : dict Z Z) : Prop :=
  forall d, In d (positive_keys change) -> 0 < d.

(** Where a result [(b, l)] of the search comes from: the best solution
    handed in, untouched, or a node of the search space. *)
Definition provenance (owed : Z) (change current : dict Z Z)
    (best : solution) (lowest : Z) (b : solution) (l : Z) : Prop :=
  (b = best /\ l = lowest)
  \/ (exists sol, b = Some sol /\ search_space owed change current sol l).

(** What a call of [backtrack_best_change] guarantees of its result. *)
Definition backtrack_post (owed : Z) (change current : dict Z Z)
    (best : solution) (lowest : Z) (res : solution * Z) : Prop :=
  0 <= snd res <= lowest /\
  provenance owed change current best lowest (fst res) (snd res) /\
  forall sol r, search_space owed change current sol r -> snd res <= r.

(** What a loop of it guarantees, [covered] being the nodes the loop went
    through. *)
Definition loop_post (owed : Z) (change current : dict Z Z)
    (covered : dict Z Z -> Z -> Prop)
    (best : solution) (lowest : Z) (o : loop_outcome) : Prop :=
  match o with
  | Returned (b, l) =>
      l = 0 /\ provenance owed change current best lowest b 0
  | Fallthrough b l =>
      0 <= l <= lowest /\
      provenance owed change current best lowest b l /\
      forall sol r, covered sol r -> l <= r
  end.

(** The [int]-keyed view of a change mapping. *)
Definition int_items (change : dict Denomination Z) : dict Z Z :=
  map (fun kv => (value (fst kv), snd kv)) change.

(** A way of paying out of [change] without exceeding [owed]: distinct
    denominations, each held with a positive count, each used at least once
    and no more often than held. *)
Definition feasible (owed : Z) (change payment : dict Z Z) : Prop :=
  NoDup (dict_keys payment) /\
  (forall d n, In (d, n) payment ->
     In d (positive_keys change) /\
     exists available, dict_get d change = Some available /\ 1 <= n <= available) /\
  int_value payment <= owed.

(** The pair a loop hands back, by [return] or at its end. *)
Definition outcome_pair (o : loop_outcome) : solution * Z :=
  match o with
  | Returned r => r
  | Fallthrough best_solution lowest_owed => (best_solution, lowest_owed)
  end.




(** ** Notions used to state further properties *)

(** Every key of a supply is a denomination the inventory supports. *)
Definition all_supported (m : MonetaryInventory) (supply : dict Denomination Z)
  : bool :=
  forallb (fun d => Denomination_in d (_supported_denominantions m))
          (dict_keys supply).

(** The money the inventory holds. *)
Definition cash_total (m : MonetaryInventory) : Z :=
  monetary_value (inventory m).

(** The units queued for a product id, oldest first: [products[i]], read
    without inserting. *)
Definition queue_of (s : Stock) (i : ProductID) : list Product :=
  match dict_get (Some i) (products s) with Some q => q | None => [] end.

(** Every queue holds units of its own id only. *)
Definition queues_match_ids (s : Stock) : Prop :=
  forall i p, In p (queue_of s i) -> id p = i.

(** The states a caller can find the machine in after a trigger returned:
    all but the two that advance on entry. *)
Definition resting (s : States) : bool :=
  match s with
  | DISPATCHING_PRODUCT | RETURNING_CHANGE => false
  | _ => true
  end.

(** Where the machine comes to rest once it has entered [s]. *)
Definition settles_in (s : States) : States :=
  match s with
  | DISPATCHING_PRODUCT | RETURNING_CHANGE => IDLE
  | _ => s
  end.

(** What a computation on the machine leaves alone when it keeps relation
    [R] between the machine before and the machine after, whether it
    returns or raises. *)
Definition preserves {A} (R : VendingMachine -> VendingMachine -> Prop)
    (c : M VendingMachine A) : Prop :=
  forall vm, R vm (snd (c vm)).

(** The part of the machine no trigger rewrites: the catalogue and the
    supported denominations are kept, and the delivery log is only added
    to. *)
Definition only_appends (vm vm' : VendingMachine) : Prop :=
  catalogue (stock vm') = catalogue (stock vm) /\
  _supported_denominantions (monetary_inventory vm')
  = _supported_denominantions (monetary_inventory vm) /\
  exists sent, delivery_system vm' = delivery_system vm ++ sent.

(** [str(n)] for an [int]. *)
Definition str_of_int (n : Z) : string := NilZero.string_of_int (Z.to_int n).

(** The pound sign, U+00A3, as its two UTF-8 bytes. *)
Definition pound_sign : string :=
  String (Ascii.ascii_of_nat 194) (String (Ascii.ascii_of_nat 163) "").

(** [Denomination.__str__], the text as UTF-8 bytes; [None] stands for the
    [NotImplementedError] of its last line. *)
Definition Denomination_str (d : Denomination) : option string :=
  if value d <? 100 then Some (str_of_int (value d) ++ "p")%string
  else if value d mod 100 =? 0
       then Some (pound_sign ++ str_of_int (value d / 100))%string
       else None.

(** A machine whose two dictionaries are what the code takes them for: the
    inventory has no duplicate keys and each queue holds units of its own
    id. *)
Definition wellformed (vm : VendingMachine) : Prop :=
  NoDup (dict_keys (inventory (monetary_inventory vm))) /\
  queues_match_ids (stock vm).

Definition keeps_wellformed (vm vm' : VendingMachine) : Prop :=
  wellformed vm -> wellformed vm'.

(** * Properties *)

(** ** Dictionaries *)

Section DictFacts.
Context {K V : Type} {E : EqKey K}.
Hypothesis key_eqb_eq : forall a b : K, key_eqb a b = true <-> a = b.

Lemma key_eqb_refl (k : K) : key_eqb k k = true.
Proof. now apply key_eqb_eq. Qed.

Lemma key_eqb_neq (a b : K) : a <> b -> key_eqb a b = false.
Proof.
  intros N. destruct (key_eqb a b) eqn:Eab; [|reflexivity].
  now apply key_eqb_eq in Eab.
Qed.

Lemma dict_get_set_same (k : K) (v : V) (d : dict K V) :
  dict_get k (dict_set k v d) = Some v.
Proof.
  induction d as [|[k' v'] d IH]; simpl.
  - now rewrite key_eqb_refl.
  - destruct (key_eqb k k') eqn:Ek; simpl; rewrite Ek; auto.
Qed.

Lemma dict_get_set_other (k k0 : K) (v : V) (d : dict K V) :
  k <> k0 -> dict_get k (dict_set k0 v d) = dict_get k d.
Proof.
  intros N. induction d as [|[k' v'] d IH]; simpl.
  - now rewrite (key_eqb_neq k k0).
  - destruct (key_eqb k0 k') eqn:Ek; simpl.
    + apply key_eqb_eq in Ek; subst k'.
      now rewrite (key_eqb_neq k k0 N).
    + now rewrite IH.
Qed.

Lemma dict_get_set (k k0 : K) (v : V) (d : dict K V) :
  dict_get k (dict_set k0 v d)
  = if key_eqb k k0 then Some v else dict_get k d.
Proof.
  destruct (key_eqb k k0) eqn:Ek.
  - apply key_eqb_eq in Ek; subst. apply dict_get_set_same.
  - apply dict_get_set_other. intros ->. now rewrite key_eqb_refl in Ek.
Qed.

Lemma dict_get_None_keys (k : K) (d : dict K V) :
  dict_get k d = None <-> ~ In k (dict_keys d).
Proof.
  induction d as [|[k' v'] d IH]; simpl.
  - tauto.
  - destruct (key_eqb k k') eqn:Ek.
    + apply key_eqb_eq in Ek; subst. split; [discriminate | tauto].
    + rewrite IH. split; [|tauto].
      intros N [->|I]; [now rewrite key_eqb_refl in Ek | tauto].
Qed.

Lemma dict_get_In (k : K) (v : V) (d : dict K V) :
  dict_get k d = Some v -> In (k, v) d.
Proof.
  induction d as [|[k' v'] d IH]; simpl; [discriminate|].
  destruct (key_eqb k k') eqn:Ek.
  - apply key_eqb_eq in Ek; subst. intros [= ->]. now left.
  - auto.
Qed.

Lemma dict_in_keys (k : K) (d : dict K V) :
  dict_in k d = true <-> In k (dict_keys d).
Proof.
  unfold dict_in. destruct (dict_get k d) eqn:G.
  - split; [intros _|reflexivity].
    apply dict_get_In in G. now apply (in_map fst) in G.
  - split; [discriminate|]. intros I. now apply dict_get_None_keys in G.
Qed.

Lemma distinct_keys_NoDup (d : dict K V) :
  distinct_keys d = true <-> NoDup (dict_keys d).
Proof.
  induction d as [|[k v] d IH]; simpl.
  - split; [constructor | reflexivity].
  - rewrite andb_true_iff, negb_true_iff, IH. split.
    + intros [N D]. constructor; [|exact D].
      rewrite <- dict_in_keys. now rewrite N.
    + intros D. inversion D as [|? ? N D']; subst. split; [|exact D'].
      destruct (dict_in k d) eqn:I; [|reflexivity].
      now apply dict_in_keys in I.
Qed.

Lemma In_dict_get (k : K) (v : V) (d : dict K V) :
  NoDup (dict_keys d) -> In (k, v) d -> dict_get k d = Some v.
Proof.
  induction d as [|[k' v'] d IH]; simpl; [tauto|].
  intros D [[= -> ->]|I].
  - now rewrite key_eqb_refl.
  - inversion D as [|? ? N D']; subst.
    rewrite key_eqb_neq; [auto|].
    intros ->. apply N. now apply (in_map fst) in I.
Qed.

Lemma dict_set_absent (k : K) (v : V) (d : dict K V) :
  ~ In k (dict_keys d) -> dict_set k v d = d ++ [(k, v)].
Proof.
  induction d as [|[k' v'] d IH]; simpl; [reflexivity|].
  intros N. rewrite key_eqb_neq by (intros ->; apply N; now left).
  rewrite IH by tauto. reflexivity.
Qed.

Lemma dict_keys_set_present (k : K) (v : V) (d : dict K V) :
  In k (dict_keys d) -> dict_keys (dict_set k v d) = dict_keys d.
Proof.
  induction d as [|[k' v'] d IH]; simpl; [tauto|].
  intros I. destruct (key_eqb k k') eqn:Ek; simpl; [reflexivity|].
  f_equal. apply IH. destruct I as [->|I]; [|exact I].
  now rewrite key_eqb_refl in Ek.
Qed.

Lemma dict_keys_set (k : K) (v : V) (d : dict K V) :
  dict_keys (dict_set k v d)
  = if dict_in k d then dict_keys d else dict_keys d ++ [k].
Proof.
  destruct (dict_in k d) eqn:I.
  - apply dict_keys_set_present. now apply dict_in_keys.
  - assert (N : ~ In k (dict_keys d)).
    { intros I'. apply dict_in_keys in I'. congruence. }
    rewrite (dict_set_absent _ _ _ N). unfold dict_keys.
    now rewrite map_app.
Qed.

Lemma NoDup_dict_set (k : K) (v : V) (d : dict K V) :
  NoDup (dict_keys d) -> NoDup (dict_keys (dict_set k v d)).
Proof.
  intros D. rewrite dict_keys_set. destruct (dict_in k d) eqn:I; [exact D|].
  assert (N : ~ In k (dict_keys d)).
  { intros I'. apply dict_in_keys in I'. congruence. }
  apply NoDup_app; [exact D | repeat constructor; simpl; tauto |].
  intros x Hx [<-|[]]. contradiction.
Qed.

Lemma NoDup_dict_update (d : dict K V) (items : list (K * V)) :
  NoDup (dict_keys d) -> NoDup (dict_keys (dict_update d items)).
Proof.
  revert d. induction items as [|[k v] items IH]; simpl; intros d D.
  - exact D.
  - apply IH. now apply NoDup_dict_set.
Qed.

Lemma dict_get_update (k : K) (d : dict K V) (items : list (K * V)) :
  NoDup (dict_keys items) ->
  dict_get k (dict_update d items)
  = match dict_get k items with Some v => Some v | None => dict_get k d end.
Proof.
  revert d. induction items as [|[k' v'] items IH]; simpl; intros d D.
  - reflexivity.
  - inversion D as [|? ? N D']; subst.
    rewrite (IH _ D'), dict_get_set.
    destruct (key_eqb k k') eqn:Ek; [|reflexivity].
    apply key_eqb_eq in Ek; subst k'.
    apply dict_get_None_keys in N. now rewrite N.
Qed.

Lemma dict_update_fresh (d : dict K V) (items : list (K * V)) :
  NoDup (dict_keys items) ->
  (forall k, In k (dict_keys items) -> ~ In k (dict_keys d)) ->
  dict_update d items = d ++ items.
Proof.
  revert d. induction items as [|[k v] items IH]; simpl; intros d D F.
  - now rewrite app_nil_r.
  - inversion D as [|? ? N D']; subst.
    rewrite dict_set_absent by (apply F; now left).
    rewrite IH; [now rewrite <- app_assoc | exact D' |].
    intros k' I. unfold dict_keys. rewrite map_app, in_app_iff. simpl.
    intros [I'|[<-|[]]]; [|contradiction].
    apply (F k'); [now right | exact I'].
Qed.

Lemma dict_of_items_NoDup (items : list (K * V)) :
  NoDup (dict_keys items) -> dict_of_items items = items.
Proof.
  intros D. unfold dict_of_items. rewrite dict_update_fresh; auto.
Qed.

Lemma In_dict_set (x : K * V) (k : K) (v : V) (d : dict K V) :
  In x (dict_set k v d) -> In x d \/ x = (k, v).
Proof.
  induction d as [|[k' v'] d IH]; simpl.
  - intros [<-|[]]. now right.
  - destruct (key_eqb k k') eqn:Ek; simpl.
    + apply key_eqb_eq in Ek; subst k'. intros [<-|I]; auto.
    + intros [<-|I]; auto. destruct (IH I); auto.
Qed.

Lemma In_dict_update (x : K * V) (d : dict K V) (items : list (K * V)) :
  In x (dict_update d items) -> In x d \/ In x items.
Proof.
  revert d. induction items as [|[k v] items IH]; simpl; intros d I.
  - now left.
  - destruct (IH _ I) as [I'|I']; [|tauto].
    destruct (In_dict_set _ _ _ _ I') as [?| ->]; tauto.
Qed.
End DictFacts.

Lemma Denomination_ext (a b : Denomination) : value a = value b -> a = b.
Proof.
  destruct a as [va oka], b as [vb okb]; simpl; intros ->.
  f_equal. apply UIP_dec, bool_dec.
Qed.

Lemma Denomination_eqb_eq (a b : Denomination) :
  key_eqb a b = true <-> a = b.
Proof.
  simpl; unfold Denomination_eqb; split.
  - intros Eab. apply Denomination_ext, Z.eqb_eq, Eab.
  - intros ->. apply Z.eqb_refl.
Qed.

Lemma option_Z_eqb_eq (a b : option Z) : key_eqb a b = true <-> a = b.
Proof.
  destruct a as [x|], b as [y|]; simpl; split; try congruence.
  - intros Exy. apply Z.eqb_eq in Exy. congruence.
  - intros [= ->]. apply Z.eqb_refl.
Qed.

Lemma Z_key_eqb_eq (a b : Z) : key_eqb a b = true <-> a = b.
Proof. apply Z.eqb_eq. Qed.

Lemma Denomination_check_cases (v : Z) (b : bool)
    (e : denomination_value_ok v = b) :
  (b = false /\ Denomination_check v b e = Raise ValueError)
  \/ (exists d, Denomination_check v b e = Ok d /\ value d = v).
Proof.
  destruct b; simpl.
  - right. eexists. split; reflexivity.
  - left. split; reflexivity.
Qed.

Lemma Denomination_init_cases (v : Z) :
  (denomination_value_ok v = false /\ Denomination_init v = Raise ValueError)
  \/ (exists d, Denomination_init v = Ok d /\ value d = v).
Proof. apply Denomination_check_cases. Qed.

Lemma Denomination_init_value (d : Denomination) :
  Denomination_init (value d) = Ok d.
Proof.
  destruct (Denomination_init_cases (value d)) as [[B _]|(d' & -> & V)].
  - rewrite (value_ok d) in B. discriminate.
  - f_equal. now apply Denomination_ext.
Qed.

(** ** The tests of the repository, replayed on the embedding *)

Example inv_of_is_constructed :
  MonetaryInventory_init [(D 100 eq_refl, 5); (D 10 eq_refl, 3)] None
  = Ok (inv_of [(D 100 eq_refl, 5); (D 10 eq_refl, 3)]).
Proof. reflexivity. Qed.

Example test_zero_denomination :
  find_optimal_change 1
    (mkMonetaryInventory [(D 0 eq_refl, 1)] [D 0 eq_refl])
  = Raise ZeroDivisionError.
Proof. vm_compute. reflexivity. Qed.

Example test_backtracking :
  find_optimal_change 80 (inv_of [(D 50 eq_refl, 3); (D 20 eq_refl, 4)])
  = Ok (Some (mkChangeConfiguration 0 [(D 20 eq_refl, 4)])).
Proof. vm_compute. reflexivity. Qed.

Example test_no_available_change :
  find_optimal_change 50 (inv_of [(D 100 eq_refl, 2); (D 200 eq_refl, 1)])
  = Ok (Some (mkChangeConfiguration 50 [])).
Proof. vm_compute. reflexivity. Qed.

Example test_partial_change2 :
  find_optimal_change 150 (inv_of [(D 100 eq_refl, 2); (D 10 eq_refl, 1)])
  = Ok (Some (mkChangeConfiguration 40 [(D 100 eq_refl, 1); (D 10 eq_refl, 1)])).
Proof. vm_compute. reflexivity. Qed.

Example test_absent :
  find_optimal_change sys_maxsize (inv_of []) = Ok None.
Proof. vm_compute. reflexivity. Qed.

Example test_transaction_with_change :
  let '(r, vm) := run [start; select 2; insert 200; checkout] test_machine in
  r = Ok tt /\ state vm = IDLE /\
  inventory (monetary_inventory vm)
  = [(D 100 eq_refl, 4); (D 10 eq_refl, 3); (D 200 eq_refl, 1)] /\
  customer_balance vm = 100 /\ selected_product vm = None.
Proof. vm_compute. repeat split; reflexivity. Qed.

Example test_accept_transaction_with_missing_change :
  let '(r, vm) := run [start; select 3; insert 200; checkout; accept] test_machine in
  r = Ok tt /\ state vm = IDLE /\
  inventory (monetary_inventory vm)
  = [(D 100 eq_refl, 5); (D 10 eq_refl, 3); (D 200 eq_refl, 1)].
Proof. vm_compute. repeat split; reflexivity. Qed.

Example test_cancel_transaction_with_missing_change :
  let '(r, vm) := run [start; select 3; insert 200; checkout; cancel] test_machine in
  r = Ok tt /\ state vm = IDLE /\
  available_change (monetary_inventory vm)
  = [(D 100 eq_refl, 5); (D 10 eq_refl, 3)].
Proof. vm_compute. repeat split; reflexivity. Qed.

Example test_maintenance_not_allowed :
  fst (run [start; start_maintenance] test_machine) = Raise MachineError.
Proof. vm_compute. reflexivity. Qed.

Example test_exact_change :
  find_optimal_change 210 (inv_of [(D 100 eq_refl, 2); (D 10 eq_refl, 1)])
  = Ok (Some (mkChangeConfiguration 0 [(D 100 eq_refl, 2); (D 10 eq_refl, 1)])).
Proof. vm_compute. reflexivity. Qed.

Example test_exact_change2 :
  find_optimal_change 130
    (inv_of [(D 100 eq_refl, 3); (D 50 eq_refl, 3); (D 20 eq_refl, 3);
             (D 10 eq_refl, 3)])
  = Ok (Some (mkChangeConfiguration 0
                [(D 100 eq_refl, 1); (D 20 eq_refl, 1); (D 10 eq_refl, 1)])).
Proof. vm_compute. reflexivity. Qed.

Example test_exact_change_large_denomination :
  find_optimal_change 200 (inv_of [(D 200 eq_refl, 1); (D 100 eq_refl, 2)])
  = Ok (Some (mkChangeConfiguration 0 [(D 200 eq_refl, 1)])).
Proof. vm_compute. reflexivity. Qed.

Example test_partial_change :
  find_optimal_change 150
    (inv_of [(D 100 eq_refl, 1); (D 20 eq_refl, 1); (D 10 eq_refl, 2)])
  = Ok (Some (mkChangeConfiguration 10
                [(D 100 eq_refl, 1); (D 20 eq_refl, 1); (D 10 eq_refl, 2)])).
Proof. vm_compute. reflexivity. Qed.

Example test_large_quantities_and_large_owed_amount :
  find_optimal_change 7885
    (mkMonetaryInventory
       [(D 2000 eq_refl, 100); (D 1000 eq_refl, 100); (D 500 eq_refl, 100);
        (D 200 eq_refl, 100); (D 100 eq_refl, 100); (D 50 eq_refl, 100);
        (D 20 eq_refl, 100); (D 10 eq_refl, 100); (D 5 eq_refl, 100)]
       [D 2000 eq_refl; D 1000 eq_refl; D 500 eq_refl; D 200 eq_refl;
        D 100 eq_refl; D 50 eq_refl; D 20 eq_refl; D 10 eq_refl; D 5 eq_refl;
        D 2 eq_refl; D 1 eq_refl])
  = Ok (Some (mkChangeConfiguration 0
                [(D 2000 eq_refl, 3); (D 1000 eq_refl, 1); (D 500 eq_refl, 1);
                 (D 200 eq_refl, 1); (D 100 eq_refl, 1); (D 50 eq_refl, 1);
                 (D 20 eq_refl, 1); (D 10 eq_refl, 1); (D 5 eq_refl, 1)])).
Proof. vm_compute. reflexivity. Qed.

Example test_maintenance :
  let '(r, vm) :=
    run [start_maintenance; reload_change [(D 50 eq_refl, 10)];
         machine_add_products [mkProduct 2]; end_maintenance] test_machine in
  r = Ok tt /\ state vm = IDLE /\
  inventory (monetary_inventory vm)
  = [(D 100 eq_refl, 5); (D 10 eq_refl, 3); (D 50 eq_refl, 10)] /\
  dict_get (Some 2) (products (stock vm)) = Some [mkProduct 2; mkProduct 2].
Proof. vm_compute. repeat split; reflexivity. Qed.

Example test_simple_transaction :
  let '(r, vm) := run [start; select 2; insert 100; checkout] test_machine in
  r = Ok tt /\ state vm = IDLE.
Proof. vm_compute. repeat split; reflexivity. Qed.

Example test_update_catalogue :
  let s := Stock_init [(1, mkProductInfo "Product 1" 100);
                       (2, mkProductInfo "Product 2" 200)] [mkProduct 1] in
  let '(r, s') := update_catalogue [(2, mkProductInfo "Updated Product 2" 150);
                                    (3, mkProductInfo "Product 3" 300)] s in
  r = Ok tt /\
  catalogue s' = [(1, mkProductInfo "Product 1" 100);
                  (2, mkProductInfo "Updated Product 2" 150);
                  (3, mkProductInfo "Product 3" 300)].
Proof. vm_compute. repeat split; reflexivity. Qed.

Example test_get_offer_empty_stock :
  fst (get_offer (Stock_init [(1, mkProductInfo "Product 1" 100)] []))
  = Ok [].
Proof. reflexivity. Qed.

(** ** The transition table *)

Lemma filter_nil_existsb {A} (p : A -> bool) (l : list A) :
  filter p l = [] <-> existsb p l = false.
Proof.
  induction l as [|a l IH]; simpl; [tauto|].
  destruct (p a); simpl; [split; discriminate | exact IH].
Qed.

Lemma candidates_nil_iff (t : Trigger.t) (s : States) :
  candidates t s = [] <-> source_matches t s = false.
Proof. apply filter_nil_existsb. Qed.

Lemma start_maintenance_sources (s : States) :
  source_matches Trigger.start_maintenance s = false <-> s <> IDLE.
Proof. destruct s; vm_compute; split; intros; congruence. Qed.

Lemma start_sources (s : States) :
  source_matches Trigger.start s = false <-> s <> IDLE.
Proof. destruct s; vm_compute; split; intros; congruence. Qed.

(** Firing a trigger that has no row for the current state. *)
Lemma fire_without_candidates (t : Trigger.t) (kw : kwargs) (vm : VendingMachine) :
  source_matches t (state vm) = false ->
  fire t kw vm = (Raise MachineError, vm).
Proof.
  intros N. apply candidates_nil_iff in N.
  unfold fire, fire_at. now rewrite N.
Qed.

(** C8.  A trigger fired in a state that is the source of none of its rows
    raises [MachineError] and leaves the machine as it was: state, balance,
    selection, inventory, stock and delivery log are those of before.  In
    particular [start_maintenance] anywhere but in [IDLE], and [start] in
    [MAINTENANCE_MODE]. *)
Theorem invalid_source_raises_and_mutates_nothing
    (t : Trigger.t) (kw : kwargs) (vm : VendingMachine)
    (H : source_matches t (state vm) = false
         \/ (t = Trigger.start_maintenance /\ state vm <> IDLE)
         \/ (t = Trigger.start /\ state vm = MAINTENANCE_MODE)) :
  fire t kw vm = (Raise MachineError, vm).
Proof.
  apply fire_without_candidates.
  destruct H as [H|[[-> H]|[-> H]]].
  - exact H.
  - now apply start_maintenance_sources.
  - apply start_sources. rewrite H. discriminate.
Qed.

Lemma invalid_source_raises_and_mutates_nothing_witness :
  fire Trigger.start_maintenance no_kwargs (set_state PRODUCT_SELECTION test_machine)
  = (Raise MachineError, set_state PRODUCT_SELECTION test_machine).
Proof.
  apply invalid_source_raises_and_mutates_nothing. left. reflexivity.
Defined.

(** A trigger with a row for the current state never raises [MachineError]
    itself at the outer firing: the converse of the above. *)
Lemma valid_source_has_candidates (t : Trigger.t) (s : States) :
  source_matches t s = true -> candidates t s <> [].
Proof.
  intros H C. apply candidates_nil_iff in C. congruence.
Qed.

(** ** Insertion of cash *)

Lemma fire_at_S (n : nat) (t : Trigger.t) (kw : kwargs) (vm : VendingMachine) :
  fire_at (S n) t kw vm
  = match candidates t (state vm) with
    | [] => raise MachineError vm
    | tr :: trs => try_transitions (fire_at n) (tr :: trs) kw vm
    end.
Proof. reflexivity. Qed.

Lemma candidates_insert :
  candidates Trigger.insert COLLECTING_PAYMENT
  = [mkTransition Trigger.insert [COLLECTING_PAYMENT] COLLECTING_PAYMENT
       [] [_insert]].
Proof. reflexivity. Qed.

Lemma insert_in_collecting_payment (v : Z) (vm : VendingMachine) :
  state vm = COLLECTING_PAYMENT ->
  insert v vm
  = match Denomination_init v with
    | Raise e => (Raise e, set_customer_balance (customer_balance vm + v) vm)
    | Ok d =>
        if Denomination_in d (_supported_denominantions (monetary_inventory vm))
        then (Ok true,
              set_state COLLECTING_PAYMENT
                (set_monetary_inventory
                   (snd (inventory_iadd d 1 (monetary_inventory vm)))
                   (set_customer_balance (customer_balance vm + v) vm)))
        else (Raise ValueError, set_customer_balance (customer_balance vm + v) vm)
    end.
Proof.
  intros S. unfold insert, fire. rewrite fire_at_S, S, candidates_insert.
  destruct vm as [st sk mi sel bal dl].
  cbv [try_transitions eval_conditions execute run_before run_callbacks
       on_enter bind ret modify conditions before dest _insert kw_denomination
       lift on_monetary_inventory add_monetary_unit raise].
  cbn [monetary_inventory set_customer_balance customer_balance state stock
       selected_product delivery_system].
  destruct (Denomination_init v) as [d|e]; [|reflexivity].
  cbn [monetary_inventory set_customer_balance customer_balance state stock
       selected_product delivery_system].
  destruct (Denomination_in d (_supported_denominantions mi));
    cbv [negb]; [|reflexivity].
  unfold inventory_iadd.
  destruct (defaultdict_getitem 0 d (inventory mi)); reflexivity.
Qed.

(** C4 (as the code behaves).  In [COLLECTING_PAYMENT], [insert] of a value
    the inventory does not support raises [ValueError]; the inventory, the
    state, the stock and the selection are those of before, but
    [customer_balance] has already been raised by the value: [_insert] adds
    to the balance before the denomination is built and checked. *)
Theorem insert_unsupported_credits_balance_before_raising
    (vm : VendingMachine) (v : Z)
    (Hstate : state vm = COLLECTING_PAYMENT)
    (Hunsupported : supports (monetary_inventory vm) v = false) :
  insert v vm
  = (Raise ValueError, set_customer_balance (customer_balance vm + v) vm).
Proof.
  rewrite insert_in_collecting_payment by exact Hstate.
  unfold supports in Hunsupported.
  destruct (Denomination_init_cases v) as [[_ R]|(d & R & _)];
    rewrite R in *; [reflexivity|].
  now rewrite Hunsupported.
Qed.

Lemma insert_unsupported_credits_balance_before_raising_witness :
  insert 3 (set_state COLLECTING_PAYMENT test_machine)
  = (Raise ValueError,
     set_customer_balance (customer_balance test_machine + 3)
       (set_state COLLECTING_PAYMENT test_machine))
  /\ customer_balance test_machine + 3 <> customer_balance test_machine.
Proof.
  split.
  - apply (insert_unsupported_credits_balance_before_raising
             (set_state COLLECTING_PAYMENT test_machine) 3); reflexivity.
  - vm_compute. discriminate.
Defined.

(** ** Session state across transactions *)

Lemma start_from_IDLE (vm : VendingMachine) :
  state vm = IDLE -> start vm = (Ok true, set_state PRODUCT_SELECTION vm).
Proof.
  intros S. destruct vm as [st sk mi sel bal dl]. simpl in S. subst st.
  reflexivity.
Qed.

(** C1 (as the code behaves).  On the machine of the tests, a purchase of
    product 2 (price 100) paid with a 200 ends in [IDLE] with a balance of
    100, and the next [start] enters [PRODUCT_SELECTION] with that balance;
    a payment cancelled with [cancel] ends in [IDLE] with the balance of 200
    and the selection still set, and the next [start] keeps both. *)
Theorem session_state_carries_over :
  (let '(r, vm) := run [start; select 2; insert 200; checkout] test_machine in
   r = Ok tt /\ state vm = IDLE /\ customer_balance vm = 100 /\
   start vm = (Ok true, set_state PRODUCT_SELECTION vm) /\
   customer_balance (snd (start vm)) = 100)
  /\
  (let '(r, vm) := run [start; select 2; insert 200; cancel] test_machine in
   r = Ok tt /\ state vm = IDLE /\ customer_balance vm = 200 /\
   selected_product vm = Some 2 /\
   start vm = (Ok true, set_state PRODUCT_SELECTION vm) /\
   customer_balance (snd (start vm)) = 200 /\
   selected_product (snd (start vm)) = Some 2).
Proof. vm_compute. repeat split; reflexivity. Qed.

(** ** Removal of change *)

(** C10.  [remove_change] is not atomic: asked for two 100 and five 10 from
    an inventory of five 100 and three 10, it raises [RuntimeError] at the
    10, and the count of 100, processed first, has already gone down by
    two. *)
Theorem remove_change_not_atomic :
  exists (m m' : MonetaryInventory) (change : dict Denomination Z)
         (d : Denomination) (q : Z),
    (2 <= List.length change)%nat /\
    distinct_keys change = true /\
    hd_error change = Some (d, q) /\
    remove_change change m = (Raise RuntimeError, m') /\
    count_of m' d = count_of m d - q /\
    count_of m' d < count_of m d.
Proof.
  exists (inv_of [(D 100 eq_refl, 5); (D 10 eq_refl, 3)]).
  eexists.
  exists [(D 100 eq_refl, 2); (D 10 eq_refl, 5)], (D 100 eq_refl), 2.
  vm_compute. repeat split; reflexivity.
Qed.

(** ** The catalogue *)

Lemma dict_get_app_absent {K V} {E : EqKey K} (k k0 : K) (v0 : V) (d : dict K V) :
  dict_get k (d ++ [(k0, v0)])
  = match dict_get k d with
    | Some v => Some v
    | None => if key_eqb k k0 then Some v0 else None
    end.
Proof.
  induction d as [|[k' v'] d IH]; simpl; [reflexivity|].
  destruct (key_eqb k k'); [reflexivity | exact IH].
Qed.

Lemma set_products_same (s : Stock) : set_products (products s) s = s.
Proof. now destruct s. Qed.

(** Reading a queue through the defaultdict may insert an empty queue; it
    changes neither the catalogue nor which products are in stock. *)
Lemma defaultdict_getitem_queue (s : Stock) (product_id : ProductID) :
  forall q prods,
    defaultdict_getitem [] (Some product_id) (products s) = (q, prods) ->
    catalogue (set_products prods s) = catalogue s /\
    (forall i, in_stock (set_products prods s) i = in_stock s i) /\
    in_stock s product_id = match q with [] => false | _ :: _ => true end.
Proof.
  intros q prods. unfold defaultdict_getitem, in_stock.
  destruct (dict_get (Some product_id) (products s)) as [q0|] eqn:G.
  - intros [= <- <-]. rewrite set_products_same. repeat split.
  - intros [= <- <-]. simpl. repeat split.
    intros i. rewrite dict_get_app_absent.
    destruct (dict_get (Some i) (products s)) as [qi|] eqn:Gi; [reflexivity|].
    now destruct (key_eqb (Some i) (Some product_id)).
Qed.

Lemma get_offer_loop_spec (items : list (ProductID * ProductInfo)) :
  NoDup (dict_keys items) ->
  forall (acc : dict ProductID ProductInfo) (s : Stock),
  exists offer s',
    get_offer_loop items acc s = (Ok offer, s') /\
    catalogue s' = catalogue s /\
    (forall i, in_stock s' i = in_stock s i) /\
    (NoDup (dict_keys acc) -> NoDup (dict_keys offer)) /\
    (forall i, dict_get i offer
               = match dict_get i items with
                 | Some info => if in_stock s i then Some info else dict_get i acc
                 | None => dict_get i acc
                 end).
Proof.
  induction items as [|[pid info] items IH]; intros D acc s; simpl.
  - exists acc, s. repeat split; auto.
  - inversion D as [|? ? N D']; subst.
    destruct (defaultdict_getitem [] (Some pid) (products s)) as [q prods] eqn:G.
    destruct (defaultdict_getitem_queue s pid q prods G) as (C1 & S1 & Q).
    set (acc' := match q with [] => acc | _ :: _ => dict_set pid info acc end).
    destruct (IH D' acc' (set_products prods s))
      as (offer & s' & R & C2 & S2 & ND & L).
    exists offer, s'. split; [exact R|]. split; [congruence|].
    split; [intros i; now rewrite S2, S1|]. split.
    + intros NA. apply ND. unfold acc'. destruct q; [exact NA|].
      now apply (NoDup_dict_set Z_key_eqb_eq).
    + intros i. rewrite L, S1.
      destruct (i =? pid) eqn:Ei.
      * apply Z.eqb_eq in Ei; subst i.
        assert (G0 : dict_get pid items = None)
          by now apply (dict_get_None_keys Z_key_eqb_eq).
        rewrite G0, Q. unfold acc'. destruct q; [reflexivity|].
        apply (dict_get_set_same Z_key_eqb_eq).
      * assert (A : dict_get i acc' = dict_get i acc).
        { unfold acc'. destruct q; [reflexivity|].
          apply (dict_get_set_other Z_key_eqb_eq). intros ->.
          now rewrite Z.eqb_refl in Ei. }
        now rewrite A.
Qed.

Lemma get_offer_spec (s : Stock) :
  NoDup (dict_keys (catalogue s)) ->
  exists offer s',
    get_offer s = (Ok offer, s') /\
    catalogue s' = catalogue s /\
    (forall i, in_stock s' i = in_stock s i) /\
    NoDup (dict_keys offer) /\
    (forall i, dict_get i offer
               = if in_stock s i then dict_get i (catalogue s) else None).
Proof.
  intros D. unfold get_offer.
  destruct (get_offer_loop_spec (catalogue s) D [] s)
    as (offer & s' & R & C & S & ND & L).
  exists offer, s'. repeat split; auto.
  - apply ND. constructor.
  - intros i. rewrite L. simpl.
    destruct (dict_get i (catalogue s)); [|now destruct (in_stock s i)].
    reflexivity.
Qed.

(** C9.  [update_catalogue] leaves as catalogue the offer of before merged
    under the new catalogue.  An id of the new catalogue has the new info; an
    id absent from it keeps its old info when a unit of it is in stock; an
    id of neither the offer nor the new catalogue has no entry; an id of the
    new catalogue with no unit in stock has its entry but is not in the
    offer computed afterwards. *)
Theorem update_catalogue_merges_offer_under_new
    (s : Stock) (new_catalogue : dict ProductID ProductInfo)
    (Hold : distinct_keys (catalogue s) = true)
    (Hnew : distinct_keys new_catalogue = true) :
  exists offer s0 s',
    get_offer s = (Ok offer, s0) /\
    update_catalogue new_catalogue s = (Ok tt, s') /\
    catalogue s' = dict_union offer new_catalogue /\
    (forall i, in_stock s' i = in_stock s i) /\
    (forall i, dict_get i offer
               = if in_stock s i then dict_get i (catalogue s) else None) /\
    forall i,
      (forall info, dict_get i new_catalogue = Some info ->
                    dict_get i (catalogue s') = Some info) /\
      (dict_get i new_catalogue = None -> in_stock s i = true ->
       dict_get i (catalogue s') = dict_get i (catalogue s)) /\
      (dict_get i new_catalogue = None -> dict_get i offer = None ->
       dict_get i (catalogue s') = None) /\
      (forall info, dict_get i new_catalogue = Some info ->
                    in_stock s i = false ->
                    dict_get i (catalogue s') = Some info /\
                    exists offer' s'',
                      get_offer s' = (Ok offer', s'') /\
                      dict_get i offer' = None).
Proof.
  apply (distinct_keys_NoDup Z_key_eqb_eq) in Hold, Hnew.
  destruct (get_offer_spec s Hold) as (offer & s0 & R & C & S & ND & L).
  exists offer, s0, (set_catalogue (dict_union offer new_catalogue) s0).
  assert (G : forall i, dict_get i (dict_union offer new_catalogue)
                        = match dict_get i new_catalogue with
                          | Some v => Some v
                          | None => dict_get i offer
                          end).
  { intros i. apply (dict_get_update Z_key_eqb_eq). exact Hnew. }
  split; [exact R|]. split.
  { unfold update_catalogue, bind, modify. now rewrite R. }
  split; [reflexivity|]. split; [exact S|]. split; [exact L|].
  intros i. cbn [catalogue set_catalogue]. rewrite G.
  split; [|split; [|split]].
  - now intros info ->.
  - intros -> I. now rewrite L, I.
  - now intros -> ->.
  - intros info Gi I. rewrite Gi. split; [reflexivity|].
    set (s' := set_catalogue (dict_union offer new_catalogue) s0).
    assert (D' : NoDup (dict_keys (catalogue s'))).
    { apply (NoDup_dict_update Z_key_eqb_eq). exact ND. }
    destruct (get_offer_spec s' D') as (offer' & s'' & R' & _ & _ & _ & L').
    exists offer', s''. split; [exact R'|].
    rewrite L'. unfold s'.
    replace (in_stock (set_catalogue (dict_union offer new_catalogue) s0) i)
      with (in_stock s i); [now rewrite I|].
    rewrite <- S. reflexivity.
Qed.

Lemma update_catalogue_merges_offer_under_new_witness :
  exists offer s0 s',
    get_offer (Stock_init [(1, mkProductInfo "Product 1" 100);
                           (2, mkProductInfo "Product 2" 200)] [mkProduct 1])
    = (Ok offer, s0) /\
    update_catalogue [(2, mkProductInfo "Updated Product 2" 150);
                      (3, mkProductInfo "Product 3" 300)]
      (Stock_init [(1, mkProductInfo "Product 1" 100);
                   (2, mkProductInfo "Product 2" 200)] [mkProduct 1])
    = (Ok tt, s') /\
    dict_get 1 (catalogue s') = Some (mkProductInfo "Product 1" 100) /\
    dict_get 2 (catalogue s') = Some (mkProductInfo "Updated Product 2" 150) /\
    dict_get 3 (catalogue s') = Some (mkProductInfo "Product 3" 300).
Proof.
  destruct (update_catalogue_merges_offer_under_new
              (Stock_init [(1, mkProductInfo "Product 1" 100);
                           (2, mkProductInfo "Product 2" 200)] [mkProduct 1])
              [(2, mkProductInfo "Updated Product 2" 150);
               (3, mkProductInfo "Product 3" 300)]
              eq_refl eq_refl)
    as (offer & s0 & s' & R & U & C & S & L & P).
  exists offer, s0, s'. split; [exact R|]. split; [exact U|].
  split; [|split].
  - destruct (P 1) as (_ & P1 & _). exact (P1 eq_refl eq_refl).
  - destruct (P 2) as (P2 & _). apply P2. reflexivity.
  - destruct (P 3) as (P3 & _). apply P3. reflexivity.
Defined.

(** ** The change search *)

Lemma In_insert_desc (x y : Z) (l : list Z) :
  In y (insert_desc x l) <-> y = x \/ In y l.
Proof.
  induction l as [|z l IH]; simpl.
  - intuition.
  - destruct (z <? x); simpl; [intuition|]. rewrite IH. intuition.
Qed.

Lemma In_sorted_reverse (y : Z) (l : list Z) :
  In y (sorted_reverse l) <-> In y l.
Proof.
  induction l as [|z l IH]; simpl; [tauto|].
  rewrite In_insert_desc, IH. intuition.
Qed.

Lemma insert_desc_perm (x : Z) (l : list Z) :
  Permutation (x :: l) (insert_desc x l).
Proof.
  induction l as [|y l IH]; simpl; [reflexivity|].
  destruct (y <? x); [reflexivity|].
  rewrite perm_swap. now constructor.
Qed.

Lemma sorted_reverse_perm (l : list Z) : Permutation l (sorted_reverse l).
Proof.
  induction l as [|x l IH]; simpl; [constructor|].
  rewrite <- insert_desc_perm. now constructor.
Qed.

Lemma insert_desc_sorted (x : Z) (l : list Z) :
  Sorted Z.ge l -> Sorted Z.ge (insert_desc x l).
Proof.
  induction l as [|y l IH]; simpl; intros S.
  - repeat constructor.
  - destruct (y <? x) eqn:Lt.
    + apply Z.ltb_lt in Lt. constructor; [exact S|]. constructor. lia.
    + apply Z.ltb_ge in Lt. inversion S as [|? ? S' H]; subst.
      constructor; [now apply IH|].
      destruct l as [|z l]; simpl.
      * constructor. lia.
      * destruct (z <? x); constructor; [lia|].
        inversion H; subst. assumption.
Qed.

(** [sorted_reverse] is [sorted(..., reverse=True)]: the same elements, in
    descending order. *)
Lemma sorted_reverse_sorted (l : list Z) : Sorted Z.ge (sorted_reverse l).
Proof.
  induction l as [|x l IH]; simpl; [constructor|].
  now apply insert_desc_sorted.
Qed.

Lemma In_reversed_range_1 (n m : Z) :
  In n (reversed_range_1 m) <-> 1 <= n <= m.
Proof.
  unfold reversed_range_1. rewrite in_map_iff. split.
  - intros (k & <- & I). apply in_rev, in_seq in I. lia.
  - intros R. exists (Z.to_nat n). split; [lia|].
    apply -> in_rev. apply in_seq. lia.
Qed.

Lemma In_positive_keys (d : Z) (change : dict Z Z) :
  In d (positive_keys change) <-> exists q, In (d, q) change /\ 0 < q.
Proof.
  unfold positive_keys. rewrite in_map_iff. split.
  - intros ([d' q] & <- & I). apply filter_In in I. simpl in *.
    exists q. split; [tauto|]. lia.
  - intros (q & I & P). exists (d, q). split; [reflexivity|].
    apply filter_In. simpl. split; [exact I|]. lia.
Qed.

Lemma positive_key_has_count (d : Z) (change : dict Z Z) :
  In d (positive_keys change) -> exists q, dict_get d change = Some q.
Proof.
  intros I. apply In_positive_keys in I. destruct I as (q & I & _).
  destruct (dict_get d change) eqn:G; [eauto|].
  apply (dict_get_None_keys Z_key_eqb_eq) in G.
  exfalso. apply G. now apply (in_map fst) in I.
Qed.

Lemma positive_keys_zeroed_subset (d d' : Z) (change : dict Z Z) :
  In d' (positive_keys (dict_set d 0 change)) -> In d' (positive_keys change).
Proof.
  rewrite !In_positive_keys. intros (q & I & P).
  destruct (In_dict_set Z_key_eqb_eq _ _ _ _ I) as [I'|[= -> ->]]; [eauto|lia].
Qed.

Lemma positive_keys_zeroed_length (d avail : Z) (change : dict Z Z) :
  dict_get d change = Some avail -> 0 < avail ->
  S (List.length (positive_keys (dict_set d 0 change)))
  = List.length (positive_keys change).
Proof.
  unfold positive_keys.
  induction change as [|[k v] change IH]; simpl; [discriminate|].
  fold (k =? d). rewrite Z.eqb_sym.
  destruct (k =? d) eqn:Ek; simpl.
  - intros [= ->] P. destruct (avail >? 0) eqn:G; [reflexivity|lia].
  - intros G P. destruct (v >? 0); simpl; rewrite <- (IH G P); reflexivity.
Qed.

Lemma positive_denominations_zeroed (d : Z) (change : dict Z Z) :
  positive_denominations change ->
  positive_denominations (dict_set d 0 change).
Proof.
  intros P d' I. apply P. now apply positive_keys_zeroed_subset in I.
Qed.

Lemma units_fit (owed d units avail : Z) :
  0 < d -> 1 <= units <= Z.min (owed / d) avail ->
  0 <= owed - units * d <= owed /\ 0 < avail.
Proof.
  intros Pd R.
  assert (Ha : d * (owed / d) <= owed) by (apply Z.mul_div_le; lia).
  nia.
Qed.

Lemma search_space_bounds (owed : Z) (change current sol : dict Z Z) (r : Z) :
  search_space owed change current sol r ->
  positive_denominations change -> 0 <= owed -> 0 <= r <= owed.
Proof.
  induction 1 as [|owed change current d avail n sol r I G R _ IH];
    intros P O; [lia|].
  destruct (units_fit owed d n avail (P d I) R) as [B _].
  specialize (IH (positive_denominations_zeroed _ _ P)). lia.
Qed.

Lemma provenance_trans (owed : Z) (change current : dict Z Z)
    (best b1 b : solution) (lowest l1 l : Z) :
  provenance owed change current best lowest b1 l1 ->
  provenance owed change current b1 l1 b l ->
  provenance owed change current best lowest b l.
Proof.
  intros P1 [[-> ->]|N]; [exact P1 | now right].
Qed.

Section LoopFacts.
Variable recurse :
  Z -> dict Z Z -> solution -> solution -> Z -> result (solution * Z).
Variable bound : nat.
Hypothesis recurse_spec :
  forall owed change current best lowest,
    0 <= owed -> 0 <= lowest -> positive_denominations change ->
    (List.length (positive_keys change) < bound)%nat ->
    exists res,
      recurse owed change (Some current) best lowest = Ok res /\
      backtrack_post owed change current best lowest res.

Variables (owed : Z) (change current : dict Z Z).
Hypothesis change_positive : positive_denominations change.
Hypothesis change_measure : (List.length (positive_keys change) <= bound)%nat.

Lemma for_units_spec (d avail : Z) :
  In d (positive_keys change) -> dict_get d change = Some avail ->
  forall units best lowest,
    (forall n, In n units -> 1 <= n <= Z.min (owed / d) avail) ->
    0 <= lowest ->
    exists o,
      for_units recurse owed change current d units best lowest = Ok o /\
      loop_post owed change current
        (fun sol r => exists n, In n units /\
           search_space (owed - n * d) (dict_set d 0 change)
             (dict_set d n current) sol r)
        best lowest o.
Proof.
  intros I G. induction units as [|n units IH]; intros best lowest U L.
  - eexists. split; [reflexivity|]. simpl. split; [lia|]. split.
    + now left.
    + intros sol r (n & [] & _).
  - assert (Rn : 1 <= n <= Z.min (owed / d) avail) by (apply U; now left).
    destruct (units_fit owed d n avail (change_positive d I) Rn) as [B A].
    destruct (recurse_spec (owed - n * d) (dict_set d 0 change)
                (dict_set d n current) best lowest)
      as ([b1 l1] & Rec & (L1 & P1 & M1)); try lia.
    { now apply positive_denominations_zeroed. }
    { pose proof (positive_keys_zeroed_length d avail change G A). lia. }
    simpl in L1, P1, M1.
    assert (P1' : provenance owed change current best lowest b1 l1).
    { destruct P1 as [P1|(sol & -> & N)]; [now left|right].
      exists sol. split; [reflexivity|]. eapply search_step; eauto. }
    cbn [for_units]. rewrite Rec. cbn [rbind].
    destruct (l1 =? 0) eqn:Z1.
    { apply Z.eqb_eq in Z1; subst l1. eexists. split; [reflexivity|].
      simpl. split; [reflexivity | exact P1']. }
    apply Z.eqb_neq in Z1.
    destruct (l1 <? lowest) eqn:Lt.
    + apply Z.ltb_lt in Lt.
      destruct (IH b1 l1) as (o & Ro & Po); [intros; apply U; now right | lia |].
      exists o. split; [exact Ro|].
      destruct o as [[b l]|b l]; simpl in *.
      * destruct Po as [-> Pb]. split; [reflexivity|].
        destruct Pb as [[-> El]|N]; [lia | now right].
      * destruct Po as (Lb & Pb & Mb). split; [lia|]. split.
        { eapply provenance_trans; eauto. }
        intros sol r (n' & [<-|In'] & N).
        -- pose proof (M1 sol r N). lia.
        -- apply (Mb sol). eauto.
    + apply Z.ltb_ge in Lt.
      destruct (IH best lowest) as (o & Ro & Po); [intros; apply U; now right | lia |].
      exists o. split; [exact Ro|].
      destruct o as [[b l]|b l]; simpl in *; [exact Po|].
      destruct Po as (Lb & Pb & Mb). split; [lia|]. split; [exact Pb|].
      intros sol r (n' & [<-|In'] & N).
      * pose proof (M1 sol r N). lia.
      * apply (Mb sol). eauto.
Qed.

Lemma for_denominations_spec :
  forall ds best lowest,
    (forall d, In d ds -> In d (positive_keys change)) ->
    0 <= lowest ->
    exists o,
      for_denominations recurse owed change current ds best lowest = Ok o /\
      loop_post owed change current
        (fun sol r => exists d avail n,
           In d ds /\ dict_get d change = Some avail /\
           1 <= n <= Z.min (owed / d) avail /\
           search_space (owed - n * d) (dict_set d 0 change)
             (dict_set d n current) sol r)
        best lowest o.
Proof.
  induction ds as [|d ds IH]; intros best lowest Ds L.
  - eexists. split; [reflexivity|]. simpl. split; [lia|]. split.
    + now left.
    + intros sol r (d & avail & n & [] & _).
  - assert (I : In d (positive_keys change)) by (apply Ds; now left).
    pose proof (change_positive d I) as Pd.
    destruct (positive_key_has_count d change I) as (avail & G).
    cbn [for_denominations].
    replace (d =? 0) with false by (symmetry; apply Z.eqb_neq; lia).
    rewrite G.
    destruct (for_units_spec d avail I G
                (reversed_range_1 (Z.min (owed / d) avail)) best lowest)
      as (o1 & R1 & P1); [intros n; apply In_reversed_range_1 | exact L |].
    rewrite R1. cbn [rbind].
    destruct o1 as [[b1 l1]|b1 l1]; simpl in P1.
    + eexists. split; [reflexivity|]. exact P1.
    + destruct P1 as (L1 & Pv1 & M1).
      destruct (IH b1 l1) as (o & Ro & Po); [intros; apply Ds; now right | lia |].
      exists o. split; [exact Ro|].
      destruct o as [[b l]|b l]; simpl in *.
      * destruct Po as [-> Pb]. split; [reflexivity|].
        eapply provenance_trans; eauto.
      * destruct Po as (Lb & Pb & Mb). split; [lia|]. split.
        { eapply provenance_trans; eauto. }
        intros sol r (d' & avail' & n & [<-|In'] & G' & Rn & N).
        -- assert (avail' = avail) by congruence. subst avail'.
           assert (l1 <= r); [|lia]. apply (M1 sol). exists n. split; [|exact N].
           now apply In_reversed_range_1.
        -- apply (Mb sol). exists d', avail', n. auto.
Qed.
End LoopFacts.

(** The search, given fuel above the number of positive counts, returns, and
    its result is the least remainder of the search space (or the bound
    handed in, when that is lower). *)
Lemma backtrack_best_change_spec (fuel : nat) :
  forall owed change current_solution best lowest,
    0 <= owed -> 0 <= lowest -> positive_denominations change ->
    (List.length (positive_keys change) < fuel)%nat ->
    exists res,
      backtrack_best_change fuel owed change current_solution best lowest
      = Ok res /\
      backtrack_post owed change
        (match current_solution with None => [] | Some s => s end)
        best lowest res.
Proof.
  induction fuel as [|fuel IH]; intros owed change cs best lowest O L P F; [lia|].
  set (current := match cs with None => [] | Some s => s end).
  cbn [backtrack_best_change]. fold current.
  assert (Here : search_space owed change current current owed)
    by constructor.
  destruct (owed =? 0) eqn:Z0.
  { apply Z.eqb_eq in Z0. subst owed.
    destruct (0 <? lowest); (eexists; split; [reflexivity|]);
      (split; [simpl; lia|]);
      (split; [right; exists current; split; [reflexivity | exact Here]|]);
      intros sol r N; simpl;
      pose proof (search_space_bounds _ _ _ _ _ N P); lia. }
  apply Z.eqb_neq in Z0.
  set (bl := if owed <? lowest then (Some current, owed) else (best, lowest)).
  assert (Pbl : provenance owed change current best lowest (fst bl) (snd bl)
                /\ 0 <= snd bl <= lowest /\ snd bl <= owed).
  { unfold bl. destruct (owed <? lowest) eqn:Lt; simpl.
    - apply Z.ltb_lt in Lt.
      split; [right; exists current; split; [reflexivity | exact Here] | lia].
    - apply Z.ltb_ge in Lt. split; [now left | lia]. }
  destruct Pbl as (Pv0 & L0 & Le0).
  destruct bl as [best0 lowest0] eqn:Ebl. simpl in Pv0, L0, Le0.
  destruct (for_denominations_spec (backtrack_best_change fuel) fuel
              (fun o c cur b l Ho Hl Hp Hf => IH o c (Some cur) b l Ho Hl Hp Hf)
              owed change current P ltac:(lia)
              (sorted_reverse (positive_keys change)) best0 lowest0)
    as (o & Ro & Po); [intros d; apply In_sorted_reverse | lia |].
  rewrite Ro. cbn [rbind].
  assert (Cover : forall sol r, search_space owed change current sol r ->
            r = owed \/
            exists d avail n,
              In d (sorted_reverse (positive_keys change)) /\
              dict_get d change = Some avail /\
              1 <= n <= Z.min (owed / d) avail /\
              search_space (owed - n * d) (dict_set d 0 change)
                (dict_set d n current) sol r).
  { intros sol r N. inversion N; subst; [now left|right].
    eexists _, _, _. split; [apply In_sorted_reverse; eassumption|]. eauto. }
  destruct o as [[b l]|b l]; simpl in Po; eexists; (split; [reflexivity|]).
  - destruct Po as [-> Pb]. split; [simpl; lia|]. split.
    + simpl. eapply provenance_trans; eauto.
    + intros sol r N. simpl.
      pose proof (search_space_bounds _ _ _ _ _ N P). lia.
  - destruct Po as (Lb & Pb & Mb). split; [simpl; lia|]. split.
    + simpl. eapply provenance_trans; eauto.
    + intros sol r N. simpl. destruct (Cover _ _ N) as [->|C]; [lia|].
      now apply (Mb sol).
Qed.

(** *** Nodes of the search space are the feasible payments *)

Lemma zeroed_not_positive (d : Z) (change : dict Z Z) :
  NoDup (dict_keys change) -> ~ In d (positive_keys (dict_set d 0 change)).
Proof.
  intros D I. apply In_positive_keys in I. destruct I as (q & I & P).
  apply (In_dict_get Z_key_eqb_eq) in I;
    [|now apply (NoDup_dict_set Z_key_eqb_eq)].
  rewrite (dict_get_set_same Z_key_eqb_eq) in I. injection I as <-. lia.
Qed.

Lemma positive_keys_zeroed_other (d d' : Z) (change : dict Z Z) :
  NoDup (dict_keys change) -> d' <> d ->
  In d' (positive_keys change) -> In d' (positive_keys (dict_set d 0 change)).
Proof.
  intros D N. rewrite !In_positive_keys. intros (q & I & P).
  exists q. split; [|exact P].
  apply (dict_get_In Z_key_eqb_eq).
  rewrite (dict_get_set_other Z_key_eqb_eq) by exact N.
  now apply (In_dict_get Z_key_eqb_eq).
Qed.

Lemma int_value_app (a b : dict Z Z) :
  int_value (a ++ b) = int_value a + int_value b.
Proof.
  induction a as [|[k v] a IH]; simpl; [reflexivity|]. rewrite IH. lia.
Qed.

Lemma search_space_solution (owed : Z) (change current sol : dict Z Z) (r : Z) :
  search_space owed change current sol r ->
  NoDup (dict_keys change) ->
  (forall k, In k (dict_keys current) -> ~ In k (positive_keys change)) ->
  exists ext,
    sol = current ++ ext /\
    NoDup (dict_keys ext) /\
    (forall d n, In (d, n) ext ->
       In d (positive_keys change) /\
       exists available,
         dict_get d change = Some available /\ 1 <= n <= available) /\
    r = owed - int_value ext.
Proof.
  induction 1 as [owed change current
                 |owed change current d avail n sol r I G R _ IH];
    intros D U.
  - exists []. rewrite app_nil_r. split; [reflexivity|].
    split; [constructor|]. split; [intros ? ? []|simpl; lia].
  - assert (Fresh : ~ In d (dict_keys current)) by (intros C; now apply (U d)).
    rewrite (dict_set_absent Z_key_eqb_eq d n current Fresh) in IH.
    pose proof (zeroed_not_positive d change D) as Zd.
    destruct IH as (ext & -> & Dext & Fext & ->).
    { now apply (NoDup_dict_set Z_key_eqb_eq). }
    { intros k Ik Pk. unfold dict_keys in Ik. rewrite map_app, in_app_iff in Ik.
      destruct Ik as [Ik|[<-|[]]]; [|contradiction].
      apply (U k Ik). now apply positive_keys_zeroed_subset in Pk. }
    exists ((d, n) :: ext). rewrite <- app_assoc. split; [reflexivity|].
    split; [|split].
    + simpl. constructor; [|exact Dext].
      intros C. unfold dict_keys in C. apply in_map_iff in C.
      destruct C as ([d' n'] & E' & C). simpl in E'. subst d'.
      now destruct (Fext _ _ C).
    + intros d' n' [[= <- <-]|I'].
      * split; [exact I|]. exists avail. split; [exact G|]. lia.
      * destruct (Fext _ _ I') as (P' & avail' & G' & R').
        split; [now apply positive_keys_zeroed_subset in P'|].
        exists avail'. split; [|exact R'].
        rewrite (dict_get_set_other Z_key_eqb_eq) in G'; [exact G'|].
        intros ->. contradiction.
    + simpl. lia.
Qed.

Lemma int_value_nonneg (change payment : dict Z Z) :
  positive_denominations change ->
  (forall d n, In (d, n) payment ->
     In d (positive_keys change) /\
     exists available, dict_get d change = Some available /\ 1 <= n <= available) ->
  0 <= int_value payment.
Proof.
  intros P. induction payment as [|[d n] payment IH]; intros F; simpl; [lia|].
  destruct (F d n (or_introl eq_refl)) as (I & avail & _ & R).
  pose proof (P d I).
  assert (0 <= int_value payment) by (apply IH; intros; apply F; now right).
  nia.
Qed.

Lemma feasible_in_search_space (payment : dict Z Z) :
  forall owed change current,
    NoDup (dict_keys change) -> positive_denominations change ->
    (forall k, In k (dict_keys payment) -> ~ In k (dict_keys current)) ->
    feasible owed change payment ->
    search_space owed change current (current ++ payment)
      (owed - int_value payment).
Proof.
  induction payment as [|[d n] payment IH];
    intros owed change current D P Fresh (Dp & F & Le).
  - simpl. rewrite app_nil_r, Z.sub_0_r. constructor.
  - simpl in Dp, Le. inversion Dp as [|? ? Nd Dp']; subst.
    destruct (F d n (or_introl eq_refl)) as (I & avail & G & R).
    pose proof (P d I) as Pd.
    assert (F' : forall d' n', In (d', n') payment ->
              In d' (positive_keys (dict_set d 0 change)) /\
              exists available,
                dict_get d' (dict_set d 0 change) = Some available /\
                1 <= n' <= available).
    { intros d' n' I'. destruct (F d' n' (or_intror I')) as (P' & a' & G' & R').
      assert (d' <> d).
      { intros ->. apply Nd. now apply (in_map fst) in I'. }
      split; [now apply positive_keys_zeroed_other|].
      exists a'. split; [|exact R'].
      now rewrite (dict_get_set_other Z_key_eqb_eq). }
    assert (V : 0 <= int_value payment).
    { apply (int_value_nonneg (dict_set d 0 change));
        [now apply positive_denominations_zeroed | exact F']. }
    apply (search_step _ _ _ d avail n); [exact I | exact G | |].
    + split; [lia|]. apply Z.min_glb; [|lia].
      apply Z.div_le_lower_bound; nia.
    + rewrite (dict_set_absent Z_key_eqb_eq d n current)
        by (apply Fresh; now left).
      replace (current ++ (d, n) :: payment)
        with ((current ++ [(d, n)]) ++ payment) by now rewrite <- app_assoc.
      replace (owed - int_value ((d, n) :: payment))
        with (owed - n * d - int_value payment) by (simpl; lia).
      apply IH.
      * now apply (NoDup_dict_set Z_key_eqb_eq).
      * now apply positive_denominations_zeroed.
      * intros k Ik C. unfold dict_keys in C.
        rewrite map_app, in_app_iff in C. destruct C as [C|[<-|[]]].
        -- apply (Fresh k); [now right | exact C].
        -- contradiction.
      * split; [exact Dp'|]. split; [exact F'|]. lia.
Qed.

(** *** [find_optimal_change] *)

Lemma denomination_value_nonneg (d : Denomination) : 0 <= value d.
Proof.
  pose proof (value_ok d) as H. unfold denomination_value_ok in H.
  apply negb_true_iff, orb_false_iff in H. destruct H as [H _].
  now apply Z.ltb_ge in H.
Qed.

Lemma change_of_NoDup (m : MonetaryInventory) : NoDup (dict_keys (change_of m)).
Proof. apply (NoDup_dict_update Z_key_eqb_eq). constructor. Qed.

Lemma change_of_entry (m : MonetaryInventory) (d q : Z) :
  In (d, q) (change_of m) ->
  exists den, In (den, q) (inventory m) /\ value den = d.
Proof.
  intros I. apply (In_dict_update Z_key_eqb_eq) in I.
  destruct I as [[]|I]. apply in_map_iff in I.
  destruct I as ([den q'] & [= <- <-] & I). eauto.
Qed.

Lemma change_of_positive (m : MonetaryInventory) :
  nonzero_denominations m = true -> positive_denominations (change_of m).
Proof.
  intros NZ d I. apply In_positive_keys in I. destruct I as (q & I & Pq).
  destruct (change_of_entry m d q I) as (den & Iden & <-).
  unfold nonzero_denominations in NZ. rewrite forallb_forall in NZ.
  specialize (NZ _ Iden). simpl in NZ.
  pose proof (denomination_value_nonneg den).
  destruct (value den =? 0) eqn:E0; [|apply Z.eqb_neq in E0; lia].
  replace (q >? 0) with true in NZ by (symmetry; apply Z.gtb_lt; lia).
  discriminate.
Qed.

Lemma positive_keys_length (change : dict Z Z) :
  (List.length (positive_keys change) <= List.length change)%nat.
Proof.
  unfold positive_keys. rewrite length_map. apply filter_length_le.
Qed.

Lemma denominations_of_ok (sol : dict Z Z) :
  (forall d n, In (d, n) sol -> denomination_value_ok d = true) ->
  exists items, denominations_of sol = Ok items /\ int_items items = sol.
Proof.
  induction sol as [|[d n] sol IH]; intros V; simpl.
  - exists []. split; reflexivity.
  - destruct IH as (items & R & E); [intros; eapply V; right; eassumption|].
    destruct (Denomination_init_cases d) as [[B _]|(den & Rd & Vd)].
    + rewrite (V d n (or_introl eq_refl)) in B. discriminate.
    + rewrite Rd, R. simpl. exists ((den, n) :: items).
      split; [reflexivity|]. simpl. now rewrite Vd, E.
Qed.

Lemma int_items_keys (items : dict Denomination Z) :
  dict_keys (int_items items) = map value (dict_keys items).
Proof.
  unfold int_items, dict_keys. rewrite !map_map. reflexivity.
Qed.

Lemma int_value_items (items : dict Denomination Z) :
  int_value (int_items items) = monetary_value items.
Proof.
  induction items as [|[d n] items IH]; simpl; [reflexivity|]. now rewrite IH.
Qed.

(** What [find_optimal_change] returns on an amount that is not negative,
    from an inventory without a zero denomination in use: a configuration
    that is a node of the search space with the least remainder, or nothing
    when the amount is not below [sys.maxsize] and no node is. *)
Lemma find_optimal_change_spec (owed_amount : Z) (m : MonetaryInventory) :
  0 <= owed_amount -> nonzero_denominations m = true ->
  (exists cfg,
     find_optimal_change owed_amount m = Ok (Some cfg) /\
     search_space owed_amount (change_of m) []
       (int_items (configuration cfg)) (owed cfg) /\
     NoDup (dict_keys (int_items (configuration cfg))) /\
     (forall sol r, search_space owed_amount (change_of m) [] sol r ->
                    owed cfg <= r) /\
     0 <= owed cfg <= sys_maxsize)
  \/ (find_optimal_change owed_amount m = Ok None /\
      forall sol r, search_space owed_amount (change_of m) [] sol r ->
                    sys_maxsize <= r).
Proof.
  intros O NZ.
  pose proof (change_of_positive m NZ) as P.
  pose proof (change_of_NoDup m) as D.
  destruct (backtrack_best_change_spec (S (List.length (change_of m)))
              owed_amount (change_of m) None None sys_maxsize)
    as ([b l] & R & (L & Pv & Min)); try assumption.
  { unfold sys_maxsize. lia. }
  { pose proof (positive_keys_length (change_of m)). lia. }
  simpl in L, Pv, Min.
  unfold find_optimal_change. fold (change_of m). rewrite R. cbn [rbind].
  destruct Pv as [[-> ->]|(sol & -> & N)].
  - right. split; [reflexivity | exact Min].
  - left.
    destruct (search_space_solution _ _ _ _ _ N D) as (ext & E & Dext & F & V);
      [intros k []|]. simpl in E. subst ext.
    destruct (denominations_of_ok sol) as (items & Ri & Ei).
    { intros d n I. destruct (F d n I) as (Pk & _).
      apply In_positive_keys in Pk. destruct Pk as (q & Iq & _).
      destruct (change_of_entry m d q Iq) as (den & _ & <-).
      apply value_ok. }
    rewrite Ri. cbn [rbind].
    assert (Di : NoDup (dict_keys items)).
    { rewrite <- Ei, int_items_keys in Dext. now apply NoDup_map_inv in Dext. }
    assert (Ec : dict_union [] (dict_of_items items) = items).
    { unfold dict_union. fold (dict_of_items (dict_of_items items)).
      rewrite (dict_of_items_NoDup Denomination_eqb_eq items Di).
      apply (dict_of_items_NoDup Denomination_eqb_eq items Di). }
    eexists. split; [reflexivity|].
    unfold ChangeConfiguration_init. cbn [owed configuration].
    rewrite Ec, Ei. repeat split; try assumption; lia.
Qed.

(** *** Whatever the search returns is the bound handed in or a node

    This holds of every call that returns, zero denominations or not. *)

Section LoopProvenance.
Variable recurse :
  Z -> dict Z Z -> solution -> solution -> Z -> result (solution * Z).
Hypothesis recurse_provenance :
  forall owed change current best lowest b l,
    recurse owed change (Some current) best lowest = Ok (b, l) ->
    provenance owed change current best lowest b l.

Variables (owed : Z) (change current : dict Z Z).

Lemma for_units_provenance (d avail : Z) :
  In d (positive_keys change) -> dict_get d change = Some avail ->
  forall units best lowest o,
    (forall n, In n units -> 1 <= n <= Z.min (owed / d) avail) ->
    for_units recurse owed change current d units best lowest = Ok o ->
    provenance owed change current best lowest
      (fst (outcome_pair o)) (snd (outcome_pair o)).
Proof.
  intros I G. induction units as [|n units IH]; intros best lowest o U R.
  - injection R as <-. now left.
  - cbn [for_units] in R.
    destruct (recurse (owed - n * d) (dict_set d 0 change)
                (Some (dict_set d n current)) best lowest)
      as [[b1 l1]|e] eqn:Rec; cbn [rbind] in R; [|discriminate].
    assert (P1 : provenance owed change current best lowest b1 l1).
    { destruct (recurse_provenance _ _ _ _ _ _ _ Rec) as [P1|(sol & -> & N)];
        [now left|right].
      exists sol. split; [reflexivity|].
      eapply search_step; eauto. apply U. now left. }
    destruct (l1 =? 0) eqn:Z1.
    + apply Z.eqb_eq in Z1. subst l1. injection R as <-. exact P1.
    + destruct (l1 <? lowest).
      * eapply provenance_trans; [exact P1|].
        apply IH; [intros; apply U; now right | exact R].
      * apply IH; [intros; apply U; now right | exact R].
Qed.

Lemma for_denominations_provenance :
  forall ds best lowest o,
    (forall d, In d ds -> In d (positive_keys change)) ->
    for_denominations recurse owed change current ds best lowest = Ok o ->
    provenance owed change current best lowest
      (fst (outcome_pair o)) (snd (outcome_pair o)).
Proof.
  induction ds as [|d ds IH]; intros best lowest o Ds R.
  - injection R as <-. now left.
  - cbn [for_denominations] in R.
    destruct (d =? 0); [discriminate|].
    destruct (dict_get d change) as [avail|] eqn:G; [|discriminate].
    destruct (for_units recurse owed change current d
                (reversed_range_1 (Z.min (owed / d) avail)) best lowest)
      as [o1|e] eqn:R1; cbn [rbind] in R; [|discriminate].
    pose proof (for_units_provenance d avail (Ds d (or_introl eq_refl)) G
                  _ _ _ _ (fun n => proj1 (In_reversed_range_1 n _)) R1) as P1.
    destruct o1 as [r1|b1 l1].
    + injection R as <-. exact P1.
    + simpl in P1. eapply provenance_trans; [exact P1|].
      apply IH; [intros; apply Ds; now right | exact R].
Qed.
End LoopProvenance.

Lemma backtrack_best_change_provenance (fuel : nat) :
  forall owed change current_solution best lowest b l,
    backtrack_best_change fuel owed change current_solution best lowest
    = Ok (b, l) ->
    provenance owed change
      (match current_solution with None => [] | Some s => s end)
      best lowest b l.
Proof.
  induction fuel as [|fuel IH]; intros owed change cs best lowest b l R;
    [discriminate|].
  set (current := match cs with None => [] | Some s => s end).
  cbn [backtrack_best_change] in R. fold current in R.
  assert (Here : provenance owed change current best lowest (Some current) owed).
  { right. exists current. split; [reflexivity | constructor]. }
  destruct (owed =? 0) eqn:Z0.
  { apply Z.eqb_eq in Z0. subst owed.
    destruct (0 <? lowest); injection R as <- <-; exact Here. }
  set (bl := if owed <? lowest then (Some current, owed) else (best, lowest))
    in R.
  assert (P0 : provenance owed change current best lowest (fst bl) (snd bl)).
  { unfold bl. destruct (owed <? lowest); [exact Here | now left]. }
  destruct bl as [best0 lowest0]. simpl in P0.
  destruct (for_denominations (backtrack_best_change fuel) owed change current
              (sorted_reverse (positive_keys change)) best0 lowest0)
    as [o|e] eqn:Ro; cbn [rbind] in R; [|discriminate].
  pose proof (for_denominations_provenance (backtrack_best_change fuel)
                (fun o c cur bs lo b' l' H => IH o c (Some cur) bs lo b' l' H)
                owed change current _ _ _ _
                (fun d => proj1 (In_sorted_reverse d _)) Ro) as P1.
  eapply provenance_trans; [exact P0|].
  destruct o as [[b' l']|b' l']; injection R as <- <-; exact P1.
Qed.

(** The configuration [find_optimal_change] returns, whenever it returns
    one: distinct denominations,
    each taken at least once and no more often than the inventory-derived
    count, together worth the amount less [owed]. *)
Lemma find_optimal_change_configuration (owed_amount : Z)
    (m : MonetaryInventory) (cfg : ChangeConfiguration) :
  find_optimal_change owed_amount m = Ok (Some cfg) ->
  NoDup (dict_keys (configuration cfg)) /\
  (forall d n, In (d, n) (configuration cfg) ->
     exists available,
       dict_get (value d) (change_of m) = Some available /\
       1 <= n <= available) /\
  owed cfg = owed_amount - monetary_value (configuration cfg).
Proof.
  unfold find_optimal_change. fold (change_of m). intros R.
  destruct (backtrack_best_change (S (List.length (change_of m))) owed_amount
              (change_of m) None None sys_maxsize)
    as [[b l]|e] eqn:B; cbn [rbind] in R; [|discriminate].
  apply backtrack_best_change_provenance in B.
  destruct b as [sol|]; [|discriminate].
  destruct (denominations_of sol) as [items|e] eqn:Ri; cbn [rbind] in R;
    [|discriminate].
  injection R as <-. unfold ChangeConfiguration_init in *.
  cbn [owed configuration] in *.
  destruct B as [[[=] _]|(sol' & [= <-] & N)].
  destruct (search_space_solution _ _ _ _ _ N (change_of_NoDup m))
    as (ext & E & Dext & F & V); [intros k []|]. simpl in E. subst ext.
  assert (Ei : int_items items = sol).
  { clear - Ri. revert items Ri.
    induction sol as [|[d n] sol IH]; simpl; intros items Ri.
    - now injection Ri as <-.
    - destruct (Denomination_init_cases d) as [[_ Rd]|(den & Rd & Vd)];
        rewrite Rd in Ri; cbn [rbind] in Ri; [discriminate|].
      destruct (denominations_of sol) as [rest|]; [|discriminate].
      injection Ri as <-. simpl. now rewrite Vd, (IH rest eq_refl). }
  assert (Di : NoDup (dict_keys items)).
  { rewrite <- Ei, int_items_keys in Dext. now apply NoDup_map_inv in Dext. }
  assert (Ec : dict_union [] (dict_of_items items) = items).
  { unfold dict_union. fold (dict_of_items (dict_of_items items)).
    rewrite (dict_of_items_NoDup Denomination_eqb_eq items Di).
    apply (dict_of_items_NoDup Denomination_eqb_eq items Di). }
  rewrite Ec. split; [exact Di|]. split.
  - intros d n I. apply (F (value d) n). rewrite <- Ei.
    unfold int_items. apply in_map_iff. exists (d, n). auto.
  - rewrite V, <- Ei. now rewrite int_value_items.
Qed.

(** *** The fuel of the search is enough

    [find_optimal_change] hands the search one unit of fuel more than the
    dictionary has keys; the search never uses it up, whatever the amount
    and the inventory. *)

Section LoopFuel.
Variable recurse :
  Z -> dict Z Z -> solution -> solution -> Z -> result (solution * Z).
Variable bound : nat.
Hypothesis recurse_fuel :
  forall owed change current best lowest,
    (List.length (positive_keys change) < bound)%nat ->
    recurse owed change current best lowest <> Raise OutOfFuel.

Variables (owed : Z) (change current : dict Z Z).
Hypothesis change_measure : (List.length (positive_keys change) <= bound)%nat.

Lemma for_units_fuel (d avail : Z) :
  dict_get d change = Some avail ->
  forall units best lowest,
    (forall n, In n units -> 1 <= n <= Z.min (owed / d) avail) ->
    for_units recurse owed change current d units best lowest
    <> Raise OutOfFuel.
Proof.
  intros G. induction units as [|n units IH]; intros best lowest U;
    [discriminate|].
  cbn [for_units].
  assert (Rn : 1 <= n <= Z.min (owed / d) avail) by (apply U; now left).
  pose proof (recurse_fuel (owed - n * d) (dict_set d 0 change)
                (Some (dict_set d n current)) best lowest) as F.
  destruct (recurse (owed - n * d) (dict_set d 0 change)
              (Some (dict_set d n current)) best lowest) as [[b1 l1]|e];
    cbn [rbind].
  - destruct (l1 =? 0); [discriminate|].
    destruct (l1 <? lowest); apply IH; intros; apply U; now right.
  - intros [= ->]. apply F; [|reflexivity].
    pose proof (positive_keys_zeroed_length d avail change G). lia.
Qed.

Lemma for_denominations_fuel :
  forall ds best lowest,
    for_denominations recurse owed change current ds best lowest
    <> Raise OutOfFuel.
Proof.
  induction ds as [|d ds IH]; intros best lowest; [discriminate|].
  cbn [for_denominations].
  destruct (d =? 0); [discriminate|].
  destruct (dict_get d change) as [avail|] eqn:G; [|discriminate].
  pose proof (for_units_fuel d avail G
                (reversed_range_1 (Z.min (owed / d) avail)) best lowest
                (fun n => proj1 (In_reversed_range_1 n _))) as F.
  destruct (for_units recurse owed change current d _ best lowest)
    as [[r|b l]|e]; cbn [rbind].
  - discriminate.
  - apply IH.
  - intros [= ->]. now apply F.
Qed.
End LoopFuel.

Lemma backtrack_best_change_fuel (fuel : nat) :
  forall owed change current_solution best lowest,
    (List.length (positive_keys change) < fuel)%nat ->
    backtrack_best_change fuel owed change current_solution best lowest
    <> Raise OutOfFuel.
Proof.
  induction fuel as [|fuel IH]; intros owed change cs best lowest F; [lia|].
  cbn [backtrack_best_change].
  destruct (owed <? lowest); (destruct (owed =? 0); [discriminate|]).
  all: match goal with
       | |- context [for_denominations ?r ?o ?c ?cur ?ds ?b ?l] =>
           pose proof (for_denominations_fuel r fuel IH o c cur
                         ltac:(lia) ds b l) as Fd;
           destruct (for_denominations r o c cur ds b l) as [[x|x y]|e]
       end; cbn [rbind]; try discriminate; intros [= ->]; now apply Fd.
Qed.

Lemma denominations_of_error (items : list (Z * Z)) (e : exn) :
  denominations_of items = Raise e -> e = ValueError.
Proof.
  induction items as [|[v q] items IH]; simpl; [discriminate|].
  destruct (Denomination_init_cases v) as [[_ R]|(d & R & _)]; rewrite R;
    cbn [rbind].
  - now intros [= <-].
  - destruct (denominations_of items); cbn [rbind]; [discriminate|].
    intros [= <-]. now apply IH.
Qed.

Lemma find_optimal_change_fuel (owed_amount : Z) (m : MonetaryInventory) :
  find_optimal_change owed_amount m <> Raise OutOfFuel.
Proof.
  unfold find_optimal_change. fold (change_of m).
  pose proof (backtrack_best_change_fuel (S (List.length (change_of m)))
                owed_amount (change_of m) None None sys_maxsize) as F.
  destruct (backtrack_best_change _ _ _ _ _ _) as [[[sol|] l]|e]; cbn [rbind].
  - destruct (denominations_of sol) as [items|e] eqn:R; cbn [rbind];
      [discriminate|].
    apply denominations_of_error in R. subst e. discriminate.
  - discriminate.
  - intros [= ->]. apply F; [|reflexivity].
    pose proof (positive_keys_length (change_of m)). lia.
Qed.

Lemma find_optimal_change_zero (m : MonetaryInventory) :
  find_optimal_change 0 m = Ok (Some (mkChangeConfiguration 0 [])).
Proof. reflexivity. Qed.

Lemma exact_node_iff_zero_remainder (owed_amount : Z) (m : MonetaryInventory)
    (cfg : ChangeConfiguration) :
  search_space owed_amount (change_of m) []
    (int_items (configuration cfg)) (owed cfg) ->
  (forall sol r, search_space owed_amount (change_of m) [] sol r ->
                 owed cfg <= r) ->
  0 <= owed cfg ->
  (owed cfg = 0 <-> exists sol, search_space owed_amount (change_of m) [] sol 0).
Proof.
  intros N Min L. split.
  - intros E. rewrite E in N. eauto.
  - intros (sol & N0). specialize (Min _ _ N0). lia.
Qed.

Lemma configuration_accounts_for_remainder (owed_amount : Z)
    (m : MonetaryInventory) (cfg : ChangeConfiguration) :
  search_space owed_amount (change_of m) []
    (int_items (configuration cfg)) (owed cfg) ->
  owed cfg = owed_amount - monetary_value (configuration cfg).
Proof.
  intros N.
  destruct (search_space_solution _ _ _ _ _ N (change_of_NoDup m))
    as (ext & E & _ & _ & V); [intros k []|].
  simpl in E. subst ext. now rewrite int_value_items in V.
Qed.

(** C5, as stated, fails: at [owed_amount = sys.maxsize] with an empty
    inventory the search never lowers [lowest_owed], keeps [best_solution]
    at [None], and [find_optimal_change] returns [None]. *)
Lemma find_optimal_change_absent_at_maxsize :
  ~ (forall (owed_amount : Z) (m : MonetaryInventory),
       0 <= owed_amount ->
       exists cfg, find_optimal_change owed_amount m = Ok (Some cfg)).
Proof.
  intros H.
  destruct (H sys_maxsize (inv_of [])) as (cfg & E).
  - unfold sys_maxsize. lia.
  - vm_compute in E. discriminate E.
Qed.

(** C5, amended.  For an amount from 0 up to, but not including,
    [sys.maxsize], and an inventory in which no denomination of value zero
    has a positive count, [find_optimal_change] returns a configuration; its
    [owed] lies between 0 and the amount, and equals the amount when the
    configuration is empty.  For the amount 0, whatever the inventory, it
    returns the exact, empty configuration. *)
Theorem find_optimal_change_returns_configuration
    (owed_amount : Z) (m : MonetaryInventory)
    (Hrange : 0 <= owed_amount < sys_maxsize)
    (Hinv : owed_amount = 0 \/ nonzero_denominations m = true) :
  exists cfg,
    find_optimal_change owed_amount m = Ok (Some cfg) /\
    0 <= owed cfg <= owed_amount /\
    (configuration cfg = [] -> owed cfg = owed_amount) /\
    (owed_amount = 0 -> cfg = mkChangeConfiguration 0 []).
Proof.
  destruct (Z.eq_dec owed_amount 0) as [->|NZ0].
  { exists (mkChangeConfiguration 0 []). rewrite find_optimal_change_zero.
    simpl. repeat split; lia. }
  destruct Hinv as [?|NZ]; [contradiction|].
  destruct (find_optimal_change_spec owed_amount m) as
    [(cfg & R & N & _ & Min & L)|(R & Min)]; [lia | exact NZ | |].
  - exists cfg. split; [exact R|].
    pose proof (Min _ _ (search_here owed_amount (change_of m) [])).
    split; [lia|]. split; [|contradiction].
    intros E. rewrite (configuration_accounts_for_remainder _ _ _ N), E.
    simpl. lia.
  - specialize (Min _ _ (search_here owed_amount (change_of m) [])). lia.
Qed.

Lemma find_optimal_change_returns_configuration_witness :
  exists cfg,
    find_optimal_change 150
      (inv_of [(D 100 eq_refl, 1); (D 20 eq_refl, 1); (D 10 eq_refl, 2)])
    = Ok (Some cfg) /\
    0 <= owed cfg <= 150 /\
    (configuration cfg = [] -> owed cfg = 150) /\
    (150 = 0 -> cfg = mkChangeConfiguration 0 []).
Proof.
  apply (find_optimal_change_returns_configuration 150
           (inv_of [(D 100 eq_refl, 1); (D 20 eq_refl, 1); (D 10 eq_refl, 2)])).
  - unfold sys_maxsize. lia.
  - right. reflexivity.
Defined.

(** C6.  For 80 owed against three 50 and four 20 the result is four 20,
    exact.  The search tries 50 first ([denominations] is [50, 20], and one
    50 at most fits); that branch, 30 owed with the 50 used up, comes back
    with one 50 and one 20 and a remainder of 10, and no node of it has
    remainder 0; the search then goes on to the 20. *)
Theorem backtracking_past_overshooting_denomination :
  let m := inv_of [(D 50 eq_refl, 3); (D 20 eq_refl, 4)] in
  find_optimal_change 80 m
  = Ok (Some (mkChangeConfiguration 0 [(D 20 eq_refl, 4)])) /\
  sorted_reverse (positive_keys (change_of m)) = [50; 20] /\
  reversed_range_1 (Z.min (80 / 50) 3) = [1] /\
  backtrack_best_change 2 (80 - 1 * 50) (dict_set 50 0 (change_of m))
    (Some (dict_set 50 1 [])) (Some []) 80
  = Ok (Some [(50, 1); (20, 1)], 10) /\
  (forall sol,
     ~ search_space (80 - 1 * 50) (dict_set 50 0 (change_of m))
         (dict_set 50 1 []) sol 0).
Proof.
  cbv zeta.
  split; [vm_compute; reflexivity|]. split; [reflexivity|].
  split; [reflexivity|]. split; [vm_compute; reflexivity|].
  intros sol N.
  destruct (backtrack_best_change_spec 2 30 [(50, 0); (20, 4)]
              (Some [(50, 1)]) (Some []) 80)
    as ([b l] & R & (_ & _ & Min)); try lia.
  - intros d I. vm_compute in I. destruct I as [<-|[]]. lia.
  - vm_compute. lia.
  - vm_compute in R. injection R as <- <-.
    specialize (Min sol 0 N). simpl in Min. lia.
Qed.

(** C7, as stated, fails on the same ground as C5: with [sys.maxsize] owed
    and an empty inventory no exact combination exists, and no configuration
    is returned at all. *)
Lemma no_configuration_at_maxsize :
  ~ (forall (owed_amount : Z) (m : MonetaryInventory),
       0 <= owed_amount ->
       (forall sol, ~ search_space owed_amount (change_of m) [] sol 0) ->
       exists cfg,
         find_optimal_change owed_amount m = Ok (Some cfg) /\
         forall sol r, search_space owed_amount (change_of m) [] sol r ->
                       owed cfg <= r).
Proof.
  intros H.
  destruct (H sys_maxsize (inv_of [])) as (cfg & E & _).
  - unfold sys_maxsize. lia.
  - intros sol N. inversion N; subst.
    match goal with I : In _ (positive_keys _) |- _ => destruct I end.
  - vm_compute in E. discriminate E.
Qed.

(** C7, amended.  For an amount from 0 up to, but not including,
    [sys.maxsize], and an inventory in which no denomination of value zero
    has a positive count, [find_optimal_change] returns a configuration that
    is a node of the search space, whose [owed] is the amount less the value
    of the configuration and is the least remainder over the whole search
    space, hence over every feasible payment; it is 0 exactly when some node
    is exact.  For 50 owed against two 100 and one 200 the configuration is
    empty and [owed] is 50. *)
Theorem find_optimal_change_least_remainder :
  find_optimal_change 50 (inv_of [(D 100 eq_refl, 2); (D 200 eq_refl, 1)])
  = Ok (Some (mkChangeConfiguration 50 [])) /\
  forall (owed_amount : Z) (m : MonetaryInventory),
    0 <= owed_amount < sys_maxsize ->
    nonzero_denominations m = true ->
    exists cfg,
      find_optimal_change owed_amount m = Ok (Some cfg) /\
      search_space owed_amount (change_of m) []
        (int_items (configuration cfg)) (owed cfg) /\
      owed cfg = owed_amount - monetary_value (configuration cfg) /\
      (forall sol r, search_space owed_amount (change_of m) [] sol r ->
                     owed cfg <= r) /\
      (forall payment, feasible owed_amount (change_of m) payment ->
                       owed cfg <= owed_amount - int_value payment) /\
      (owed cfg = 0 <->
       exists sol, search_space owed_amount (change_of m) [] sol 0).
Proof.
  split; [vm_compute; reflexivity|].
  intros owed_amount m Hrange NZ.
  destruct (find_optimal_change_spec owed_amount m) as
    [(cfg & R & N & _ & Min & L)|(R & Min)]; [lia | exact NZ | |].
  - exists cfg. split; [exact R|]. split; [exact N|].
    split; [exact (configuration_accounts_for_remainder _ m _ N)|].
    split; [exact Min|]. split.
    + intros payment F.
      apply (Min ([] ++ payment)).
      apply feasible_in_search_space; auto.
      * apply change_of_NoDup.
      * now apply change_of_positive.
    + apply exact_node_iff_zero_remainder; auto. lia.
  - specialize (Min _ _ (search_here owed_amount (change_of m) [])). lia.
Qed.

Lemma find_optimal_change_least_remainder_witness :
  exists cfg,
    find_optimal_change 150 (inv_of [(D 100 eq_refl, 2); (D 10 eq_refl, 1)])
    = Ok (Some cfg) /\
    owed cfg
    <= 150 - int_value [(100, 1); (10, 1)].
Proof.
  destruct (proj2 find_optimal_change_least_remainder 150
              (inv_of [(D 100 eq_refl, 2); (D 10 eq_refl, 1)]))
    as (cfg & R & _ & _ & _ & F & _).
  - unfold sys_maxsize. lia.
  - reflexivity.
  - exists cfg. split; [exact R|]. apply F.
    split; [|split].
    + repeat constructor; simpl; intuition discriminate.
    + intros d n [[= <- <-]|[[= <- <-]|[]]].
      * split; [vm_compute; tauto|]. exists 2. split; [reflexivity|lia].
      * split; [vm_compute; tauto|]. exists 1. split; [reflexivity|lia].
    + simpl. lia.
Defined.

(** ** Counts of the monetary inventory *)

Lemma Denomination_key_neq (a b : Denomination) :
  a <> b -> key_eqb a b = false.
Proof. apply (key_eqb_neq Denomination_eqb_eq). Qed.

Lemma count_defaultdict_getitem (m : MonetaryInventory) (d0 : Denomination) :
  forall cur inv',
    defaultdict_getitem 0 d0 (inventory m) = (cur, inv') ->
    cur = count_of m d0 /\
    (forall d, count_of (set_inventory inv' m) d = count_of m d) /\
    (NoDup (dict_keys (inventory m)) -> NoDup (dict_keys inv')).
Proof.
  intros cur inv'. unfold defaultdict_getitem, count_of.
  destruct (dict_get d0 (inventory m)) as [q|] eqn:G; intros [= <- <-].
  - repeat split; auto.
  - split; [reflexivity|]. split.
    + intros d. cbn [inventory set_inventory]. rewrite dict_get_app_absent.
      destruct (dict_get d (inventory m)); [reflexivity|].
      now destruct (key_eqb d d0).
    + intros D. unfold dict_keys. rewrite map_app. simpl.
      apply NoDup_app; [exact D | repeat constructor; simpl; tauto |].
      intros x Ix [<-|[]].
      now apply (dict_get_None_keys Denomination_eqb_eq) in G.
Qed.

Lemma count_dict_set (m : MonetaryInventory) (inv : dict Denomination Z)
    (d0 d : Denomination) (q : Z) :
  count_of (set_inventory (dict_set d0 q inv) m) d
  = if key_eqb d d0 then q else count_of (set_inventory inv m) d.
Proof.
  unfold count_of. cbn [inventory set_inventory].
  rewrite (dict_get_set Denomination_eqb_eq).
  now destruct (key_eqb d d0).
Qed.

Lemma inventory_iadd_spec (d0 : Denomination) (q : Z) (m : MonetaryInventory) :
  exists m',
    inventory_iadd d0 q m = (Ok tt, m') /\
    (forall d, count_of m' d
               = count_of m d + (if key_eqb d d0 then q else 0)) /\
    _supported_denominantions m' = _supported_denominantions m /\
    (NoDup (dict_keys (inventory m)) -> NoDup (dict_keys (inventory m'))).
Proof.
  unfold inventory_iadd.
  destruct (defaultdict_getitem 0 d0 (inventory m)) as [cur inv'] eqn:G.
  destruct (count_defaultdict_getitem m d0 cur inv' G) as (-> & C & D).
  eexists. split; [reflexivity|]. split; [|split].
  - intros d. rewrite count_dict_set, C.
    destruct (key_eqb d d0) eqn:Ed; [|lia].
    apply Denomination_eqb_eq in Ed. now subst.
  - reflexivity.
  - intros N. cbn [inventory set_inventory].
    apply (NoDup_dict_set Denomination_eqb_eq). auto.
Qed.

Lemma quantity_of_cons (d0 d : Denomination) (n0 : Z)
    (change : dict Denomination Z) :
  quantity_of ((d0, n0) :: change) d
  = if key_eqb d d0 then n0 else quantity_of change d.
Proof. unfold quantity_of. simpl. now destruct (Denomination_eqb d d0). Qed.

Lemma quantity_of_absent (d : Denomination) (change : dict Denomination Z) :
  ~ In d (dict_keys change) -> quantity_of change d = 0.
Proof.
  intros N. unfold quantity_of.
  apply (dict_get_None_keys Denomination_eqb_eq) in N. now rewrite N.
Qed.

(** [remove_change] succeeds when no quantity asked exceeds the count held,
    and lowers each count by the quantity asked. *)
Lemma remove_change_spec (change : dict Denomination Z) :
  NoDup (dict_keys change) ->
  forall m,
    (forall d n, In (d, n) change -> n <= count_of m d) ->
    exists m',
      remove_change change m = (Ok tt, m') /\
      (forall d, count_of m' d = count_of m d - quantity_of change d) /\
      _supported_denominantions m' = _supported_denominantions m.
Proof.
  induction change as [|[d0 n0] change IH]; intros D m Le.
  - exists m. split; [reflexivity|]. split; [|reflexivity].
    intros d. unfold quantity_of. simpl. lia.
  - inversion D as [|? ? N0 D']; subst.
    cbn [remove_change].
    destruct (defaultdict_getitem 0 d0 (inventory m)) as [cur inv'] eqn:G.
    destruct (count_defaultdict_getitem m d0 cur inv' G) as (-> & C & _).
    pose proof (Le d0 n0 (or_introl eq_refl)) as Le0.
    replace (count_of m d0 <? n0) with false
      by (symmetry; apply Z.ltb_ge; lia).
    set (m1 := set_inventory (dict_set d0 (count_of m d0 - n0) inv') m).
    assert (C1 : forall d, count_of m1 d
                           = if key_eqb d d0 then count_of m d0 - n0
                             else count_of m d).
    { intros d. unfold m1. rewrite count_dict_set, C. reflexivity. }
    destruct (IH D' m1) as (m' & R & Cm & S).
    { intros d n I. rewrite C1.
      rewrite Denomination_key_neq; [apply Le; now right|].
      intros ->. apply N0. now apply (in_map fst) in I. }
    exists m'. split; [exact R|]. split; [|exact S].
    intros d. rewrite Cm, C1, quantity_of_cons.
    destruct (key_eqb d d0) eqn:Ed; [|reflexivity].
    apply Denomination_eqb_eq in Ed. subst d.
    rewrite (quantity_of_absent d0 change N0). lia.
Qed.

(** With distinct keys, the [int]-keyed view of the inventory holds the
    counts of the inventory. *)
Lemma dict_get_int_items (d : Denomination) (inv : dict Denomination Z) :
  dict_get (value d) (int_items inv) = dict_get d inv.
Proof.
  induction inv as [|[k v] inv IH]; simpl; [reflexivity|].
  unfold Denomination_eqb.
  destruct (value d =? value k); [reflexivity | exact IH].
Qed.

Lemma change_of_count (m : MonetaryInventory) (d : Denomination) :
  NoDup (dict_keys (inventory m)) ->
  dict_get (value d) (change_of m) = dict_get d (inventory m).
Proof.
  intros D. unfold change_of. fold (int_items (inventory m)).
  rewrite (dict_of_items_NoDup Z_key_eqb_eq); [apply dict_get_int_items|].
  rewrite int_items_keys.
  clear - D. induction (dict_keys (inventory m)) as [|k ks IH]; simpl.
  - constructor.
  - inversion D as [|? ? N D']; subst. constructor; [|now apply IH].
    intros I. apply in_map_iff in I. destruct I as (k' & E & I).
    apply Denomination_ext in E. now subst k'.
Qed.

(** ** Checkout *)

Lemma candidates_checkout :
  candidates Trigger.checkout COLLECTING_PAYMENT
  = [mkTransition Trigger.checkout [COLLECTING_PAYMENT] COLLECTING_PAYMENT
       [_not_enough_money] [];
     mkTransition Trigger.checkout [COLLECTING_PAYMENT] DISPATCHING_PRODUCT
       [_can_return_exact_change] [_charge_customer];
     mkTransition Trigger.checkout [COLLECTING_PAYMENT] CONFIRM_SMALLER_CHANGE
       [] []].
Proof. reflexivity. Qed.

Lemma candidates_advance_dispatching :
  candidates Trigger.advance DISPATCHING_PRODUCT
  = [mkTransition Trigger.advance [DISPATCHING_PRODUCT] RETURNING_CHANGE [] []].
Proof. reflexivity. Qed.

Lemma candidates_advance_returning :
  candidates Trigger.advance RETURNING_CHANGE
  = [mkTransition Trigger.advance [RETURNING_CHANGE] IDLE [] []].
Proof. reflexivity. Qed.

Lemma candidates_select :
  candidates Trigger.select PRODUCT_SELECTION
  = [mkTransition Trigger.select [PRODUCT_SELECTION] COLLECTING_PAYMENT
       [] [_select]].
Proof. reflexivity. Qed.

Lemma set_state_same (vm : VendingMachine) : set_state (state vm) vm = vm.
Proof. now destruct vm. Qed.

Lemma select_in_product_selection (product_id : ProductID) (vm : VendingMachine) :
  state vm = PRODUCT_SELECTION ->
  select product_id vm
  = (Ok true,
     set_state COLLECTING_PAYMENT (set_selected_product (Some product_id) vm)).
Proof.
  intros S. unfold select, fire. rewrite fire_at_S, S, candidates_select.
  reflexivity.
Qed.

(** Leaving [RETURNING_CHANGE]: [IDLE] has nothing to run on entry. *)
Lemma advance_from_returning_change (n : nat) (kw : kwargs) (vm : VendingMachine) :
  state vm = RETURNING_CHANGE ->
  fire_at (S n) Trigger.advance kw vm = (Ok true, set_state IDLE vm).
Proof.
  intros S. rewrite fire_at_S, S, candidates_advance_returning. reflexivity.
Qed.

Lemma return_change_state (vm : VendingMachine) :
  state (snd (_return_change vm)) = state vm.
Proof.
  unfold _return_change.
  destruct (customer_balance vm =? 0); [reflexivity|].
  destruct (find_optimal_change _ _) as [[cfg|]|e]; try reflexivity.
  destruct (configuration cfg) as [|kv rest]; [reflexivity|].
  unfold bind, on_monetary_inventory, modify.
  destruct (remove_change (kv :: rest) (monetary_inventory vm)) as [[[]|e] m'];
    reflexivity.
Qed.

(** Leaving [DISPATCHING_PRODUCT]: the change is returned on entry of
    [RETURNING_CHANGE], which is left for [IDLE] at once. *)
Lemma advance_from_dispatching_product (n : nat) (kw : kwargs)
    (vm : VendingMachine) :
  state vm = DISPATCHING_PRODUCT ->
  fire_at (S (S n)) Trigger.advance kw vm
  = match _return_change (set_state RETURNING_CHANGE vm) with
    | (Ok _, vm') => (Ok true, set_state IDLE vm')
    | (Raise e, vm') => (Raise e, vm')
    end.
Proof.
  intros S. rewrite fire_at_S, S, candidates_advance_dispatching.
  cbv [try_transitions eval_conditions execute run_before run_callbacks
       on_enter bind ret modify conditions before dest].
  pose proof (return_change_state (set_state RETURNING_CHANGE vm)) as St.
  destruct (_return_change (set_state RETURNING_CHANGE vm)) as [[[]|e] vm'];
    [|reflexivity].
  simpl in St. rewrite (advance_from_returning_change n no_kwargs vm' St).
  reflexivity.
Qed.

Lemma dispatch_product_state (vm : VendingMachine) :
  state (snd (_dispatch_product vm)) = state vm.
Proof.
  unfold _dispatch_product, bind, on_stock, modify.
  destruct (get_product (selected_product vm) (stock vm)) as [[p|e] s];
    reflexivity.
Qed.

(** The three candidates of [checkout], in the order of the table. *)
Lemma checkout_in_collecting_payment (vm : VendingMachine) :
  state vm = COLLECTING_PAYMENT ->
  checkout vm
  = match _not_enough_money vm with
    | Raise e => (Raise e, vm)
    | Ok true => (Ok true, vm)
    | Ok false =>
        match _can_return_exact_change vm with
        | Raise e => (Raise e, vm)
        | Ok true =>
            (_charge_customer no_kwargs ;;;
             modify (set_state DISPATCHING_PRODUCT) ;;;
             run_callbacks (fire_at 2) (on_enter DISPATCHING_PRODUCT) ;;;
             ret true) vm
        | Ok false => (Ok true, set_state CONFIRM_SMALLER_CHANGE vm)
        end
    end.
Proof.
  intros S. unfold checkout, fire. rewrite fire_at_S, S, candidates_checkout.
  cbv [try_transitions eval_conditions conditions bind ret].
  destruct (_not_enough_money vm) as [[|]|e]; [| |reflexivity].
  - cbv [execute run_before run_callbacks on_enter bind ret modify before dest].
    now rewrite <- S, set_state_same.
  - destruct (_can_return_exact_change vm) as [[|]|e]; [| |reflexivity].
    + cbv [execute run_before before dest bind ret].
      destruct (_charge_customer no_kwargs vm) as [[[]|e] vm1]; [|reflexivity].
      cbv [modify].
      destruct (run_callbacks (fire_at 2) (on_enter DISPATCHING_PRODUCT)
                  (set_state DISPATCHING_PRODUCT vm1)) as [[[]|e] vm2];
        reflexivity.
    + reflexivity.
Qed.
Lemma guards_of_selected (vm : VendingMachine) (pid : ProductID)
    (info : ProductInfo) :
  selected_product vm = Some pid ->
  dict_get pid (catalogue (stock vm)) = Some info ->
  _not_enough_money vm = Ok (price info >? customer_balance vm) /\
  _can_return_exact_change vm
  = match find_optimal_change (customer_balance vm - price info)
            (monetary_inventory vm) with
    | Raise e => Raise e
    | Ok None => Ok false
    | Ok (Some config) => Ok (is_exact config)
    end /\
  _charge_customer no_kwargs vm
  = (Ok tt, set_customer_balance (customer_balance vm - price info) vm).
Proof.
  intros Hsel Hcat.
  unfold _not_enough_money, _can_return_exact_change, _charge_customer.
  rewrite Hsel. unfold get_price_of. rewrite Hcat. cbn [rbind].
  repeat split.
Qed.

(** Returning change worth the whole balance, once an exact configuration
    for the balance is known. *)
Lemma return_change_exact (vm : VendingMachine) (cfg : ChangeConfiguration) :
  NoDup (dict_keys (inventory (monetary_inventory vm))) ->
  0 <= customer_balance vm ->
  find_optimal_change (customer_balance vm) (monetary_inventory vm)
  = Ok (Some cfg) ->
  owed cfg = 0 ->
  exists m',
    remove_change (configuration cfg) (monetary_inventory vm) = (Ok tt, m') /\
    (forall d, count_of m' d
               = count_of (monetary_inventory vm) d
                 - quantity_of (configuration cfg) d) /\
    _supported_denominantions m'
    = _supported_denominantions (monetary_inventory vm) /\
    monetary_value (configuration cfg) = customer_balance vm /\
    _return_change vm
    = (Ok tt,
       if customer_balance vm =? 0 then vm
       else tell_delivery (send_cash cfg) (set_monetary_inventory m' vm)).
Proof.
  intros D B R E0.
  destruct (find_optimal_change_configuration _ _ _ R) as (Dc & F & V).
  destruct (remove_change_spec (configuration cfg) Dc (monetary_inventory vm))
    as (m' & Rm & C & S).
  { intros d n I. destruct (F d n I) as (avail & G & Rn).
    rewrite (change_of_count _ _ D) in G. unfold count_of. rewrite G. lia. }
  exists m'. split; [exact Rm|]. split; [exact C|]. split; [exact S|].
  split; [lia|].
  unfold _return_change.
  destruct (customer_balance vm =? 0) eqn:Z0; [reflexivity|].
  apply Z.eqb_neq in Z0. rewrite R.
  destruct (configuration cfg) as [|kv rest] eqn:Ec.
  - simpl in V. lia.
  - unfold bind, on_monetary_inventory, modify. rewrite Rm. reflexivity.
Qed.

(** The exact-change candidate, from the charge to [IDLE]. *)
Lemma checkout_exact_path (vm : VendingMachine) (pid : ProductID)
    (info : ProductInfo) (cfg : ChangeConfiguration) :
  state vm = COLLECTING_PAYMENT ->
  selected_product vm = Some pid ->
  dict_get pid (catalogue (stock vm)) = Some info ->
  price info <= customer_balance vm ->
  find_optimal_change (customer_balance vm - price info) (monetary_inventory vm)
  = Ok (Some cfg) ->
  owed cfg = 0 ->
  NoDup (dict_keys (inventory (monetary_inventory vm))) ->
  exists m',
    remove_change (configuration cfg) (monetary_inventory vm) = (Ok tt, m') /\
    (forall d, count_of m' d
               = count_of (monetary_inventory vm) d
                 - quantity_of (configuration cfg) d) /\
    monetary_value (configuration cfg) = customer_balance vm - price info /\
    match get_product (Some pid) (stock vm) with
    | (Raise e, _) => fst (checkout vm) = Raise e
    | (Ok product, s') =>
        exists vm',
          checkout vm = (Ok true, vm') /\
          state vm' = IDLE /\
          stock vm' = s' /\
          selected_product vm' = None /\
          customer_balance vm' = customer_balance vm - price info /\
          monetary_inventory vm'
          = (if customer_balance vm - price info =? 0
             then monetary_inventory vm else m') /\
          delivery_system vm'
          = delivery_system vm
            ++ dispatch product
               :: (if customer_balance vm - price info =? 0 then []
                   else [send_cash cfg])
    end.
Proof.
  intros Hstate Hsel Hcat Hprice Hfind Hexact Hinv.
  destruct (guards_of_selected vm pid info Hsel Hcat) as (G1 & G2 & G3).
  set (b := customer_balance vm - price info) in *.
  destruct vm as [st sk mi sel bal dl].
  cbn [state stock monetary_inventory selected_product customer_balance
       delivery_system] in *.
  subst st sel.
  set (vm3 := fun product s' =>
         mkVendingMachine RETURNING_CHANGE s' mi None b
           (dl ++ [dispatch product])).
  assert (B0 : 0 <= b) by (unfold b; lia).
  destruct (return_change_exact
              (mkVendingMachine RETURNING_CHANGE sk mi None b dl) cfg)
    as (m' & Rm & C & _ & V & _); auto.
  cbn [monetary_inventory customer_balance] in Rm, C, V.
  exists m'. split; [exact Rm|]. split; [exact C|]. split; [exact V|].
  assert (Eval : checkout (mkVendingMachine COLLECTING_PAYMENT sk mi (Some pid) bal dl)
                 = match get_product (Some pid) sk with
                   | (Raise e, s') =>
                       (Raise e,
                        mkVendingMachine DISPATCHING_PRODUCT s' mi (Some pid) b dl)
                   | (Ok product, s') =>
                       match _return_change (vm3 product s') with
                       | (Ok _, vm') => (Ok true, set_state IDLE vm')
                       | (Raise e, vm') => (Raise e, vm')
                       end
                   end).
  { rewrite checkout_in_collecting_payment by reflexivity.
    rewrite G1, G2, Hfind. unfold is_exact. rewrite Hexact.
    replace (price info >? bal) with false
      by (symmetry; rewrite Z.gtb_ltb; apply Z.ltb_ge; lia).
    cbn [Z.eqb].
    unfold bind at 1. rewrite G3. fold b.
    cbv [bind modify ret run_callbacks on_enter _dispatch_product on_stock].
    cbn [set_state set_customer_balance state stock monetary_inventory
         selected_product customer_balance delivery_system].
    destruct (get_product (Some pid) sk) as [[product|e] s'] eqn:Gp;
      [|reflexivity].
    cbn [set_stock set_selected_product tell_delivery state stock
         monetary_inventory selected_product customer_balance delivery_system].
    rewrite advance_from_dispatching_product by reflexivity.
    match goal with
    | |- context [_return_change ?x] =>
        change x with (vm3 product s')
    end.
    destruct (_return_change (vm3 product s')) as [[[]|e] vm']; reflexivity. }
  rewrite Eval.
  destruct (get_product (Some pid) sk) as [[product|e] s'] eqn:Gp;
    [|reflexivity].
  destruct (return_change_exact (vm3 product s') cfg)
    as (m'' & Rm' & _ & _ & _ & Rc); auto.
  unfold vm3 in Rc, Rm'. cbn [monetary_inventory customer_balance] in Rc, Rm'.
  unfold vm3. rewrite Rc. rewrite Rm in Rm'. injection Rm' as <-.
  eexists. split; [reflexivity|].
  destruct (b =? 0); cbn; rewrite <- ?app_assoc; repeat split; reflexivity.
Qed.

Lemma exact_guard_configuration (vm : VendingMachine) (pid : ProductID)
    (info : ProductInfo) :
  selected_product vm = Some pid ->
  dict_get pid (catalogue (stock vm)) = Some info ->
  _can_return_exact_change vm = Ok true ->
  exists cfg,
    find_optimal_change (customer_balance vm - price info)
      (monetary_inventory vm) = Ok (Some cfg) /\
    owed cfg = 0.
Proof.
  intros Hsel Hcat G.
  destruct (guards_of_selected vm pid info Hsel Hcat) as (_ & G2 & _).
  rewrite G2 in G.
  destruct (find_optimal_change _ _) as [[cfg|]|e]; try discriminate.
  exists cfg. split; [reflexivity|].
  injection G as G. now apply Z.eqb_eq in G.
Qed.






(** ** A whole purchase on the exact-change path *)

Lemma run_cons (c : M VendingMachine bool) (cs : list (M VendingMachine bool))
    (vm : VendingMachine) :
  run (c :: cs) vm
  = match c vm with
    | (Ok _, vm') => run cs vm'
    | (Raise e, vm') => (Raise e, vm')
    end.
Proof. reflexivity. Qed.

(** What a run of successful [insert]s does to the machine. *)
Lemma inserts_spec (inserted : list Z) :
  forall vm vm',
    state vm = COLLECTING_PAYMENT ->
    NoDup (dict_keys (inventory (monetary_inventory vm))) ->
    run (map insert inserted) vm = (Ok tt, vm') ->
    state vm' = COLLECTING_PAYMENT /\
    stock vm' = stock vm /\
    selected_product vm' = selected_product vm /\
    delivery_system vm' = delivery_system vm /\
    customer_balance vm' = customer_balance vm + fold_right Z.add 0 inserted /\
    NoDup (dict_keys (inventory (monetary_inventory vm'))) /\
    forall d,
      count_of (monetary_inventory vm') d
      = count_of (monetary_inventory vm) d
        + Z.of_nat (count_occ Z.eq_dec inserted (value d)).
Proof.
  induction inserted as [|v inserted IH]; intros vm vm' S D R.
  - injection R as <-. simpl. repeat split; auto; lia.
  - cbn [map] in R. rewrite run_cons in R.
    rewrite (insert_in_collecting_payment v vm S) in R.
    destruct (Denomination_init_cases v) as [[_ Rd]|(den & Rd & Vd)];
      rewrite Rd in R; [discriminate|].
    destruct (Denomination_in den
                (_supported_denominantions (monetary_inventory vm)));
      [|discriminate].
    destruct (inventory_iadd_spec den 1 (monetary_inventory vm))
      as (m1 & Ri & C1 & _ & D1).
    rewrite Ri in R. cbn [snd] in R.
    apply IH in R; [|reflexivity | exact (D1 D)].
    destruct R as (S' & K' & Se' & De' & B' & D' & C').
    cbn [state stock monetary_inventory selected_product customer_balance
         delivery_system set_state set_monetary_inventory
         set_customer_balance] in *.
    repeat split; auto.
    + rewrite B'. simpl. lia.
    + intros d. rewrite C', C1. cbn [count_occ key_eqb EqKey_Denomination].
      unfold Denomination_eqb. rewrite Vd.
      destruct (Z.eq_dec v (value d)) as [->|N].
      * rewrite Z.eqb_refl. lia.
      * replace (value d =? v) with false by (symmetry; apply Z.eqb_neq; auto).
        lia.
Qed.

(** C3.  A purchase on the exact-change path: [start], [select], the
    [insert]s, then a [checkout] with enough money and exact change, which
    returns.  The machine ends in [IDLE].  The balance it holds once the
    product is dispatched (the balance is assigned by neither
    [_dispatch_product] nor [_return_change], so it is the balance at the
    end) is the money paid in less the price, and is the value of the change
    taken out of the inventory.  Denomination by denomination, the count
    before the purchase is the count after it, plus the change dispensed,
    minus the cash inserted. *)
Theorem exact_change_round_trip
    (vm0 vm1 vm2 : VendingMachine) (pid : ProductID) (inserted : list Z)
    (Hinv : distinct_keys (inventory (monetary_inventory vm0)) = true)
    (Hpay : run (start :: select pid :: map insert inserted) vm0 = (Ok tt, vm1))
    (Hfunds : _not_enough_money vm1 = Ok false)
    (Hexact : _can_return_exact_change vm1 = Ok true)
    (Hdone : checkout vm1 = (Ok true, vm2)) :
  exists (info : ProductInfo) (product : Product) (cfg : ChangeConfiguration),
    dict_get pid (catalogue (stock vm0)) = Some info /\
    state vm2 = IDLE /\
    customer_balance vm2
    = customer_balance vm0 + fold_right Z.add 0 inserted - price info /\
    find_optimal_change (customer_balance vm2) (monetary_inventory vm1)
    = Ok (Some cfg) /\
    is_exact cfg = true /\
    delivery_system vm2
    = delivery_system vm0
      ++ dispatch product
         :: (if customer_balance vm2 =? 0 then [] else [send_cash cfg]) /\
    monetary_value (configuration cfg) = customer_balance vm2 /\
    (forall d,
       count_of (monetary_inventory vm1) d - count_of (monetary_inventory vm2) d
       = quantity_of (configuration cfg) d) /\
    (forall d,
       count_of (monetary_inventory vm0) d
       = count_of (monetary_inventory vm2) d
         + quantity_of (configuration cfg) d
         - Z.of_nat (count_occ Z.eq_dec inserted (value d))).
Proof.
  apply (distinct_keys_NoDup Denomination_eqb_eq) in Hinv.
  (* start *)
  rewrite run_cons in Hpay.
  destruct (States_eqb (state vm0) IDLE) eqn:S0.
  2:{ unfold start in Hpay.
      rewrite (fire_without_candidates Trigger.start no_kwargs vm0) in Hpay;
        [discriminate|].
      apply start_sources. intros E. rewrite E in S0. discriminate. }
  assert (St0 : state vm0 = IDLE) by (destruct (state vm0); auto; discriminate).
  rewrite (start_from_IDLE vm0 St0) in Hpay.
  (* select *)
  rewrite run_cons, select_in_product_selection in Hpay by reflexivity.
  (* insert *)
  apply inserts_spec in Hpay; [|reflexivity | exact Hinv].
  cbn [state stock monetary_inventory selected_product customer_balance
       delivery_system set_state set_selected_product] in Hpay.
  destruct Hpay as (S1 & K1 & Se1 & De1 & B1 & D1 & C1).
  (* the guards *)
  assert (Hcat : exists info, dict_get pid (catalogue (stock vm1)) = Some info).
  { unfold _not_enough_money, get_price_of in Hfunds. rewrite Se1 in Hfunds.
    destruct (dict_get pid (catalogue (stock vm1))); [eauto|discriminate]. }
  destruct Hcat as (info & Hcat).
  destruct (guards_of_selected vm1 pid info Se1 Hcat) as (G1 & _ & _).
  rewrite G1 in Hfunds. injection Hfunds as Hfunds.
  rewrite Z.gtb_ltb in Hfunds. apply Z.ltb_ge in Hfunds.
  destruct (exact_guard_configuration vm1 pid info Se1 Hcat Hexact)
    as (cfg & Rf & E0).
  (* checkout *)
  destruct (checkout_exact_path vm1 pid info cfg S1 Se1 Hcat Hfunds Rf E0 D1)
    as (m' & Rm & Cm & V & Path).
  destruct (get_product (Some pid) (stock vm1)) as [[product|e] s'].
  2:{ rewrite Hdone in Path. discriminate. }
  destruct Path as (vm' & R & St & _ & _ & Ba & Mi & De).
  rewrite Hdone in R. injection R as <-.
  exists info, product, cfg.
  split; [now rewrite <- K1|]. split; [exact St|].
  split; [rewrite Ba, B1; reflexivity|].
  split; [now rewrite Ba|].
  split; [unfold is_exact; now rewrite E0|].
  split; [now rewrite Ba, De, De1|].
  split; [now rewrite Ba|].
  assert (Cnt : forall d,
            count_of (monetary_inventory vm1) d
            - count_of (monetary_inventory vm2) d
            = quantity_of (configuration cfg) d).
  { intros d. rewrite Mi.
    destruct (customer_balance vm1 - price info =? 0) eqn:Z0.
    - apply Z.eqb_eq in Z0. rewrite Z0, find_optimal_change_zero in Rf.
      injection Rf as <-. unfold quantity_of. simpl. lia.
    - rewrite Cm. lia. }
  split; [exact Cnt|].
  intros d. specialize (Cnt d). specialize (C1 d). lia.
Qed.

Lemma exact_change_round_trip_witness :
  exists (info : ProductInfo) (product : Product) (cfg : ChangeConfiguration),
    dict_get 2 (catalogue (stock test_machine)) = Some info /\
    state (snd (run [start; select 2; insert 200; checkout] test_machine))
    = IDLE /\
    monetary_value (configuration cfg) = 100 /\
    configuration cfg = [(D 100 eq_refl, 1)].
Proof.
  destruct (exact_change_round_trip test_machine
              (snd (run [start; select 2; insert 200] test_machine))
              (snd (run [start; select 2; insert 200; checkout] test_machine))
              2 [200])
    as (info & product & cfg & Hc & St & Ba & Rf & _ & _ & V & _);
    try (vm_compute; reflexivity).
  exists info, product, cfg.
  split; [exact Hc|]. split; [exact St|].
  vm_compute in Rf. injection Rf as <-.
  split; reflexivity.
Defined.

(** ** The nesting bound of [fire] is enough

    No trigger, in no state of the machine, uses up the three levels of
    nesting [fire] allows, nor the fuel of the change search. *)

Lemma add_cash_fuel (supply : dict Denomination Z) (m : MonetaryInventory) :
  fst (add_cash supply m) <> Raise OutOfFuel.
Proof.
  unfold add_cash, bind.
  assert (C : forall keys m0, fst (add_cash_check keys m0) <> Raise OutOfFuel).
  { induction keys as [|k keys IH]; intros m0; simpl; [discriminate|].
    destruct (Denomination_in k (_supported_denominantions m0)); simpl;
      [apply IH | discriminate]. }
  assert (L : forall items m0, fst (add_cash_loop items m0) <> Raise OutOfFuel).
  { induction items as [|[k q] items IH]; intros m0; simpl; [discriminate|].
    unfold bind.
    destruct (inventory_iadd_spec k q m0) as (m1 & R & _). rewrite R.
    apply IH. }
  specialize (C (dict_keys supply) m).
  destruct (add_cash_check (dict_keys supply) m) as [[[]|e] m1]; simpl in *.
  - apply L.
  - exact C.
Qed.

Lemma remove_change_fuel (change : dict Denomination Z) :
  forall m, fst (remove_change change m) <> Raise OutOfFuel.
Proof.
  induction change as [|[d q] change IH]; intros m; simpl; [discriminate|].
  destruct (defaultdict_getitem 0 d (inventory m)) as [cur inv'].
  destruct (cur <? q); [discriminate | apply IH].
Qed.

Lemma add_products_ok (ps : list Product) :
  forall s, fst (add_products ps s) = Ok tt.
Proof.
  induction ps as [|p ps IH]; intros s; simpl; [reflexivity|].
  destruct (defaultdict_getitem [] (Some (id p)) (products s)). apply IH.
Qed.

Lemma conditions_fuel (c : VendingMachine -> result bool) (tr : Transition) :
  In tr _get_transitions -> In c (conditions tr) ->
  forall vm, c vm <> Raise OutOfFuel.
Proof.
  intros It Ic vm. unfold _get_transitions in It. simpl in It.
  repeat (destruct It as [<-|It]; [simpl in Ic|]); try contradiction;
    destruct Ic as [<-|[]].
  - unfold _not_enough_money, get_price_of.
    destruct (selected_product vm); [|discriminate].
    destruct (dict_get _ _); discriminate.
  - unfold _can_return_exact_change, get_price_of.
    destruct (selected_product vm); [|discriminate].
    destruct (dict_get _ _); [|discriminate]. cbn [rbind].
    pose proof (find_optimal_change_fuel
                  (customer_balance vm - price p0) (monetary_inventory vm)) as F.
    destruct (find_optimal_change _ _) as [[cfg|]|e]; cbn [rbind];
      try discriminate.
    intros [= ->]. now apply F.
Qed.

Lemma before_fuel (f : kwargs -> M VendingMachine unit) (tr : Transition) :
  In tr _get_transitions -> In f (before tr) ->
  forall kw vm, fst (f kw vm) <> Raise OutOfFuel.
Proof.
  intros It If kw vm. unfold _get_transitions in It. simpl in It.
  repeat (destruct It as [<-|It]; [simpl in If|]); try contradiction;
    destruct If as [<-|[]].
  - unfold _reload_change, on_monetary_inventory.
    pose proof (add_cash_fuel
                  match kw_supply kw with Some s => s | None => [] end
                  (monetary_inventory vm)) as F.
    destruct (add_cash _ _) as [r m']. exact F.
  - unfold _add_products, on_stock.
    pose proof (add_products_ok
                  match kw_products kw with Some l => l | None => [] end
                  (stock vm)) as F.
    destruct (add_products _ _) as [r s']. simpl in *. rewrite F. discriminate.
  - discriminate.
  - unfold _insert. destruct (kw_denomination kw) as [v|]; [|discriminate].
    unfold bind, modify, lift, on_monetary_inventory, add_monetary_unit.
    destruct (Denomination_init_cases v) as [[_ R]|(d & R & _)]; rewrite R;
      [discriminate|].
    cbn [monetary_inventory set_customer_balance].
    destruct (Denomination_in d _); cbn [negb]; [|discriminate].
    unfold inventory_iadd. destruct (defaultdict_getitem 0 d _). discriminate.
  - unfold _charge_customer, get_price_of.
    destruct (selected_product vm); [|discriminate].
    destruct (dict_get _ _); discriminate.
  - unfold _charge_customer, get_price_of.
    destruct (selected_product vm); [|discriminate].
    destruct (dict_get _ _); discriminate.
Qed.

Lemma return_change_fuel (vm : VendingMachine) :
  fst (_return_change vm) <> Raise OutOfFuel.
Proof.
  unfold _return_change.
  destruct (customer_balance vm =? 0); [discriminate|].
  pose proof (find_optimal_change_fuel (customer_balance vm)
                (monetary_inventory vm)) as F.
  destruct (find_optimal_change _ _) as [[cfg|]|e]; try discriminate.
  - destruct (configuration cfg) as [|kv rest]; [discriminate|].
    unfold bind, on_monetary_inventory, modify.
    pose proof (remove_change_fuel (kv :: rest) (monetary_inventory vm)) as Fr.
    destruct (remove_change _ _) as [[[]|e] m']; [discriminate | exact Fr].
  - simpl. intros [= ->]. now apply F.
Qed.

Lemma dispatch_product_fuel (vm : VendingMachine) :
  fst (_dispatch_product vm) <> Raise OutOfFuel.
Proof.
  unfold _dispatch_product, bind, on_stock, modify, get_product.
  destruct (defaultdict_getitem [] _ _) as [[|p q] prods]; discriminate.
Qed.

(** Entering a state with two levels of nesting left. *)
Lemma on_enter_fuel (s : States) (vm : VendingMachine) :
  state vm = s ->
  fst (run_callbacks (fire_at 2) (on_enter s) vm) <> Raise OutOfFuel.
Proof.
  intros S. destruct s; try discriminate.
  - (* DISPATCHING_PRODUCT *)
    cbv [on_enter run_callbacks bind ret].
    pose proof (dispatch_product_fuel vm) as Fd.
    pose proof (dispatch_product_state vm) as Sd. rewrite S in Sd.
    destruct (_dispatch_product vm) as [[[]|e] vm1]; [|exact Fd].
    simpl in Sd.
    rewrite (advance_from_dispatching_product 0 no_kwargs vm1 Sd).
    pose proof (return_change_fuel (set_state RETURNING_CHANGE vm1)) as Fr.
    destruct (_return_change _) as [[[]|e] vm2]; [discriminate | exact Fr].
  - (* RETURNING_CHANGE *)
    cbv [on_enter run_callbacks bind ret].
    pose proof (return_change_fuel vm) as Fr.
    pose proof (return_change_state vm) as Sr. rewrite S in Sr.
    destruct (_return_change vm) as [[[]|e] vm1]; [|exact Fr].
    simpl in Sr.
    rewrite (advance_from_returning_change 1 no_kwargs vm1 Sr). discriminate.
Qed.

Lemma try_transitions_fuel (trs : list Transition) (kw : kwargs) :
  (forall tr, In tr trs -> In tr _get_transitions) ->
  forall vm, fst (try_transitions (fire_at 2) trs kw vm) <> Raise OutOfFuel.
Proof.
  induction trs as [|tr trs IH]; intros T vm; [discriminate|].
  cbn [try_transitions]. unfold bind at 1.
  assert (It : In tr _get_transitions) by (apply T; now left).
  assert (E : forall cs vm0,
            (forall c, In c cs -> In c (conditions tr)) ->
            fst (eval_conditions cs vm0) <> Raise OutOfFuel /\
            snd (eval_conditions cs vm0) = vm0).
  { induction cs as [|c cs IHc]; intros vm0 Sub; [split; [discriminate|reflexivity]|].
    cbn [eval_conditions]. unfold bind.
    pose proof (conditions_fuel c tr It (Sub c (or_introl eq_refl)) vm0) as Fc.
    destruct (c vm0) as [[|]|e]; simpl.
    - apply IHc. intros; apply Sub; now right.
    - split; [discriminate|reflexivity].
    - split; [exact Fc|reflexivity]. }
  destruct (E (conditions tr) vm (fun c (H : In c (conditions tr)) => H))
    as [Fe Se].
  destruct (eval_conditions (conditions tr) vm) as [[[|]|e] vm0];
    cbn [fst snd] in *.
  - subst vm0. unfold execute, bind.
    assert (B : forall fs vm0,
              (forall f, In f fs -> In f (before tr)) ->
              fst (run_before fs kw vm0) <> Raise OutOfFuel).
    { induction fs as [|f fs IHf]; intros vm0 Sub; [discriminate|].
      cbn [run_before]. unfold bind.
      pose proof (before_fuel f tr It (Sub f (or_introl eq_refl)) kw vm0) as Ff.
      destruct (f kw vm0) as [[[]|e] vm1]; [|exact Ff].
      apply IHf. intros; apply Sub; now right. }
    specialize (B (before tr) vm (fun f (H : In f (before tr)) => H)).
    destruct (run_before (before tr) kw vm) as [[[]|e] vm1];
      [|simpl; intros [= ->]; now apply B].
    unfold modify.
    pose proof (on_enter_fuel (dest tr) (set_state (dest tr) vm1) eq_refl) as Fo.
    destruct (run_callbacks (fire_at 2) (on_enter (dest tr)) _) as [[[]|e] vm2];
      [discriminate | simpl; intros [= ->]; now apply Fo].
  - apply IH. intros; apply T; now right.
  - exact Fe.
Qed.

Theorem fire_fuel (t : Trigger.t) (kw : kwargs) (vm : VendingMachine) :
  fst (fire t kw vm) <> Raise OutOfFuel.
Proof.
  unfold fire. rewrite fire_at_S.
  destruct (candidates t (state vm)) as [|tr trs] eqn:C; [discriminate|].
  apply try_transitions_fuel. intros tr' I. rewrite <- C in I.
  unfold candidates in I. now apply filter_In in I.
Qed.

(** * Further properties of the code *)

(** ** Denominations *)

(** X1.  [Denomination(v)] raises [ValueError] exactly for a negative value
    and for a value above 100 that is no multiple of 100; otherwise it gives
    a denomination of value [v]. *)
Theorem Denomination_init_accepts (v : Z) :
  (Denomination_init v = Raise ValueError
   <-> v < 0 \/ (100 < v /\ v mod 100 <> 0)) /\
  (forall d, Denomination_init v = Ok d -> value d = v) /\
  (0 <= v <= 100 \/ (0 < v /\ v mod 100 = 0) ->
   exists d, Denomination_init v = Ok d /\ value d = v).
Proof.
  assert (T : denomination_value_ok v = true
              <-> ~ (v < 0 \/ (100 < v /\ v mod 100 <> 0))).
  { unfold denomination_value_ok.
    rewrite negb_true_iff, orb_false_iff, andb_false_iff, negb_false_iff.
    rewrite Z.ltb_ge, Z.gtb_ltb, Z.ltb_ge, Z.eqb_eq. lia. }
  destruct (Denomination_init_cases v) as [[B R]|(d & R & V)]; rewrite R.
  - assert (N : ~ ~ (v < 0 \/ (100 < v /\ v mod 100 <> 0))).
    { intros C. apply T in C. congruence. }
    split; [split; [intros _; lia | reflexivity]|].
    split; [discriminate|]. intros A. exfalso. apply N. lia.
  - pose proof (proj1 T (eq_trans (f_equal denomination_value_ok (eq_sym V))
                                  (value_ok d))) as N.
    split; [split; [discriminate | intros C; contradiction]|].
    split; [now intros d' [= <-]|]. intros _. eauto.
Qed.

Lemma Denomination_init_accepts_witness :
  exists d, Denomination_init 300 = Ok d /\ value d = 300.
Proof.
  apply (proj2 (proj2 (Denomination_init_accepts 300))).
  right. split; [lia | reflexivity].
Defined.

(** ** The monetary inventory *)

Lemma monetary_value_app (a b : dict Denomination Z) :
  monetary_value (a ++ b) = monetary_value a + monetary_value b.
Proof.
  induction a as [|[k v] a IH]; simpl; [reflexivity|]. rewrite IH. lia.
Qed.

Lemma monetary_value_dict_set (d : Denomination) (q : Z)
    (inv : dict Denomination Z) :
  monetary_value (dict_set d q inv)
  = monetary_value inv
    + value d * (q - match dict_get d inv with Some c => c | None => 0 end).
Proof.
  induction inv as [|[k v] inv IH]; simpl; [lia|].
  destruct (Denomination_eqb d k) eqn:E; simpl.
  - apply (Denomination_eqb_eq d k) in E. subst k. lia.
  - rewrite IH. lia.
Qed.

(** [self.inventory[d] += q]: what it does to the total and to the counts. *)
Lemma inventory_iadd_total (d : Denomination) (q : Z) (m : MonetaryInventory) :
  cash_total (snd (inventory_iadd d q m)) = cash_total m + value d * q.
Proof.
  unfold inventory_iadd, defaultdict_getitem, cash_total.
  destruct (dict_get d (inventory m)) as [c|] eqn:G;
    cbn [snd inventory set_inventory]; rewrite monetary_value_dict_set.
  - rewrite G. lia.
  - rewrite dict_get_app_absent, G, (key_eqb_refl Denomination_eqb_eq).
    rewrite monetary_value_app. simpl. lia.
Qed.

(** X2.  [add_monetary_unit]: an unsupported denomination is refused with
    [ValueError] and the inventory is left as it was; a supported one is
    counted once more, no other count moves, and the money held grows by
    its value. *)
Theorem add_monetary_unit_counts_one (m : MonetaryInventory) (d : Denomination) :
  (Denomination_in d (_supported_denominantions m) = false ->
   add_monetary_unit d m = (Raise ValueError, m)) /\
  (Denomination_in d (_supported_denominantions m) = true ->
   exists m',
     add_monetary_unit d m = (Ok tt, m') /\
     count_of m' d = count_of m d + 1 /\
     (forall d', d' <> d -> count_of m' d' = count_of m d') /\
     cash_total m' = cash_total m + value d /\
     _supported_denominantions m' = _supported_denominantions m).
Proof.
  unfold add_monetary_unit. split; intros S; rewrite S; [reflexivity|].
  cbn [negb].
  destruct (inventory_iadd_spec d 1 m) as (m' & R & C & Su & _).
  pose proof (inventory_iadd_total d 1 m) as T. rewrite R in T. simpl in T.
  exists m'. split; [exact R|]. split; [|split; [|split]].
  - rewrite C, (key_eqb_refl Denomination_eqb_eq). reflexivity.
  - intros d' N. rewrite C, (Denomination_key_neq d' d N). lia.
  - rewrite T. lia.
  - exact Su.
Qed.

Lemma add_monetary_unit_counts_one_witness :
  exists m',
    add_monetary_unit (D 50 eq_refl)
      (inv_of [(D 100 eq_refl, 5); (D 10 eq_refl, 3)]) = (Ok tt, m') /\
    count_of m' (D 50 eq_refl) = 1.
Proof.
  destruct (proj2 (add_monetary_unit_counts_one
                     (inv_of [(D 100 eq_refl, 5); (D 10 eq_refl, 3)])
                     (D 50 eq_refl)) eq_refl)
    as (m' & R & C & _).
  exists m'. split; [exact R | exact C].
Defined.

Lemma add_cash_check_spec (keys : list Denomination) (m : MonetaryInventory) :
  add_cash_check keys m
  = if forallb (fun d => Denomination_in d (_supported_denominantions m)) keys
    then (Ok tt, m) else (Raise ValueError, m).
Proof.
  induction keys as [|k keys IH]; simpl; [reflexivity|].
  destruct (Denomination_in k (_supported_denominantions m)); simpl;
    [exact IH | reflexivity].
Qed.

Lemma add_cash_loop_spec (items : dict Denomination Z) :
  NoDup (dict_keys items) ->
  forall m,
    exists m',
      add_cash_loop items m = (Ok tt, m') /\
      (forall d, count_of m' d = count_of m d + quantity_of items d) /\
      cash_total m' = cash_total m + monetary_value items /\
      _supported_denominantions m' = _supported_denominantions m.
Proof.
  induction items as [|[k q] items IH]; intros D m.
  - exists m. split; [reflexivity|]. unfold quantity_of. simpl.
    repeat split; intros; lia.
  - inversion D as [|? ? N D']; subst. cbn [add_cash_loop]. unfold bind.
    destruct (inventory_iadd_spec k q m) as (m1 & R & C & Su & _).
    pose proof (inventory_iadd_total k q m) as T. rewrite R in T |- *.
    cbn [snd] in T.
    destruct (IH D' m1) as (m' & R' & C' & T' & Su').
    exists m'. split; [exact R'|]. split; [|split].
    + intros d. rewrite C', C, quantity_of_cons.
      destruct (key_eqb d k) eqn:E; [|lia].
      apply Denomination_eqb_eq in E. subst d.
      rewrite (quantity_of_absent k items N). lia.
    + rewrite T', T. simpl. lia.
    + congruence.
Qed.

(** X3.  [add_cash] checks every key before it adds anything: with a key
    that is not supported it raises [ValueError] and the inventory is left
    as it was; otherwise every count grows by the quantity supplied and the
    money held by the value of the supply. *)
Theorem add_cash_all_or_nothing (m : MonetaryInventory)
    (supply : dict Denomination Z) :
  (all_supported m supply = false -> add_cash supply m = (Raise ValueError, m)) /\
  (all_supported m supply = true -> distinct_keys supply = true ->
   exists m',
     add_cash supply m = (Ok tt, m') /\
     (forall d, count_of m' d = count_of m d + quantity_of supply d) /\
     cash_total m' = cash_total m + monetary_value supply /\
     _supported_denominantions m' = _supported_denominantions m).
Proof.
  unfold add_cash, bind, all_supported. rewrite add_cash_check_spec.
  split; intros S; rewrite S; [reflexivity|]. intros Dk.
  apply (distinct_keys_NoDup Denomination_eqb_eq) in Dk.
  exact (add_cash_loop_spec supply Dk m).
Qed.

Lemma add_cash_all_or_nothing_witness :
  add_cash [(D 50 eq_refl, 10); (D 3 eq_refl, 1)]
    (inv_of [(D 100 eq_refl, 5); (D 10 eq_refl, 3)])
  = (Raise ValueError, inv_of [(D 100 eq_refl, 5); (D 10 eq_refl, 3)]).
Proof.
  apply (proj1 (add_cash_all_or_nothing
                  (inv_of [(D 100 eq_refl, 5); (D 10 eq_refl, 3)])
                  [(D 50 eq_refl, 10); (D 3 eq_refl, 1)])).
  reflexivity.
Defined.

Lemma defaultdict_getitem_total (d : Denomination) (inv : dict Denomination Z) :
  forall cur inv',
    defaultdict_getitem 0 d inv = (cur, inv') ->
    monetary_value inv' = monetary_value inv /\ dict_get d inv' = Some cur.
Proof.
  intros cur inv'. unfold defaultdict_getitem.
  destruct (dict_get d inv) as [c|] eqn:G; intros [= <- <-].
  - split; [reflexivity | exact G].
  - rewrite monetary_value_app, dict_get_app_absent, G.
    rewrite (key_eqb_refl Denomination_eqb_eq). simpl. split; [lia|reflexivity].
Qed.

Lemma remove_change_total (change : dict Denomination Z) :
  forall m m',
    remove_change change m = (Ok tt, m') ->
    cash_total m' = cash_total m - monetary_value change.
Proof.
  induction change as [|[d q] change IH]; intros m m' R.
  - injection R as <-. simpl. lia.
  - cbn [remove_change] in R.
    destruct (defaultdict_getitem 0 d (inventory m)) as [cur inv'] eqn:G.
    destruct (defaultdict_getitem_total d (inventory m) cur inv' G) as (T & Gd).
    destruct (cur <? q); [discriminate|].
    apply IH in R. rewrite R. unfold cash_total. cbn [inventory set_inventory].
    rewrite monetary_value_dict_set, Gd, T. simpl. lia.
Qed.

Lemma remove_change_error (change : dict Denomination Z) :
  forall m e, fst (remove_change change m) = Raise e -> e = RuntimeError.
Proof.
  induction change as [|[d q] change IH]; intros m e; simpl; [discriminate|].
  destruct (defaultdict_getitem 0 d (inventory m)) as [cur inv'].
  destruct (cur <? q); [now intros [= <-] | apply IH].
Qed.

(** X4.  [remove_change] succeeds exactly when no quantity asked exceeds the
    count held; the only exception it raises is [RuntimeError]; on success
    every count has gone down by the quantity asked and the money held by
    the value of the change. *)
Theorem remove_change_succeeds_iff (m : MonetaryInventory)
    (change : dict Denomination Z)
    (Hkeys : distinct_keys change = true) :
  (fst (remove_change change m) = Ok tt
   <-> forall d n, In (d, n) change -> n <= count_of m d) /\
  (forall e, fst (remove_change change m) = Raise e -> e = RuntimeError) /\
  (forall m',
     remove_change change m = (Ok tt, m') ->
     (forall d, count_of m' d = count_of m d - quantity_of change d) /\
     cash_total m' = cash_total m - monetary_value change).
Proof.
  apply (distinct_keys_NoDup Denomination_eqb_eq) in Hkeys.
  assert (Only_if : forall change m,
            NoDup (dict_keys change) ->
            fst (remove_change change m) = Ok tt ->
            forall d n, In (d, n) change -> n <= count_of m d).
  { clear. induction change as [|[d0 n0] change IH]; intros m D R d n I;
      [destruct I|].
    inversion D as [|? ? N0 D']; subst. cbn [remove_change] in R.
    destruct (defaultdict_getitem 0 d0 (inventory m)) as [cur inv'] eqn:G.
    destruct (count_defaultdict_getitem m d0 cur inv' G) as (-> & C & _).
    destruct (count_of m d0 <? n0) eqn:Lt; [discriminate|].
    apply Z.ltb_ge in Lt.
    destruct I as [[= <- <-]|I]; [exact Lt|].
    pose proof (IH _ D' R d n I) as Le.
    rewrite count_dict_set, C in Le.
    rewrite Denomination_key_neq in Le; [exact Le|].
    intros ->. apply N0. now apply (in_map fst) in I. }
  split; [split|split].
  - now apply Only_if.
  - intros Le. destruct (remove_change_spec change Hkeys m Le) as (m' & R & _).
    now rewrite R.
  - apply remove_change_error.
  - intros m' R. split; [|now apply remove_change_total].
    destruct (remove_change_spec change Hkeys m) as (m'' & R' & C & _).
    { apply Only_if; [exact Hkeys | now rewrite R]. }
    rewrite R in R'. injection R' as <-. exact C.
Qed.

Lemma remove_change_succeeds_iff_witness :
  fst (remove_change [(D 100 eq_refl, 2); (D 10 eq_refl, 3)]
         (inv_of [(D 100 eq_refl, 5); (D 10 eq_refl, 3)])) = Ok tt
  <-> forall d n, In (d, n) [(D 100 eq_refl, 2); (D 10 eq_refl, 3)] ->
                  n <= count_of (inv_of [(D 100 eq_refl, 5); (D 10 eq_refl, 3)]) d.
Proof.
  apply (remove_change_succeeds_iff
           (inv_of [(D 100 eq_refl, 5); (D 10 eq_refl, 3)])
           [(D 100 eq_refl, 2); (D 10 eq_refl, 3)]).
  reflexivity.
Defined.

(** X5.  Whatever it is asked and whether it succeeds or raises,
    [remove_change] never leaves a negative count in an inventory that had
    none. *)
Theorem remove_change_keeps_counts_nonnegative (change : dict Denomination Z)
    (m : MonetaryInventory)
    (Hm : forall d, 0 <= count_of m d) :
  forall d, 0 <= count_of (snd (remove_change change m)) d.
Proof.
  revert m Hm. induction change as [|[d0 q] change IH]; intros m Hm;
    [exact Hm|].
  cbn [remove_change].
  destruct (defaultdict_getitem 0 d0 (inventory m)) as [cur inv'] eqn:G.
  destruct (count_defaultdict_getitem m d0 cur inv' G) as (-> & C & _).
  destruct (count_of m d0 <? q) eqn:Lt.
  - intros d. cbn [snd raise]. rewrite C. apply Hm.
  - apply Z.ltb_ge in Lt. apply IH. intros d. rewrite count_dict_set, C.
    destruct (key_eqb d d0); [lia | apply Hm].
Qed.

Lemma remove_change_keeps_counts_nonnegative_witness :
  0 <= count_of
         (snd (remove_change [(D 100 eq_refl, 2); (D 10 eq_refl, 5)]
                 (inv_of [(D 100 eq_refl, 5); (D 10 eq_refl, 3)])))
         (D 10 eq_refl).
Proof.
  apply (remove_change_keeps_counts_nonnegative
           [(D 100 eq_refl, 2); (D 10 eq_refl, 5)]
           (inv_of [(D 100 eq_refl, 5); (D 10 eq_refl, 3)])).
  intros d. unfold count_of. simpl.
  destruct (Denomination_eqb d (D 100 eq_refl)); [lia|].
  destruct (Denomination_eqb d (D 10 eq_refl)); lia.
Defined.

(** X6.  Adding a supply and removing it again gives back every count and
    the money held, provided no count of a supplied denomination was
    negative to begin with. *)
Theorem add_cash_then_remove_change (m : MonetaryInventory)
    (supply : dict Denomination Z)
    (Hsup : all_supported m supply = true)
    (Hkeys : distinct_keys supply = true)
    (Hm : forallb (fun d => 0 <=? count_of m d) (dict_keys supply) = true) :
  exists m1 m2,
    add_cash supply m = (Ok tt, m1) /\
    remove_change supply m1 = (Ok tt, m2) /\
    (forall d, count_of m2 d = count_of m d) /\
    cash_total m2 = cash_total m.
Proof.
  apply (distinct_keys_NoDup Denomination_eqb_eq) in Hkeys.
  destruct (add_cash_loop_spec supply Hkeys m) as (m1 & R1 & C1 & T1 & _).
  assert (A : add_cash supply m = (Ok tt, m1)).
  { unfold add_cash, bind. rewrite add_cash_check_spec.
    unfold all_supported in Hsup. now rewrite Hsup. }
  rewrite forallb_forall in Hm.
  destruct (remove_change_spec supply Hkeys m1) as (m2 & R2 & C2 & _).
  { intros d n I. rewrite C1. unfold quantity_of.
    rewrite (In_dict_get Denomination_eqb_eq d n supply Hkeys I).
    assert ((0 <=? count_of m d) = true)
      by (apply Hm; now apply (in_map fst) in I).
    lia. }
  exists m1, m2. split; [exact A|]. split; [exact R2|]. split.
  - intros d. rewrite C2, C1. lia.
  - rewrite (remove_change_total _ _ _ R2), T1. lia.
Qed.

Lemma add_cash_then_remove_change_witness :
  exists m1 m2,
    add_cash [(D 50 eq_refl, 10)]
      (inv_of [(D 100 eq_refl, 5); (D 10 eq_refl, 3)]) = (Ok tt, m1) /\
    remove_change [(D 50 eq_refl, 10)] m1 = (Ok tt, m2) /\
    (forall d, count_of m2 d
               = count_of (inv_of [(D 100 eq_refl, 5); (D 10 eq_refl, 3)]) d) /\
    cash_total m2 = cash_total (inv_of [(D 100 eq_refl, 5); (D 10 eq_refl, 3)]).
Proof.
  apply (add_cash_then_remove_change
           (inv_of [(D 100 eq_refl, 5); (D 10 eq_refl, 3)])
           [(D 50 eq_refl, 10)]); reflexivity.
Defined.

Lemma change_of_distinct (m : MonetaryInventory) :
  NoDup (dict_keys (inventory m)) -> change_of m = int_items (inventory m).
Proof.
  intros D. unfold change_of. fold (int_items (inventory m)).
  apply (dict_of_items_NoDup Z_key_eqb_eq).
  rewrite int_items_keys.
  induction (dict_keys (inventory m)) as [|k ks IH]; simpl; [constructor|].
  inversion D as [|? ? N D']; subst. constructor; [|now apply IH].
  intros I. apply in_map_iff in I. destruct I as (k' & E & I).
  apply Denomination_ext in E. now subst k'.
Qed.

Lemma dict_get_filter_positive (d : Denomination) (inv : dict Denomination Z) :
  NoDup (dict_keys inv) ->
  dict_get d (filter (fun kv => snd kv >? 0) inv)
  = match dict_get d inv with
    | Some q => if q >? 0 then Some q else None
    | None => None
    end.
Proof.
  induction inv as [|[k v] inv IH]; intros D; [reflexivity|].
  inversion D as [|? ? N D']; subst. cbn [filter snd dict_get].
  destruct (key_eqb d k) eqn:E.
  - apply Denomination_eqb_eq in E. subst k.
    destruct (v >? 0); cbn [dict_get].
    + now rewrite (key_eqb_refl Denomination_eqb_eq).
    + rewrite (IH D').
      apply (dict_get_None_keys Denomination_eqb_eq) in N. now rewrite N.
  - destruct (v >? 0); cbn [dict_get]; [rewrite E|]; apply (IH D').
Qed.

Lemma positive_keys_int_items (inv : dict Denomination Z) :
  positive_keys (int_items inv)
  = map value (dict_keys (filter (fun kv => snd kv >? 0) inv)).
Proof.
  unfold positive_keys, int_items, dict_keys.
  induction inv as [|[k v] inv IH]; [reflexivity|].
  simpl. destruct (v >? 0); simpl; now rewrite IH.
Qed.

(** X7.  [available_change] holds a denomination exactly when the inventory
    holds it with a positive count, and with that count; its keys are the
    denominations the change search chooses from. *)
Theorem available_change_is_positive_part (m : MonetaryInventory)
    (Hkeys : distinct_keys (inventory m) = true) :
  (forall d q,
     dict_get d (available_change m) = Some q
     <-> dict_get d (inventory m) = Some q /\ 0 < q) /\
  positive_keys (change_of m) = map value (dict_keys (available_change m)).
Proof.
  apply (distinct_keys_NoDup Denomination_eqb_eq) in Hkeys.
  split.
  - intros d q. unfold available_change.
    rewrite (dict_get_filter_positive d _ Hkeys).
    destruct (dict_get d (inventory m)) as [c|]; [|split; [discriminate|intros [[=] _]]].
    destruct (c >? 0) eqn:P.
    + apply Z.gtb_lt in P. split; [intros [= <-]; auto | now intros [[= <-] _]].
    + split; [discriminate|]. intros [[= <-] Q]. apply Z.gtb_lt in Q. congruence.
  - rewrite (change_of_distinct m Hkeys). unfold available_change.
    apply positive_keys_int_items.
Qed.

Lemma available_change_is_positive_part_witness :
  dict_get (D 10 eq_refl)
    (available_change (inv_of [(D 100 eq_refl, 0); (D 10 eq_refl, 3)]))
  = Some 3
  <-> dict_get (D 10 eq_refl)
        (inventory (inv_of [(D 100 eq_refl, 0); (D 10 eq_refl, 3)])) = Some 3
      /\ 0 < 3.
Proof.
  apply (proj1 (available_change_is_positive_part
                  (inv_of [(D 100 eq_refl, 0); (D 10 eq_refl, 3)]) eq_refl)).
Defined.

(** ** What the change search can return *)

Lemma change_of_nonneg (m : MonetaryInventory) (d : Z) :
  In d (positive_keys (change_of m)) -> 0 <= d.
Proof.
  intros I. apply In_positive_keys in I. destruct I as (q & I & _).
  destruct (change_of_entry m d q I) as (den & _ & <-).
  apply denomination_value_nonneg.
Qed.

(** A node of the search space uses positive denominations only, and its
    remainder lies between 0 and the amount when the amount is not
    negative. *)
Lemma search_space_positive (owed : Z) (change current sol : dict Z Z) (r : Z) :
  search_space owed change current sol r ->
  (forall d, In d (positive_keys change) -> 0 <= d) ->
  (forall d n, In (d, n) current -> 0 < d) ->
  (forall d n, In (d, n) sol -> 0 < d) /\ (0 <= owed -> 0 <= r <= owed).
Proof.
  induction 1 as [owed change current
                 |owed change current d avail n sol r I G R _ IH];
    intros P C.
  - split; [exact C | lia].
  - assert (Pd : 0 < d).
    { pose proof (P d I) as Pd. destruct (Z.eq_dec d 0) as [->|]; [|lia].
      rewrite Z.div_0_r in R. lia. }
    destruct IH as [S B].
    + intros d' I'. apply P. now apply positive_keys_zeroed_subset in I'.
    + intros d' n' I'.
      destruct (In_dict_set Z_key_eqb_eq _ _ _ _ I') as [I''|[= -> ->]];
        [eapply C; eassumption | exact Pd].
    + split; [exact S|]. intros O.
      destruct (units_fit owed d n avail Pd R) as [Bn _]. lia.
Qed.

(** What can be said of any configuration [find_optimal_change] returns. *)
Lemma configuration_payable (owed_amount : Z)
    (m : MonetaryInventory) (cfg : ChangeConfiguration) :
  NoDup (dict_keys (inventory m)) ->
  find_optimal_change owed_amount m = Ok (Some cfg) ->
  NoDup (dict_keys (configuration cfg)) /\
  (forall d n, In (d, n) (configuration cfg) ->
               0 < value d /\ 1 <= n <= count_of m d) /\
  monetary_value (configuration cfg) = owed_amount - owed cfg /\
  (0 <= owed_amount -> 0 <= owed cfg <= owed_amount) /\
  exists m',
    remove_change (configuration cfg) m = (Ok tt, m') /\
    (forall d, count_of m' d = count_of m d - quantity_of (configuration cfg) d) /\
    cash_total m' = cash_total m - (owed_amount - owed cfg) /\
    _supported_denominantions m' = _supported_denominantions m.
Proof.
  intros Hkeys Hret.
  destruct (find_optimal_change_configuration _ _ _ Hret) as (Dc & F & V).
  assert (N : search_space owed_amount (change_of m) []
                (int_items (configuration cfg)) (owed cfg)).
  { unfold find_optimal_change in Hret. fold (change_of m) in Hret.
    destruct (backtrack_best_change (S (List.length (change_of m))) owed_amount
                (change_of m) None None sys_maxsize)
      as [[b l]|e] eqn:B; cbn [rbind] in Hret; [|discriminate].
    apply backtrack_best_change_provenance in B.
    destruct b as [sol|]; [|discriminate].
    destruct (denominations_of sol) as [items|e] eqn:Ri; cbn [rbind] in Hret;
      [|discriminate].
    destruct B as [[[=] _]|(sol' & [= <-] & N)].
    destruct (denominations_of_ok sol) as (items' & Ri' & Ei).
    { intros d n I.
      destruct (search_space_solution _ _ _ _ _ N (change_of_NoDup m))
        as (ext & E & _ & Fe & _); [intros k []|]. simpl in E. subst ext.
      destruct (Fe d n I) as (Pk & _).
      apply In_positive_keys in Pk. destruct Pk as (q & Iq & _).
      destruct (change_of_entry m d q Iq) as (den & _ & <-). apply value_ok. }
    rewrite Ri in Ri'. injection Ri' as <-.
    injection Hret as <-. unfold ChangeConfiguration_init.
    cbn [owed configuration].
    assert (Di : NoDup (dict_keys items)).
    { destruct (search_space_solution _ _ _ _ _ N (change_of_NoDup m))
        as (ext & E & Dext & _); [intros k []|]. simpl in E. subst ext.
      rewrite <- Ei, int_items_keys in Dext. now apply NoDup_map_inv in Dext. }
    unfold dict_union. fold (dict_of_items (dict_of_items items)).
    rewrite !(dict_of_items_NoDup Denomination_eqb_eq items Di).
    now rewrite Ei. }
  destruct (search_space_positive _ _ _ _ _ N (change_of_nonneg m))
    as (Pos & Bnd); [intros d n []|].
  assert (Cnt : forall d n, In (d, n) (configuration cfg) ->
                            1 <= n <= count_of m d).
  { intros d n I. destruct (F d n I) as (avail & G & Rn).
    rewrite (change_of_count _ _ Hkeys) in G. unfold count_of. now rewrite G. }
  split; [exact Dc|].
  split.
  { intros d n I. split; [|now apply Cnt].
    apply (Pos (value d) n). unfold int_items. apply in_map_iff.
    exists (d, n). auto. }
  split; [lia|]. split; [exact Bnd|].
  destruct (remove_change_spec (configuration cfg) Dc m) as (m' & R & C & Su).
  { intros d n I. apply Cnt. exact I. }
  exists m'. split; [exact R|]. split; [exact C|]. split; [|exact Su].
  rewrite (remove_change_total _ _ _ R). lia.
Qed.


(** X8.  Whatever the amount and the inventory, a configuration that
    [find_optimal_change] returns can be paid: its denominations are
    distinct and of positive value, each quantity is at least 1 and at most
    the count held, it is worth the amount less [owed], [owed] lies between
    0 and the amount when the amount is not negative, and [remove_change]
    of it succeeds. *)
Theorem returned_configuration_is_payable (owed_amount : Z)
    (m : MonetaryInventory) (cfg : ChangeConfiguration)
    (Hkeys : distinct_keys (inventory m) = true)
    (Hret : find_optimal_change owed_amount m = Ok (Some cfg)) :
  distinct_keys (configuration cfg) = true /\
  (forall d n, In (d, n) (configuration cfg) ->
               0 < value d /\ 1 <= n <= count_of m d) /\
  monetary_value (configuration cfg) = owed_amount - owed cfg /\
  (0 <= owed_amount -> 0 <= owed cfg <= owed_amount) /\
  exists m',
    remove_change (configuration cfg) m = (Ok tt, m') /\
    (forall d, count_of m' d = count_of m d - quantity_of (configuration cfg) d) /\
    cash_total m' = cash_total m - (owed_amount - owed cfg).
Proof.
  apply (distinct_keys_NoDup Denomination_eqb_eq) in Hkeys.
  destruct (configuration_payable owed_amount m cfg Hkeys Hret)
    as (Dc & F & V & B & m' & R & C & T & _).
  split; [now apply (distinct_keys_NoDup Denomination_eqb_eq)|].
  split; [exact F|]. split; [exact V|]. split; [exact B|].
  exists m'. auto.
Qed.

Lemma returned_configuration_is_payable_witness :
  exists m',
    remove_change [(D 100 eq_refl, 1); (D 10 eq_refl, 1)]
      (inv_of [(D 100 eq_refl, 2); (D 10 eq_refl, 1)]) = (Ok tt, m') /\
    cash_total m'
    = cash_total (inv_of [(D 100 eq_refl, 2); (D 10 eq_refl, 1)]) - (150 - 40).
Proof.
  destruct (returned_configuration_is_payable 150
              (inv_of [(D 100 eq_refl, 2); (D 10 eq_refl, 1)])
              (mkChangeConfiguration 40 [(D 100 eq_refl, 1); (D 10 eq_refl, 1)])
              eq_refl eq_refl)
    as (_ & _ & _ & _ & m' & R & _ & T).
  exists m'. split; [exact R | exact T].
Defined.

Lemma for_denominations_negative
    (recurse : Z -> dict Z Z -> solution -> solution -> Z -> result (solution * Z))
    (owed : Z) (change current : dict Z Z) (best : solution) (lowest : Z) :
  owed < 0 ->
  forall ds,
    (forall d, In d ds -> 0 < d /\ In d (positive_keys change)) ->
    for_denominations recurse owed change current ds best lowest
    = Ok (Fallthrough best lowest).
Proof.
  intros Neg. induction ds as [|d ds IH]; intros P; [reflexivity|].
  destruct (P d (or_introl eq_refl)) as [Pd I].
  destruct (positive_key_has_count d change I) as (avail & G).
  cbn [for_denominations].
  replace (d =? 0) with false by (symmetry; apply Z.eqb_neq; lia).
  rewrite G.
  assert (Q : owed / d < 0) by (apply Z.div_lt_upper_bound; lia).
  unfold reversed_range_1.
  replace (Z.to_nat (Z.min (owed / d) avail)) with 0%nat by lia.
  cbn [seq rev map for_units rbind]. apply IH. intros; apply P; now right.
Qed.

(** X9.  A negative amount is not refused: from an inventory with no zero
    denomination in use, [find_optimal_change] returns the empty
    configuration with [owed] the negative amount itself. *)
Theorem find_optimal_change_negative_amount (owed_amount : Z)
    (m : MonetaryInventory)
    (Hneg : owed_amount < 0)
    (Hnz : nonzero_denominations m = true) :
  find_optimal_change owed_amount m
  = Ok (Some (mkChangeConfiguration owed_amount [])).
Proof.
  unfold find_optimal_change. fold (change_of m).
  cbn [backtrack_best_change].
  replace (owed_amount <? sys_maxsize) with true
    by (symmetry; apply Z.ltb_lt; unfold sys_maxsize; lia).
  replace (owed_amount =? 0) with false by (symmetry; apply Z.eqb_neq; lia).
  rewrite for_denominations_negative; [reflexivity | exact Hneg |].
  intros d I. rewrite In_sorted_reverse in I. split; [|exact I].
  now apply (change_of_positive m Hnz).
Qed.

Lemma find_optimal_change_negative_amount_witness :
  find_optimal_change (-5) (inv_of [(D 100 eq_refl, 5); (D 10 eq_refl, 3)])
  = Ok (Some (mkChangeConfiguration (-5) [])).
Proof.
  apply find_optimal_change_negative_amount; [lia | reflexivity].
Defined.

(** ** The stock *)

Lemma option_key_neq (i j : ProductID) :
  i <> j -> key_eqb (Some i) (Some j) = false.
Proof. intros N. apply (key_eqb_neq option_Z_eqb_eq). congruence. Qed.

Lemma queue_defaultdict_getitem (s : Stock) (i0 : ProductID) :
  forall q prods,
    defaultdict_getitem [] (Some i0) (products s) = (q, prods) ->
    q = queue_of s i0 /\
    catalogue (set_products prods s) = catalogue s /\
    forall i, queue_of (set_products prods s) i = queue_of s i.
Proof.
  intros q prods. unfold defaultdict_getitem, queue_of.
  destruct (dict_get (Some i0) (products s)) as [q0|] eqn:G; intros [= <- <-].
  - rewrite set_products_same. auto.
  - split; [reflexivity|]. split; [reflexivity|]. intros i.
    cbn [products set_products]. rewrite dict_get_app_absent.
    destruct (dict_get (Some i) (products s)); [reflexivity|].
    now destruct (key_eqb (Some i) (Some i0)).
Qed.

Lemma queue_dict_set (s : Stock) (prods : dict (option ProductID) (list Product))
    (i0 i : ProductID) (q : list Product) :
  queue_of (set_products (dict_set (Some i0) q prods) s) i
  = if i =? i0 then q else queue_of (set_products prods s) i.
Proof.
  unfold queue_of. cbn [products set_products].
  rewrite (dict_get_set option_Z_eqb_eq). cbn [key_eqb EqKey_option_Z].
  now destruct (i =? i0).
Qed.

Lemma add_products_queues (ps : list Product) (s : Stock) :
  exists s',
    add_products ps s = (Ok tt, s') /\
    catalogue s' = catalogue s /\
    forall i, queue_of s' i
              = queue_of s i ++ filter (fun p => id p =? i) ps.
Proof.
  revert s. induction ps as [|p ps IH]; intros s.
  - exists s. split; [reflexivity|]. split; [reflexivity|].
    intros i. simpl. now rewrite app_nil_r.
  - cbn [add_products].
    destruct (defaultdict_getitem [] (Some (id p)) (products s))
      as [q prods] eqn:G.
    destruct (queue_defaultdict_getitem s (id p) q prods G) as (-> & C & Q).
    destruct (IH (set_products
                    (dict_set (Some (id p)) (queue_of s (id p) ++ [p]) prods) s))
      as (s' & R & C' & Q').
    exists s'. split; [exact R|]. split; [now rewrite C'|].
    intros i. rewrite Q', queue_dict_set, Q. cbn [filter].
    rewrite (Z.eqb_sym (id p) i).
    destruct (i =? id p) eqn:E; [|reflexivity].
    apply Z.eqb_eq in E. subst i. now rewrite <- app_assoc.
Qed.

Lemma get_product_queue (s : Stock) (i : ProductID) :
  exists s',
    get_product (Some i) s
    = (match queue_of s i with
       | [] => Raise QueueEmpty
       | p :: _ => Ok p
       end, s') /\
    catalogue s' = catalogue s /\
    queue_of s' i = tl (queue_of s i) /\
    forall j, j <> i -> queue_of s' j = queue_of s j.
Proof.
  unfold get_product.
  destruct (defaultdict_getitem [] (Some i) (products s)) as [q prods] eqn:G.
  destruct (queue_defaultdict_getitem s i q prods G) as (-> & C & Q).
  destruct (queue_of s i) as [|p q] eqn:E.
  - eexists. split; [reflexivity|]. split; [exact C|].
    split; [now rewrite Q, E | intros j _; apply Q].
  - eexists. split; [reflexivity|]. split; [reflexivity|]. split.
    + now rewrite queue_dict_set, Z.eqb_refl.
    + intros j N. rewrite queue_dict_set, Q.
      now replace (j =? i) with false by (symmetry; now apply Z.eqb_neq).
Qed.

Lemma in_stock_queue (s : Stock) (i : ProductID) :
  in_stock s i = match queue_of s i with [] => false | _ :: _ => true end.
Proof.
  unfold in_stock, queue_of.
  now destruct (dict_get (Some i) (products s)) as [[|p q]|].
Qed.

(** X10.  [add_products] never raises and stocks a unit whether or not the
    catalogue has an entry for its id (the catalogue decides only whether
    the warning is logged): each unit goes to the back of the queue of its
    id, every queue is afterwards the queue of before followed by the added
    units of that id in the order given, every id that was added or was in
    stock is in stock, and the catalogue is as before. *)
Theorem add_products_enqueues (ps : list Product) (s : Stock) :
  exists s',
    add_products ps s = (Ok tt, s') /\
    catalogue s' = catalogue s /\
    (forall i, queue_of s' i
               = queue_of s i ++ filter (fun p => id p =? i) ps) /\
    (forall i, in_stock s' i
               = in_stock s i || existsb (fun p => id p =? i) ps).
Proof.
  destruct (add_products_queues ps s) as (s' & R & C & Q).
  exists s'. split; [exact R|]. split; [exact C|]. split; [exact Q|].
  intros i. rewrite !in_stock_queue, Q.
  destruct (queue_of s i) as [|p q]; [|reflexivity]. cbn [app orb].
  clear R Q.
  induction ps as [|p ps IH]; [reflexivity|]. cbn [filter existsb].
  destruct (id p =? i); [reflexivity | exact IH].
Qed.

Lemma add_products_enqueues_witness :
  exists s',
    add_products [mkProduct 9; mkProduct 2] (stock test_machine) = (Ok tt, s') /\
    queue_of s' 2 = [mkProduct 2; mkProduct 2] /\
    in_stock s' 9 = true.
Proof.
  destruct (add_products_enqueues [mkProduct 9; mkProduct 2]
              (stock test_machine)) as (s' & R & _ & Q & I).
  exists s'. split; [exact R|]. split.
  - rewrite (Q 2). reflexivity.
  - rewrite (I 9). reflexivity.
Defined.

(** X11.  [get_product] takes the oldest unit of the id asked for and leaves
    the others queued in their order; it raises [queue.Empty] exactly when
    no unit of that id is in stock.  In both cases the catalogue and the
    other queues are as before. *)
Theorem get_product_dequeues_oldest (s : Stock) (i : ProductID) :
  exists s',
    get_product (Some i) s
    = (match queue_of s i with
       | [] => Raise QueueEmpty
       | p :: _ => Ok p
       end, s') /\
    (fst (get_product (Some i) s) = Raise QueueEmpty <-> in_stock s i = false) /\
    catalogue s' = catalogue s /\
    queue_of s' i = tl (queue_of s i) /\
    forall j, j <> i -> queue_of s' j = queue_of s j.
Proof.
  destruct (get_product_queue s i) as (s' & R & C & Qi & Qj).
  exists s'. split; [exact R|]. split; [|auto].
  rewrite R, in_stock_queue. cbn [fst].
  destruct (queue_of s i); split; congruence.
Qed.

Lemma get_product_dequeues_oldest_witness :
  exists s',
    get_product (Some 1) (stock test_machine) = (Ok (mkProduct 1), s') /\
    queue_of s' 1 = [mkProduct 1].
Proof.
  destruct (get_product_dequeues_oldest (stock test_machine) 1)
    as (s' & R & _ & _ & Q & _).
  exists s'. split; [exact R | exact Q].
Defined.

Lemma get_offer_loop_queues (items : list (ProductID * ProductInfo)) :
  forall acc s i,
    queue_of (snd (get_offer_loop items acc s)) i = queue_of s i.
Proof.
  induction items as [|[pid info] items IH]; intros acc s i; [reflexivity|].
  cbn [get_offer_loop].
  destruct (defaultdict_getitem [] (Some pid) (products s)) as [q prods] eqn:G.
  destruct (queue_defaultdict_getitem s pid q prods G) as (_ & _ & Q).
  now rewrite IH, Q.
Qed.

Lemma add_products_queues_match (s : Stock) (ps : list Product) :
  queues_match_ids s -> queues_match_ids (snd (add_products ps s)).
Proof.
  intros W i p I.
  destruct (add_products_queues ps s) as (s' & R & _ & Q).
  rewrite R in I. cbn [snd] in I. rewrite Q, in_app_iff in I.
  destruct I as [I|I]; [now apply W|].
  apply filter_In in I. destruct I as [_ E]. now apply Z.eqb_eq in E.
Qed.

Lemma get_product_queues_match (s : Stock) (sel : option ProductID) :
  queues_match_ids s -> queues_match_ids (snd (get_product sel s)).
Proof.
  intros W. destruct sel as [i|].
  - destruct (get_product_queue s i) as (s' & R & _ & Qi & Qj).
    rewrite R. cbn [snd]. intros j p I.
    destruct (Z.eq_dec j i) as [->|N].
    + rewrite Qi in I. apply W.
      destruct (queue_of s i); [destruct I | now right].
    + rewrite (Qj j N) in I. now apply W.
  - unfold get_product, defaultdict_getitem, raise.
    destruct (dict_get None (products s)) as [[|p q]|] eqn:G;
      cbn [snd]; intros j p' I; apply W; unfold queue_of in *;
      cbn [set_products products] in I.
    + exact I.
    + rewrite (dict_get_set_other option_Z_eqb_eq) in I by discriminate.
      exact I.
    + rewrite dict_get_app_absent in I.
      destruct (dict_get (Some j) (products s)); exact I.
Qed.

(** X12.  Every queue holds units of its own id only: this holds of a new
    [Stock], is kept by [add_products], [get_product], [get_offer] and
    [update_catalogue], and makes [get_product] return a unit of the id
    asked for. *)
Theorem queues_hold_their_own_ids :
  (forall catalogue ps, queues_match_ids (Stock_init catalogue ps)) /\
  (forall s,
     queues_match_ids s ->
     (forall ps, queues_match_ids (snd (add_products ps s))) /\
     (forall i,
        queues_match_ids (snd (get_product (Some i) s)) /\
        forall p, fst (get_product (Some i) s) = Ok p -> id p = i) /\
     queues_match_ids (snd (get_offer s)) /\
     (forall new_catalogue,
        queues_match_ids (snd (update_catalogue new_catalogue s)))).
Proof.
  pose proof add_products_queues_match as Add.
  assert (Offer : forall s,
            queues_match_ids s -> queues_match_ids (snd (get_offer s))).
  { intros s W i p I. unfold get_offer in I.
    rewrite get_offer_loop_queues in I. now apply W. }
  split.
  - intros catalogue ps. unfold Stock_init. apply Add.
    intros i p I. unfold queue_of in I. simpl in I. destruct I.
  - intros s W. split; [intros ps; now apply Add|]. split; [|split].
    + intros i. split; [now apply get_product_queues_match|].
      destruct (get_product_queue s i) as (s' & R & _).
      rewrite R. cbn [fst]. intros p E. apply W.
      destruct (queue_of s i); [discriminate|]. injection E as <-. now left.
    + now apply Offer.
    + intros new_catalogue. unfold update_catalogue, bind, modify.
      pose proof (Offer s W) as Wo.
      destruct (get_offer s) as [[offer|e] s0]; exact Wo.
Qed.

Lemma queues_hold_their_own_ids_witness :
  exists p,
    fst (get_product (Some 1)
           (Stock_init [] [mkProduct 2; mkProduct 1; mkProduct 1])) = Ok p /\
    id p = 1.
Proof.
  exists (mkProduct 1). split; [reflexivity|].
  apply (proj2 (proj1 (proj2 (proj2 queues_hold_their_own_ids
                                (Stock_init [] [mkProduct 2; mkProduct 1;
                                                mkProduct 1])
                                (proj1 queues_hold_their_own_ids [] _)))
                   1)).
  reflexivity.
Defined.

(** ** The machine at rest *)

Lemma Trigger_eqb_eq (a b : Trigger.t) : Trigger.eqb a b = true <-> a = b.
Proof. destruct a, b; simpl; split; intros; congruence. Qed.

Lemma States_eqb_eq (a b : States) : States_eqb a b = true <-> a = b.
Proof. destruct a, b; simpl; split; intros; congruence. Qed.

Lemma In_candidates (tr : Transition) (t : Trigger.t) (s : States) :
  In tr (candidates t s) <->
  In tr _get_transitions /\ trigger tr = t /\ In s (source tr).
Proof.
  unfold candidates. rewrite filter_In, andb_true_iff, Trigger_eqb_eq.
  rewrite existsb_exists. split.
  - intros (I & E & (x & Ix & Ex)). apply States_eqb_eq in Ex. subst x. auto.
  - intros (I & E & Is). repeat split; auto. exists s. split; [exact Is|].
    now apply States_eqb_eq.
Qed.

(** Every trigger that has a row for a state has one without conditions. *)
Lemma candidates_have_fallback (t : Trigger.t) (s : States) :
  candidates t s = [] \/
  exists tr, In tr (candidates t s) /\ conditions tr = [].
Proof.
  destruct t, s;
    cbv [candidates filter _get_transitions Trigger.eqb trigger source
         existsb States_eqb andb orb];
    first [ left; reflexivity
          | right; first
              [ solve [eexists; split; [left; reflexivity | reflexivity]]
              | solve [eexists; split; [right; left; reflexivity | reflexivity]]
              | solve [eexists; split;
                       [right; right; left; reflexivity | reflexivity]] ] ].
Qed.

(** Entering a state runs its [on_enter] list to the end: the machine is
    then where that state settles. *)
Lemma on_enter_settles (s : States) (vm vm' : VendingMachine) (r : unit) :
  state vm = s ->
  run_callbacks (fire_at 2) (on_enter s) vm = (Ok r, vm') ->
  state vm' = settles_in s.
Proof.
  intros S R. destruct s; try (injection R as _ <-; exact S).
  - cbv [on_enter run_callbacks bind ret] in R.
    pose proof (dispatch_product_state vm) as Sd. rewrite S in Sd.
    destruct (_dispatch_product vm) as [[[]|e] vm1]; [|discriminate].
    simpl in Sd.
    rewrite (advance_from_dispatching_product 0 no_kwargs vm1 Sd) in R.
    destruct (_return_change (set_state RETURNING_CHANGE vm1))
      as [[[]|e] vm2]; [|discriminate].
    injection R as _ <-. reflexivity.
  - cbv [on_enter run_callbacks bind ret] in R.
    pose proof (return_change_state vm) as Sr. rewrite S in Sr.
    destruct (_return_change vm) as [[[]|e] vm1]; [|discriminate].
    simpl in Sr.
    rewrite (advance_from_returning_change 1 no_kwargs vm1 Sr) in R.
    injection R as _ <-. reflexivity.
Qed.

Lemma eval_conditions_keeps (cs : list (VendingMachine -> result bool))
    (vm : VendingMachine) :
  snd (eval_conditions cs vm) = vm.
Proof.
  induction cs as [|c cs IH]; [reflexivity|].
  cbn [eval_conditions]. unfold bind.
  destruct (c vm) as [[|]|e]; [exact IH | reflexivity | reflexivity].
Qed.

Lemma try_transitions_settles (trs : list Transition) (kw : kwargs) :
  forall vm vm' b,
    try_transitions (fire_at 2) trs kw vm = (Ok b, vm') ->
    (b = true /\ exists tr, In tr trs /\ state vm' = settles_in (dest tr))
    \/ (b = false /\ vm' = vm /\ forall tr, In tr trs -> conditions tr <> []).
Proof.
  induction trs as [|tr trs IH]; intros vm vm' b R.
  - injection R as <- <-. right. split; [reflexivity|].
    split; [reflexivity|]. intros tr [].
  - cbn [try_transitions] in R. unfold bind at 1 in R.
    pose proof (eval_conditions_keeps (conditions tr) vm) as K.
    destruct (eval_conditions (conditions tr) vm) as [[[|]|e] vm0] eqn:E;
      cbn [snd] in K; subst vm0; [| |discriminate].
    + left. unfold execute, bind, modify, ret in R.
      destruct (run_before (before tr) kw vm) as [[[]|e] vm1]; [|discriminate].
      destruct (run_callbacks (fire_at 2) (on_enter (dest tr))
                  (set_state (dest tr) vm1)) as [[[]|e] vm2] eqn:Rc;
        [|discriminate].
      injection R as <- <-. split; [reflexivity|].
      exists tr. split; [now left|].
      exact (on_enter_settles _ _ _ _ eq_refl Rc).
    + destruct (IH _ _ _ R) as [(Eb & tr' & I & S)|(Eb & Ev & N)].
      * left. split; [exact Eb|]. exists tr'. split; [now right | exact S].
      * right. split; [exact Eb|]. split; [exact Ev|].
        intros tr' [<-|I]; [|now apply N].
        intros C. rewrite C in E. discriminate.
Qed.

(** X13.  A trigger that returns has made a transition (it returns [True])
    along a row of the table for that trigger and the state it was fired
    in, and leaves the machine at rest: in the destination of the row, or
    in [IDLE] when the destination is [DISPATCHING_PRODUCT] or
    [RETURNING_CHANGE], which advance on entry.  A caller never finds the
    machine in one of these two after a call that returned. *)
Theorem fire_comes_to_rest (t : Trigger.t) (kw : kwargs)
    (vm vm' : VendingMachine) (b : bool)
    (Hret : fire t kw vm = (Ok b, vm')) :
  b = true /\
  resting (state vm') = true /\
  exists tr,
    In tr _get_transitions /\ trigger tr = t /\ In (state vm) (source tr) /\
    state vm' = settles_in (dest tr).
Proof.
  unfold fire in Hret. rewrite fire_at_S in Hret.
  destruct (candidates t (state vm)) as [|tr0 trs] eqn:C; [discriminate|].
  rewrite <- C in Hret.
  destruct (try_transitions_settles _ _ _ _ _ Hret)
    as [(-> & tr & I & S)|(_ & _ & N)].
  - split; [reflexivity|]. split; [rewrite S; now destruct (dest tr)|].
    exists tr. apply In_candidates in I. tauto.
  - exfalso.
    destruct (candidates_have_fallback t (state vm)) as [E|(tr & I & E)].
    + rewrite E in C. discriminate.
    + exact (N tr I E).
Qed.

Lemma fire_comes_to_rest_witness :
  resting (state (snd (run [start; select 2; insert 200; checkout]
                         test_machine))) = true.
Proof.
  apply (fire_comes_to_rest Trigger.checkout no_kwargs
           (snd (run [start; select 2; insert 200] test_machine))
           (snd (run [start; select 2; insert 200; checkout] test_machine))
           true).
  vm_compute. reflexivity.
Defined.
(** ** Returning change, cancelling and accepting *)

Lemma candidates_accept :
  candidates Trigger.accept CONFIRM_SMALLER_CHANGE
  = [mkTransition Trigger.accept [CONFIRM_SMALLER_CHANGE] DISPATCHING_PRODUCT
       [] [_charge_customer]].
Proof. reflexivity. Qed.

Lemma candidates_cancel_collecting :
  candidates Trigger.cancel COLLECTING_PAYMENT
  = [mkTransition Trigger.cancel [COLLECTING_PAYMENT; CONFIRM_SMALLER_CHANGE]
       RETURNING_CHANGE [] []].
Proof. reflexivity. Qed.

Lemma candidates_cancel_confirm :
  candidates Trigger.cancel CONFIRM_SMALLER_CHANGE
  = [mkTransition Trigger.cancel [COLLECTING_PAYMENT; CONFIRM_SMALLER_CHANGE]
       RETURNING_CHANGE [] []].
Proof. reflexivity. Qed.

Lemma quantity_of_nonneg (change : dict Denomination Z) (d : Denomination) :
  (forall k n, In (k, n) change -> 1 <= n) -> 0 <= quantity_of change d.
Proof.
  intros F. unfold quantity_of.
  destruct (dict_get d change) as [n|] eqn:G; [|lia].
  apply (dict_get_In Denomination_eqb_eq) in G.
  specialize (F _ _ G). lia.
Qed.

(** What [_return_change] does, by the result of the search. *)
Lemma return_change_summary (vm : VendingMachine) :
  NoDup (dict_keys (inventory (monetary_inventory vm))) ->
  0 <= customer_balance vm ->
  exists vm',
    _return_change vm
    = (match find_optimal_change (customer_balance vm) (monetary_inventory vm)
       with Raise e => Raise e | Ok _ => Ok tt end, vm') /\
    (forall e, find_optimal_change (customer_balance vm) (monetary_inventory vm)
               = Raise e -> vm' = vm) /\
    state vm' = state vm /\
    stock vm' = stock vm /\
    selected_product vm' = selected_product vm /\
    customer_balance vm' = customer_balance vm /\
    _supported_denominantions (monetary_inventory vm')
    = _supported_denominantions (monetary_inventory vm) /\
    (forall d, count_of (monetary_inventory vm') d
               <= count_of (monetary_inventory vm) d) /\
    0 <= cash_total (monetary_inventory vm) - cash_total (monetary_inventory vm')
      <= customer_balance vm /\
    ((delivery_system vm' = delivery_system vm /\
      monetary_inventory vm' = monetary_inventory vm)
     \/ exists cfg,
          find_optimal_change (customer_balance vm) (monetary_inventory vm)
          = Ok (Some cfg) /\
          configuration cfg <> [] /\
          remove_change (configuration cfg) (monetary_inventory vm)
          = (Ok tt, monetary_inventory vm') /\
          delivery_system vm' = delivery_system vm ++ [send_cash cfg] /\
          cash_total (monetary_inventory vm)
          - cash_total (monetary_inventory vm')
          = customer_balance vm - owed cfg).
Proof.
  intros D B.
  assert (Same : forall r : result unit,
             (forall e, find_optimal_change (customer_balance vm)
                          (monetary_inventory vm) = Raise e -> vm = vm) /\
             state vm = state vm /\ stock vm = stock vm /\
             selected_product vm = selected_product vm /\
             customer_balance vm = customer_balance vm /\
             _supported_denominantions (monetary_inventory vm)
             = _supported_denominantions (monetary_inventory vm) /\
             (forall d, count_of (monetary_inventory vm) d
                        <= count_of (monetary_inventory vm) d) /\
             0 <= cash_total (monetary_inventory vm)
                  - cash_total (monetary_inventory vm)
               <= customer_balance vm /\
             ((delivery_system vm = delivery_system vm /\
               monetary_inventory vm = monetary_inventory vm)
              \/ exists cfg,
                   find_optimal_change (customer_balance vm)
                     (monetary_inventory vm) = Ok (Some cfg) /\
                   configuration cfg <> [] /\
                   remove_change (configuration cfg) (monetary_inventory vm)
                   = (Ok tt, monetary_inventory vm) /\
                   delivery_system vm = delivery_system vm ++ [send_cash cfg] /\
                   cash_total (monetary_inventory vm)
                   - cash_total (monetary_inventory vm)
                   = customer_balance vm - owed cfg)).
  { intros _. repeat split; auto; try lia. }
  unfold _return_change.
  destruct (customer_balance vm =? 0) eqn:Z0.
  { apply Z.eqb_eq in Z0. exists vm. split; [|exact (Same (Ok tt))].
    rewrite Z0, find_optimal_change_zero. reflexivity. }
  destruct (find_optimal_change (customer_balance vm) (monetary_inventory vm))
    as [[cfg|]|e] eqn:R.
  - destruct (configuration_payable _ _ _ D R)
      as (Dc & F & V & Bo & m' & Rm & C & T & Su).
    specialize (Bo B).
    destruct (configuration cfg) as [|kv rest] eqn:Ec.
    { exists vm. split; [reflexivity | exact (Same (Ok tt))]. }
    exists (tell_delivery (send_cash cfg)
              (set_monetary_inventory m' vm)).
    split.
    { unfold bind, on_monetary_inventory, modify. rewrite Rm. reflexivity. }
    cbn [tell_delivery set_monetary_inventory state stock monetary_inventory
         selected_product customer_balance delivery_system].
    split; [discriminate|]. repeat (split; [reflexivity|]).
    split; [exact Su|].
    split.
    { intros d. rewrite C.
      assert (0 <= quantity_of (kv :: rest) d); [|lia].
      apply quantity_of_nonneg. intros k n I. apply (F k n I). }
    split; [lia|].
    right. exists cfg. split; [reflexivity|]. rewrite Ec.
    split; [discriminate|]. split; [exact Rm|]. split; [reflexivity | lia].
  - exists vm. split; [reflexivity | exact (Same (Ok tt))].
  - exists vm. split; [reflexivity | exact (Same (Ok tt))].
Qed.

(** X14.  [_return_change] with a balance that is not negative and an
    inventory without duplicate keys: the only exception it can raise is
    the one of the search, with the machine untouched; the inventory never
    refuses the configuration found.  It pays at most the balance, no count
    grows, a configuration that is not empty is sent as it is and the money
    paid is the balance less the remainder of the configuration.  The
    balance itself is left as it was, like the state, the stock and the
    selection. *)
Theorem return_change_pays_at_most_balance (vm : VendingMachine)
    (Hkeys : distinct_keys (inventory (monetary_inventory vm)) = true)
    (Hbal : 0 <= customer_balance vm) :
  exists vm',
    _return_change vm
    = (match find_optimal_change (customer_balance vm) (monetary_inventory vm)
       with Raise e => Raise e | Ok _ => Ok tt end, vm') /\
    (forall e, find_optimal_change (customer_balance vm) (monetary_inventory vm)
               = Raise e -> vm' = vm) /\
    state vm' = state vm /\
    stock vm' = stock vm /\
    selected_product vm' = selected_product vm /\
    customer_balance vm' = customer_balance vm /\
    (forall d, count_of (monetary_inventory vm') d
               <= count_of (monetary_inventory vm) d) /\
    0 <= cash_total (monetary_inventory vm) - cash_total (monetary_inventory vm')
      <= customer_balance vm /\
    ((delivery_system vm' = delivery_system vm /\
      monetary_inventory vm' = monetary_inventory vm)
     \/ exists cfg,
          find_optimal_change (customer_balance vm) (monetary_inventory vm)
          = Ok (Some cfg) /\
          configuration cfg <> [] /\
          delivery_system vm' = delivery_system vm ++ [send_cash cfg] /\
          cash_total (monetary_inventory vm)
          - cash_total (monetary_inventory vm')
          = customer_balance vm - owed cfg).
Proof.
  apply (distinct_keys_NoDup Denomination_eqb_eq) in Hkeys.
  destruct (return_change_summary vm Hkeys Hbal)
    as (vm' & R & E & S1 & S2 & S3 & S4 & _ & C & P & Dl).
  exists vm'. repeat (split; [assumption|]).
  destruct Dl as [Dl|(cfg & F & N & _ & Dl & T)]; [now left|].
  right. exists cfg. auto.
Qed.

Lemma return_change_pays_at_most_balance_witness :
  exists vm',
    _return_change
      (mkVendingMachine RETURNING_CHANGE (stock test_machine)
         (monetary_inventory test_machine) None 125 [])
    = (Ok tt, vm') /\
    0 <= cash_total (monetary_inventory test_machine)
         - cash_total (monetary_inventory vm') <= 125.
Proof.
  destruct (return_change_pays_at_most_balance
              (mkVendingMachine RETURNING_CHANGE (stock test_machine)
                 (monetary_inventory test_machine) None 125 []))
    as (vm' & R & _ & _ & _ & _ & _ & _ & P & _).
  - vm_compute. reflexivity.
  - vm_compute. discriminate.
  - exists vm'. split; [exact R | exact P].
Defined.

(** Entering [RETURNING_CHANGE] from a row of the table. *)
Lemma cancel_while_paying (vm : VendingMachine) :
  state vm = COLLECTING_PAYMENT \/ state vm = CONFIRM_SMALLER_CHANGE ->
  cancel vm
  = match _return_change (set_state RETURNING_CHANGE vm) with
    | (Ok _, vm') => (Ok true, set_state IDLE vm')
    | (Raise e, vm') => (Raise e, vm')
    end.
Proof.
  intros [S|S]; unfold cancel, fire; rewrite fire_at_S, S;
    [rewrite candidates_cancel_collecting | rewrite candidates_cancel_confirm];
    cbv [try_transitions eval_conditions execute run_before run_callbacks
         on_enter bind ret modify conditions before dest];
    pose proof (return_change_state (set_state RETURNING_CHANGE vm)) as St;
    (destruct (_return_change (set_state RETURNING_CHANGE vm))
       as [[[]|e] vm']; [|reflexivity]);
    simpl in St;
    rewrite (advance_from_returning_change 1 no_kwargs vm' St); reflexivity.
Qed.

Lemma find_optimal_change_no_error (owed_amount : Z) (m : MonetaryInventory) :
  0 <= owed_amount -> nonzero_denominations m = true ->
  exists r, find_optimal_change owed_amount m = Ok r.
Proof.
  intros B N.
  destruct (find_optimal_change_spec owed_amount m B N)
    as [(cfg & R & _)|(R & _)]; rewrite R; eauto.
Qed.

(** X15.  [cancel] while money is being collected or a smaller change is
    to be confirmed: with an inventory without duplicate keys that holds no
    unit of value zero, the call returns [True] and the machine is in
    [IDLE].  At most the balance is paid out, nothing is dispatched and the
    stock is untouched; the selection and the balance stay as they were,
    since [_cancel] is attached to no row and nothing resets the balance. *)
Theorem cancel_returns_the_money_it_can (vm : VendingMachine)
    (Hstate : state vm = COLLECTING_PAYMENT \/ state vm = CONFIRM_SMALLER_CHANGE)
    (Hkeys : distinct_keys (inventory (monetary_inventory vm)) = true)
    (Hnz : nonzero_denominations (monetary_inventory vm) = true)
    (Hbal : 0 <= customer_balance vm) :
  exists vm',
    cancel vm = (Ok true, vm') /\
    state vm' = IDLE /\
    stock vm' = stock vm /\
    selected_product vm' = selected_product vm /\
    customer_balance vm' = customer_balance vm /\
    0 <= cash_total (monetary_inventory vm) - cash_total (monetary_inventory vm')
      <= customer_balance vm /\
    ((delivery_system vm' = delivery_system vm /\
      monetary_inventory vm' = monetary_inventory vm)
     \/ exists cfg,
          find_optimal_change (customer_balance vm) (monetary_inventory vm)
          = Ok (Some cfg) /\
          delivery_system vm' = delivery_system vm ++ [send_cash cfg] /\
          cash_total (monetary_inventory vm)
          - cash_total (monetary_inventory vm')
          = customer_balance vm - owed cfg).
Proof.
  apply (distinct_keys_NoDup Denomination_eqb_eq) in Hkeys.
  rewrite (cancel_while_paying vm Hstate).
  destruct (return_change_summary (set_state RETURNING_CHANGE vm) Hkeys Hbal)
    as (vm' & R & _ & S1 & S2 & S3 & S4 & _ & _ & P & Dl).
  cbn [set_state state stock monetary_inventory selected_product
       customer_balance delivery_system] in *.
  destruct (find_optimal_change_no_error _ _ Hbal Hnz) as (r & F).
  rewrite F in R. rewrite R.
  exists (set_state IDLE vm'). split; [reflexivity|].
  cbn [set_state state stock monetary_inventory selected_product
       customer_balance delivery_system].
  repeat (split; [assumption || reflexivity|]).
  destruct Dl as [Dl|(cfg & Fc & _ & _ & Dl & T)]; [now left|].
  right. exists cfg. auto.
Qed.

Lemma cancel_returns_the_money_it_can_witness :
  exists vm',
    cancel (snd (run [start; select 1; insert 100; insert 10] test_machine))
    = (Ok true, vm') /\
    state vm' = IDLE /\
    customer_balance vm' = 110.
Proof.
  destruct (cancel_returns_the_money_it_can
              (snd (run [start; select 1; insert 100; insert 10] test_machine)))
    as (vm' & R & S & _ & _ & B & _).
  - left. vm_compute. reflexivity.
  - vm_compute. reflexivity.
  - vm_compute. reflexivity.
  - vm_compute. discriminate.
  - exists vm'. split; [exact R|]. split; [exact S | exact B].
Defined.
(** ** Accepting a smaller change, and products that cannot be sold *)

Lemma accept_in_confirm_smaller_change (vm : VendingMachine) :
  state vm = CONFIRM_SMALLER_CHANGE ->
  accept vm
  = (_charge_customer no_kwargs ;;;
     modify (set_state DISPATCHING_PRODUCT) ;;;
     run_callbacks (fire_at 2) (on_enter DISPATCHING_PRODUCT) ;;;
     ret true) vm.
Proof.
  intros S. unfold accept, fire. rewrite fire_at_S, S, candidates_accept.
  cbv [try_transitions eval_conditions conditions bind ret execute run_before
       before dest].
  destruct (_charge_customer no_kwargs vm) as [[[]|e] vm1]; [|reflexivity].
  cbv [modify].
  destruct (run_callbacks (fire_at 2) (on_enter DISPATCHING_PRODUCT)
              (set_state DISPATCHING_PRODUCT vm1)) as [[[]|e] vm2];
    reflexivity.
Qed.

(** Entering [DISPATCHING_PRODUCT]: the product is taken from the stock, then
    [advance] goes on to [RETURNING_CHANGE]. *)
Lemma enter_dispatching_product (vm : VendingMachine) :
  (modify (set_state DISPATCHING_PRODUCT) ;;;
   run_callbacks (fire_at 2) (on_enter DISPATCHING_PRODUCT) ;;;
   ret true) vm
  = match get_product (selected_product vm) (stock vm) with
    | (Raise e, s') =>
        (Raise e, set_stock s' (set_state DISPATCHING_PRODUCT vm))
    | (Ok product, s') =>
        match _return_change
                (set_state RETURNING_CHANGE
                   (tell_delivery (dispatch product)
                      (set_selected_product None (set_stock s' vm)))) with
        | (Ok _, vm') => (Ok true, set_state IDLE vm')
        | (Raise e, vm') => (Raise e, vm')
        end
    end.
Proof.
  destruct vm as [st sk mi sel bal dl].
  cbv [bind modify ret run_callbacks on_enter _dispatch_product on_stock].
  cbn [set_state set_stock state stock monetary_inventory selected_product
       customer_balance delivery_system].
  destruct (get_product sel sk) as [[product|e] s']; [|reflexivity].
  cbn [set_stock set_selected_product tell_delivery set_state state stock
       monetary_inventory selected_product customer_balance delivery_system].
  rewrite advance_from_dispatching_product by reflexivity.
  cbn [set_state state stock monetary_inventory selected_product
       customer_balance delivery_system].
  destruct (_return_change _) as [[[]|e] vm']; reflexivity.
Qed.

Lemma set_monetary_inventory_same (vm : VendingMachine) :
  set_monetary_inventory (monetary_inventory vm) vm = vm.
Proof. now destruct vm. Qed.

Lemma candidates_in_dispatching (t : Trigger.t) :
  t <> Trigger.advance -> candidates t DISPATCHING_PRODUCT = [].
Proof. destruct t; intros N; try reflexivity. now elim N. Qed.

(** X16.  Nothing checks that the selected product is in stock before the
    customer is charged.  [accept] for a priced product whose queue is
    empty raises [queue.Empty] after [_charge_customer] and the change of
    state: the machine is left in [DISPATCHING_PRODUCT] with the price
    taken off the balance, nothing dispatched and no change returned.  In
    that state every trigger but [advance] raises [MachineError]. *)
Theorem accept_sold_out_product (vm : VendingMachine) (pid : ProductID)
    (info : ProductInfo)
    (Hstate : state vm = CONFIRM_SMALLER_CHANGE)
    (Hsel : selected_product vm = Some pid)
    (Hcat : dict_get pid (catalogue (stock vm)) = Some info)
    (Hout : in_stock (stock vm) pid = false) :
  exists vm',
    accept vm = (Raise QueueEmpty, vm') /\
    state vm' = DISPATCHING_PRODUCT /\
    customer_balance vm' = customer_balance vm - price info /\
    selected_product vm' = Some pid /\
    monetary_inventory vm' = monetary_inventory vm /\
    delivery_system vm' = delivery_system vm /\
    catalogue (stock vm') = catalogue (stock vm) /\
    (forall i, queue_of (stock vm') i = queue_of (stock vm) i) /\
    forall t kw, t <> Trigger.advance ->
                 fire t kw vm' = (Raise MachineError, vm').
Proof.
  destruct (guards_of_selected vm pid info Hsel Hcat) as (_ & _ & G3).
  rewrite (accept_in_confirm_smaller_change vm Hstate).
  unfold bind at 1. rewrite G3.
  rewrite enter_dispatching_product.
  cbn [set_customer_balance state stock monetary_inventory selected_product
       customer_balance delivery_system].
  rewrite Hsel.
  destruct (get_product_queue (stock vm) pid) as (s' & R & C & Qi & Qj).
  rewrite in_stock_queue in Hout.
  destruct (queue_of (stock vm) pid) as [|p q] eqn:Q; [|discriminate].
  rewrite R.
  eexists. split; [reflexivity|].
  cbn [set_stock set_state state stock monetary_inventory selected_product
       customer_balance delivery_system].
  repeat (split; [reflexivity || assumption|]).
  split.
  - intros i. destruct (Z.eq_dec i pid) as [->|N].
    + now rewrite Qi, Q.
    + now apply Qj.
  - intros t kw N. apply fire_without_candidates.
    apply candidates_nil_iff. now apply candidates_in_dispatching.
Qed.

Lemma accept_sold_out_product_witness :
  exists vm',
    accept (mkVendingMachine CONFIRM_SMALLER_CHANGE
              (Stock_init [(3, mkProductInfo "Ice tea" 195)] [])
              (inv_of [(D 100 eq_refl, 5)]) (Some 3) 200 [])
    = (Raise QueueEmpty, vm') /\
    state vm' = DISPATCHING_PRODUCT /\
    customer_balance vm' = 200 - 195.
Proof.
  destruct (accept_sold_out_product
              (mkVendingMachine CONFIRM_SMALLER_CHANGE
                 (Stock_init [(3, mkProductInfo "Ice tea" 195)] [])
                 (inv_of [(D 100 eq_refl, 5)]) (Some 3) 200 [])
              3 (mkProductInfo "Ice tea" 195)
              eq_refl eq_refl eq_refl eq_refl)
    as (vm' & R & S & B & _).
  exists vm'. split; [exact R|]. split; [exact S | exact B].
Defined.

(** X17.  [accept] for a priced product that is in stock and that the balance
    covers, with an inventory without duplicate keys that holds no unit of
    value zero: the call returns [True] with the machine in [IDLE], the
    oldest unit of the product dispatched first, the selection cleared and
    the price taken off the balance; when each queue holds units of its
    own id, the unit dispatched is one of the selected product.  The change
    sent after it is worth at most what the balance exceeded the price by,
    and the balance is not reduced by it. *)
Theorem accept_dispatches_then_returns_change (vm : VendingMachine)
    (pid : ProductID) (info : ProductInfo)
    (Hstate : state vm = CONFIRM_SMALLER_CHANGE)
    (Hsel : selected_product vm = Some pid)
    (Hcat : dict_get pid (catalogue (stock vm)) = Some info)
    (Hin : in_stock (stock vm) pid = true)
    (Hprice : price info <= customer_balance vm)
    (Hkeys : distinct_keys (inventory (monetary_inventory vm)) = true)
    (Hnz : nonzero_denominations (monetary_inventory vm) = true) :
  exists vm' product rest,
    queue_of (stock vm) pid = product :: rest /\
    (queues_match_ids (stock vm) -> id product = pid) /\
    accept vm = (Ok true, vm') /\
    state vm' = IDLE /\
    selected_product vm' = None /\
    customer_balance vm' = customer_balance vm - price info /\
    catalogue (stock vm') = catalogue (stock vm) /\
    queue_of (stock vm') pid = rest /\
    (forall j, j <> pid -> queue_of (stock vm') j = queue_of (stock vm) j) /\
    0 <= cash_total (monetary_inventory vm) - cash_total (monetary_inventory vm')
      <= customer_balance vm - price info /\
    ((delivery_system vm' = delivery_system vm ++ [dispatch product] /\
      monetary_inventory vm' = monetary_inventory vm)
     \/ exists cfg,
          find_optimal_change (customer_balance vm - price info)
            (monetary_inventory vm) = Ok (Some cfg) /\
          delivery_system vm'
          = delivery_system vm ++ [dispatch product; send_cash cfg] /\
          cash_total (monetary_inventory vm)
          - cash_total (monetary_inventory vm')
          = customer_balance vm - price info - owed cfg).
Proof.
  apply (distinct_keys_NoDup Denomination_eqb_eq) in Hkeys.
  destruct (guards_of_selected vm pid info Hsel Hcat) as (_ & _ & G3).
  rewrite (accept_in_confirm_smaller_change vm Hstate).
  unfold bind at 1. rewrite G3.
  rewrite enter_dispatching_product.
  cbn [set_customer_balance state stock monetary_inventory selected_product
       customer_balance delivery_system].
  rewrite Hsel.
  destruct (get_product_queue (stock vm) pid) as (s' & R & C & Qi & Qj).
  rewrite in_stock_queue in Hin.
  destruct (queue_of (stock vm) pid) as [|product rest] eqn:Q; [discriminate|].
  rewrite R.
  match goal with
  | |- context [_return_change ?x] =>
      destruct (return_change_summary x) as
        (vm' & Rc & _ & S1 & S2 & S3 & S4 & _ & _ & P & Dl)
  end.
  { exact Hkeys. }
  { change (0 <= customer_balance vm - price info). lia. }
  unfold set_state, tell_delivery, set_selected_product, set_stock,
    set_customer_balance in Rc, S1, S2, S3, S4, P, Dl.
  cbn [state stock monetary_inventory selected_product customer_balance
       delivery_system] in Rc, S1, S2, S3, S4, P, Dl.
  destruct (find_optimal_change_no_error (customer_balance vm - price info)
              (monetary_inventory vm)) as (r & F); [lia | exact Hnz |].
  rewrite F in Rc.
  unfold set_state, tell_delivery, set_selected_product, set_stock,
    set_customer_balance.
  cbn [state stock monetary_inventory selected_product customer_balance
       delivery_system].
  rewrite Rc.
  exists (set_state IDLE vm'), product, rest.
  split; [reflexivity|].
  split; [intros W; apply W; rewrite Q; now left|].
  split; [reflexivity|].
  cbn [set_state state stock monetary_inventory selected_product
       customer_balance delivery_system].
  split; [reflexivity|]. split; [exact S3|]. split; [exact S4|].
  rewrite S2. split; [exact C|]. split; [exact Qi|]. split; [exact Qj|].
  split; [exact P|].
  destruct Dl as [Dl|(cfg & Fc & _ & _ & Dl & T)]; [now left|].
  right. exists cfg. split; [exact Fc|]. split; [|exact T].
  rewrite Dl, <- app_assoc. reflexivity.
Qed.

Lemma accept_dispatches_then_returns_change_witness :
  exists vm',
    accept (snd (run [start; select 3; insert 100; insert 100; checkout]
                   test_machine))
    = (Ok true, vm') /\
    state vm' = IDLE /\
    customer_balance vm' = 200 - 195.
Proof.
  destruct (accept_dispatches_then_returns_change
              (snd (run [start; select 3; insert 100; insert 100; checkout]
                      test_machine))
              3 (mkProductInfo "Ice tea" 195))
    as (vm' & product & rest & _ & _ & R & S & _ & B & _);
    try (vm_compute; reflexivity).
  - vm_compute. discriminate.
  - exists vm'. split; [exact R|]. split; [exact S | exact B].
Defined.

(** X18.  [select] takes whatever it is given: an id the catalogue has no
    entry for, or no id at all, is stored as the selection and the machine
    goes on to [COLLECTING_PAYMENT].  [checkout] then fails in its first
    condition, with [RuntimeError] for the unknown id and with
    [AssertionError] for the missing one, and leaves the machine as it
    was. *)
Theorem checkout_without_priced_selection (vm : VendingMachine) (kw : kwargs)
    (Hstate : state vm = PRODUCT_SELECTION)
    (Hsel : forall pid, kw_product_id kw = Some pid ->
                        dict_get pid (catalogue (stock vm)) = None) :
  exists vm1,
    fire Trigger.select kw vm = (Ok true, vm1) /\
    vm1 = set_state COLLECTING_PAYMENT
            (set_selected_product (kw_product_id kw) vm) /\
    checkout vm1
    = (Raise (match kw_product_id kw with
              | Some _ => RuntimeError
              | None => AssertionError
              end), vm1).
Proof.
  eexists. split; [|split; [reflexivity|]].
  - unfold fire. rewrite fire_at_S, Hstate, candidates_select. reflexivity.
  - rewrite checkout_in_collecting_payment by reflexivity.
    unfold _not_enough_money.
    cbn [set_state set_selected_product state stock monetary_inventory
         selected_product customer_balance delivery_system].
    destruct (kw_product_id kw) as [pid|] eqn:K; [|reflexivity].
    unfold get_price_of. rewrite (Hsel pid eq_refl). reflexivity.
Qed.

Lemma checkout_without_priced_selection_witness :
  checkout (snd (run [start; select 7] test_machine))
  = (Raise RuntimeError, snd (run [start; select 7] test_machine)).
Proof.
  destruct (checkout_without_priced_selection
              (snd (run [start] test_machine))
              (mkKwargs (Some 7) None None None) eq_refl)
    as (vm1 & _ & -> & C).
  - intros pid [= <-]. reflexivity.
  - exact C.
Defined.
(** ** Maintenance *)

Lemma candidates_reload_change :
  candidates Trigger.reload_change MAINTENANCE_MODE
  = [mkTransition Trigger.reload_change [MAINTENANCE_MODE] MAINTENANCE_MODE
       [] [_reload_change]].
Proof. reflexivity. Qed.

Lemma candidates_add_products :
  candidates Trigger.add_products MAINTENANCE_MODE
  = [mkTransition Trigger.add_products [MAINTENANCE_MODE] MAINTENANCE_MODE
       [] [_add_products]].
Proof. reflexivity. Qed.

Lemma reload_change_sources (s : States) :
  source_matches Trigger.reload_change s = false <-> s <> MAINTENANCE_MODE.
Proof. destruct s; vm_compute; split; intros; congruence. Qed.

Lemma add_products_sources (s : States) :
  source_matches Trigger.add_products s = false <-> s <> MAINTENANCE_MODE.
Proof. destruct s; vm_compute; split; intros; congruence. Qed.

Lemma reload_change_in_maintenance (supply : dict Denomination Z)
    (vm : VendingMachine) :
  state vm = MAINTENANCE_MODE ->
  reload_change supply vm
  = match add_cash supply (monetary_inventory vm) with
    | (Ok _, m') => (Ok true, set_monetary_inventory m' vm)
    | (Raise e, m') => (Raise e, set_monetary_inventory m' vm)
    end.
Proof.
  intros S. unfold reload_change, fire.
  rewrite fire_at_S, S, candidates_reload_change.
  cbv [try_transitions eval_conditions conditions bind ret execute run_before
       before dest _reload_change kw_supply on_monetary_inventory modify
       run_callbacks on_enter].
  destruct (add_cash supply (monetary_inventory vm)) as [[[]|e] m'];
    [|reflexivity].
  destruct vm; simpl in S; subst; reflexivity.
Qed.

Lemma add_products_in_maintenance (ps : list Product) (vm : VendingMachine) :
  state vm = MAINTENANCE_MODE ->
  machine_add_products ps vm
  = (Ok true, set_stock (snd (add_products ps (stock vm))) vm).
Proof.
  intros S. unfold machine_add_products, fire.
  rewrite fire_at_S, S, candidates_add_products.
  cbv [try_transitions eval_conditions conditions bind ret execute run_before
       before dest _add_products kw_products on_stock modify
       run_callbacks on_enter].
  pose proof (add_products_ok ps (stock vm)) as F.
  destruct (add_products ps (stock vm)) as [r s']. simpl in F. subst r.
  destruct vm; simpl in S; subst; reflexivity.
Qed.

(** X19.  [reload_change] is taken in [MAINTENANCE_MODE] only; elsewhere it
    raises [MachineError].  There, a supply with a key that is not supported
    raises [ValueError] and changes nothing; otherwise the call returns
    [True], the machine stays in [MAINTENANCE_MODE], every count grows by
    the quantity supplied, whatever its sign, and stock, selection, balance
    and delivery log are as before. *)
Theorem reload_change_in_maintenance_only (vm : VendingMachine)
    (supply : dict Denomination Z)
    (Hkeys : distinct_keys supply = true) :
  (state vm <> MAINTENANCE_MODE ->
   reload_change supply vm = (Raise MachineError, vm)) /\
  (state vm = MAINTENANCE_MODE ->
   all_supported (monetary_inventory vm) supply = false ->
   reload_change supply vm = (Raise ValueError, vm)) /\
  (state vm = MAINTENANCE_MODE ->
   all_supported (monetary_inventory vm) supply = true ->
   exists vm',
     reload_change supply vm = (Ok true, vm') /\
     state vm' = MAINTENANCE_MODE /\
     stock vm' = stock vm /\
     selected_product vm' = selected_product vm /\
     customer_balance vm' = customer_balance vm /\
     delivery_system vm' = delivery_system vm /\
     (forall d, count_of (monetary_inventory vm') d
                = count_of (monetary_inventory vm) d + quantity_of supply d) /\
     cash_total (monetary_inventory vm')
     = cash_total (monetary_inventory vm) + monetary_value supply).
Proof.
  apply (distinct_keys_NoDup Denomination_eqb_eq) in Hkeys.
  split; [|split].
  - intros N. apply fire_without_candidates. now apply reload_change_sources.
  - intros S U. rewrite (reload_change_in_maintenance supply vm S).
    unfold add_cash, bind. rewrite add_cash_check_spec.
    unfold all_supported in U. rewrite U.
    now rewrite set_monetary_inventory_same.
  - intros S U. rewrite (reload_change_in_maintenance supply vm S).
    unfold add_cash, bind. rewrite add_cash_check_spec.
    unfold all_supported in U. rewrite U.
    destruct (add_cash_loop_spec supply Hkeys (monetary_inventory vm))
      as (m' & R & C & T & _).
    rewrite R. eexists. split; [reflexivity|].
    cbn [set_monetary_inventory state stock monetary_inventory
         selected_product customer_balance delivery_system].
    repeat (split; [assumption || reflexivity|]). exact T.
Qed.

Lemma reload_change_in_maintenance_only_witness :
  reload_change [(D 100 eq_refl, 2)] test_machine
  = (Raise MachineError, test_machine).
Proof.
  apply (reload_change_in_maintenance_only test_machine [(D 100 eq_refl, 2)]).
  - reflexivity.
  - discriminate.
Defined.

(** X20.  [add_products] on the machine is taken in [MAINTENANCE_MODE] only;
    elsewhere it raises [MachineError].  There it always returns [True]:
    the units are appended to the queues of their ids, in the order given
    and whether or not the catalogue knows them, and state, catalogue,
    inventory, selection, balance and delivery log are as before. *)
Theorem machine_add_products_in_maintenance_only (vm : VendingMachine)
    (ps : list Product) :
  (state vm <> MAINTENANCE_MODE ->
   machine_add_products ps vm = (Raise MachineError, vm)) /\
  (state vm = MAINTENANCE_MODE ->
   exists vm',
     machine_add_products ps vm = (Ok true, vm') /\
     state vm' = MAINTENANCE_MODE /\
     catalogue (stock vm') = catalogue (stock vm) /\
     monetary_inventory vm' = monetary_inventory vm /\
     selected_product vm' = selected_product vm /\
     customer_balance vm' = customer_balance vm /\
     delivery_system vm' = delivery_system vm /\
     forall i, queue_of (stock vm') i
               = queue_of (stock vm) i ++ filter (fun p => id p =? i) ps).
Proof.
  split.
  - intros N. apply fire_without_candidates. now apply add_products_sources.
  - intros S. rewrite (add_products_in_maintenance ps vm S).
    destruct (add_products_queues ps (stock vm)) as (s' & R & C & Q).
    rewrite R. eexists. split; [reflexivity|].
    cbn [set_stock snd state stock monetary_inventory selected_product
         customer_balance delivery_system].
    repeat (split; [assumption || reflexivity|]). exact Q.
Qed.

Lemma machine_add_products_in_maintenance_only_witness :
  exists vm',
    machine_add_products [mkProduct 9; mkProduct 2]
      (snd (start_maintenance test_machine)) = (Ok true, vm') /\
    queue_of (stock vm') 9 = [mkProduct 9] /\
    queue_of (stock vm') 2 = [mkProduct 2; mkProduct 2].
Proof.
  destruct (proj2 (machine_add_products_in_maintenance_only
                     (snd (start_maintenance test_machine))
                     [mkProduct 9; mkProduct 2]) eq_refl)
    as (vm' & R & _ & _ & _ & _ & _ & _ & Q).
  exists vm'. split; [exact R|]. split.
  - rewrite (Q 9). reflexivity.
  - rewrite (Q 2). reflexivity.
Defined.

(** ** What every trigger keeps *)

Section Preserved.
Variable R : VendingMachine -> VendingMachine -> Prop.
Hypothesis R_refl : forall vm, R vm vm.
Hypothesis R_trans : forall a b c, R a b -> R b c -> R a c.
Hypothesis R_before :
  forall f tr, In tr _get_transitions -> In f (before tr) ->
               forall kw, preserves R (f kw).
Hypothesis R_set_state : forall s, preserves R (modify (set_state s)).
Hypothesis R_dispatch_product : preserves R _dispatch_product.
Hypothesis R_return_change : preserves R _return_change.

Lemma preserves_ret {A} (a : A) : preserves R (ret a).
Proof. intros vm. apply R_refl. Qed.

Lemma preserves_bind {A B} (m : M VendingMachine A)
    (k : A -> M VendingMachine B) :
  preserves R m -> (forall a, preserves R (k a)) -> preserves R (bind m k).
Proof.
  intros Hm Hk vm. unfold bind. specialize (Hm vm).
  destruct (m vm) as [[a|e] vm1]; cbn [snd] in *; [|exact Hm].
  eapply R_trans; [exact Hm | apply Hk].
Qed.

Section Nested.
Variable nested : Trigger.t -> kwargs -> M VendingMachine bool.
Hypothesis R_nested : forall t kw, preserves R (nested t kw).

Lemma run_callbacks_preserves (s : States) :
  preserves R (run_callbacks nested (on_enter s)).
Proof.
  destruct s; try exact (preserves_ret tt);
    cbn [on_enter run_callbacks];
    (apply preserves_bind;
       [first [exact R_dispatch_product | exact R_return_change]|]);
    intros _; (apply preserves_bind; [apply R_nested|]);
    intros _; exact (preserves_ret tt).
Qed.

Lemma try_transitions_preserves (trs : list Transition) (kw : kwargs) :
  (forall tr, In tr trs -> In tr _get_transitions) ->
  preserves R (try_transitions nested trs kw).
Proof.
  induction trs as [|tr trs IH]; intros T; [exact (preserves_ret false)|].
  cbn [try_transitions]. intros vm. unfold bind at 1.
  assert (It : In tr _get_transitions) by (apply T; now left).
  pose proof (eval_conditions_keeps (conditions tr) vm) as K.
  destruct (eval_conditions (conditions tr) vm) as [[[|]|e] vm0];
    cbn [snd] in K; subst vm0.
  - apply preserves_bind; [|intros _; exact (preserves_ret true)].
    unfold execute. apply preserves_bind.
    + assert (B : forall fs,
                (forall f, In f fs -> In f (before tr)) ->
                preserves R (run_before fs kw)).
      { induction fs as [|f fs IHf]; intros Sub; [exact (preserves_ret tt)|].
        cbn [run_before]. apply preserves_bind.
        - apply (R_before f tr It). apply Sub. now left.
        - intros _. apply IHf. intros; apply Sub; now right. }
      apply B. auto.
    + intros _. apply preserves_bind; [apply R_set_state|].
      intros _. apply run_callbacks_preserves.
  - apply IH. intros; apply T; now right.
  - apply R_refl.
Qed.
End Nested.

Lemma fire_at_preserves (depth : nat) :
  forall t kw, preserves R (fire_at depth t kw).
Proof.
  induction depth as [|depth IH]; intros t kw vm; [apply R_refl|].
  rewrite fire_at_S.
  destruct (candidates t (state vm)) as [|tr trs] eqn:C; [apply R_refl|].
  apply (try_transitions_preserves (fire_at depth) IH).
  intros tr' I. rewrite <- C in I. now apply In_candidates in I.
Qed.
End Preserved.

(** *** The catalogue, the supported denominations and the delivery log *)

Lemma only_appends_refl (vm : VendingMachine) : only_appends vm vm.
Proof.
  split; [reflexivity|]. split; [reflexivity|].
  exists []. now rewrite app_nil_r.
Qed.

Lemma only_appends_trans (a b c : VendingMachine) :
  only_appends a b -> only_appends b c -> only_appends a c.
Proof.
  intros (C1 & S1 & l1 & D1) (C2 & S2 & l2 & D2).
  split; [congruence|]. split; [congruence|].
  exists (l1 ++ l2). now rewrite D2, D1, app_assoc.
Qed.

Lemma only_appends_same_log (vm vm' : VendingMachine) :
  catalogue (stock vm') = catalogue (stock vm) ->
  _supported_denominantions (monetary_inventory vm')
  = _supported_denominantions (monetary_inventory vm) ->
  delivery_system vm' = delivery_system vm ->
  only_appends vm vm'.
Proof.
  intros C S Dl. split; [exact C|]. split; [exact S|].
  exists []. now rewrite app_nil_r.
Qed.

Lemma add_cash_supported (supply : dict Denomination Z) (m : MonetaryInventory) :
  _supported_denominantions (snd (add_cash supply m))
  = _supported_denominantions m.
Proof.
  unfold add_cash, bind. rewrite add_cash_check_spec.
  destruct (forallb _ _); [|reflexivity].
  revert m. induction supply as [|[k q] items IH]; intros m; [reflexivity|].
  cbn [add_cash_loop]. unfold bind.
  destruct (inventory_iadd_spec k q m) as (m1 & R & _ & Su & _). rewrite R.
  now rewrite IH.
Qed.

Lemma remove_change_supported (change : dict Denomination Z) :
  forall m, _supported_denominantions (snd (remove_change change m))
            = _supported_denominantions m.
Proof.
  induction change as [|[d q] change IH]; intros m; [reflexivity|].
  cbn [remove_change].
  destruct (defaultdict_getitem 0 d (inventory m)) as [cur inv'].
  destruct (cur <? q); [reflexivity|]. now rewrite IH.
Qed.

Lemma add_products_catalogue (ps : list Product) (s : Stock) :
  catalogue (snd (add_products ps s)) = catalogue s.
Proof.
  destruct (add_products_queues ps s) as (s' & R & C & _). now rewrite R.
Qed.

Lemma get_product_catalogue (sel : option ProductID) (s : Stock) :
  catalogue (snd (get_product sel s)) = catalogue s.
Proof.
  unfold get_product.
  destruct (defaultdict_getitem [] sel (products s)) as [[|p q] prods];
    reflexivity.
Qed.

Lemma return_change_only_appends : preserves only_appends _return_change.
Proof.
  intros vm. unfold _return_change.
  destruct (customer_balance vm =? 0); [apply only_appends_refl|].
  destruct (find_optimal_change _ _) as [[cfg|]|e];
    try apply only_appends_refl.
  destruct (configuration cfg) as [|kv rest]; [apply only_appends_refl|].
  unfold bind, on_monetary_inventory, modify.
  pose proof (remove_change_supported (kv :: rest) (monetary_inventory vm)) as Su.
  destruct (remove_change (kv :: rest) (monetary_inventory vm))
    as [[[]|e] m']; cbn [snd] in *.
  - split; [reflexivity|]. split; [exact Su|]. now exists [send_cash cfg].
  - now apply only_appends_same_log.
Qed.

Lemma dispatch_product_only_appends : preserves only_appends _dispatch_product.
Proof.
  intros vm. unfold _dispatch_product, bind, on_stock, modify.
  pose proof (get_product_catalogue (selected_product vm) (stock vm)) as C.
  destruct (get_product (selected_product vm) (stock vm)) as [[p|e] s'];
    cbn [snd] in *.
  - split; [exact C|]. split; [reflexivity|]. now exists [dispatch p].
  - now apply only_appends_same_log.
Qed.

Lemma before_only_appends (f : kwargs -> M VendingMachine unit)
    (tr : Transition) :
  In tr _get_transitions -> In f (before tr) ->
  forall kw, preserves only_appends (f kw).
Proof.
  intros It If kw vm. unfold _get_transitions in It. simpl in It.
  repeat (destruct It as [<-|It]; [simpl in If|]); try contradiction;
    destruct If as [<-|[]].
  - unfold _reload_change, on_monetary_inventory.
    pose proof (add_cash_supported
                  match kw_supply kw with Some s => s | None => [] end
                  (monetary_inventory vm)) as F.
    destruct (add_cash _ _) as [r m']. now apply only_appends_same_log.
  - unfold _add_products, on_stock.
    pose proof (add_products_catalogue
                  match kw_products kw with Some l => l | None => [] end
                  (stock vm)) as F.
    destruct (add_products _ _) as [r s']. now apply only_appends_same_log.
  - now apply only_appends_same_log.
  - unfold _insert. destruct (kw_denomination kw) as [v|];
      [|apply only_appends_refl].
    unfold bind, modify, lift, on_monetary_inventory, add_monetary_unit.
    destruct (Denomination_init v) as [d|e];
      [|now apply only_appends_same_log].
    cbn [monetary_inventory set_customer_balance].
    destruct (Denomination_in d _); cbn [negb];
      [|now apply only_appends_same_log].
    destruct (inventory_iadd_spec d 1 (monetary_inventory vm))
      as (m1 & R & _ & Su & _).
    rewrite R. now apply only_appends_same_log.
  - unfold _charge_customer.
    destruct (selected_product vm); [|apply only_appends_refl].
    destruct (get_price_of _ _); now apply only_appends_same_log.
  - unfold _charge_customer.
    destruct (selected_product vm); [|apply only_appends_refl].
    destruct (get_price_of _ _); now apply only_appends_same_log.
Qed.

(** X21.  Whatever trigger is fired, with whatever arguments and in whatever
    state, and whether the call returns or raises: the catalogue of the
    stock and the supported denominations of the inventory are those of
    before, and the delivery log is the log of before with entries added at
    its end.  The machine never calls [update_catalogue], and nothing it
    sent is taken back. *)
Theorem fire_only_appends (t : Trigger.t) (kw : kwargs) (vm : VendingMachine) :
  only_appends vm (snd (fire t kw vm)).
Proof.
  apply (fire_at_preserves only_appends only_appends_refl only_appends_trans
           before_only_appends).
  - intros s vm0. now apply only_appends_same_log.
  - exact dispatch_product_only_appends.
  - exact return_change_only_appends.
Qed.

Lemma fire_only_appends_witness :
  exists sent,
    delivery_system
      (snd (checkout (snd (run [start; select 2; insert 200] test_machine))))
    = delivery_system (snd (run [start; select 2; insert 200] test_machine))
      ++ sent.
Proof.
  exact (proj2 (proj2 (fire_only_appends Trigger.checkout no_kwargs
                         (snd (run [start; select 2; insert 200]
                                 test_machine))))).
Defined.

(** *** Well-formed machines *)

Lemma add_cash_NoDup (supply : dict Denomination Z) (m : MonetaryInventory) :
  NoDup (dict_keys (inventory m)) ->
  NoDup (dict_keys (inventory (snd (add_cash supply m)))).
Proof.
  unfold add_cash, bind. rewrite add_cash_check_spec.
  destruct (forallb _ _); [|auto].
  revert m. induction supply as [|[k q] items IH]; intros m N; [exact N|].
  cbn [add_cash_loop]. unfold bind.
  destruct (inventory_iadd_spec k q m) as (m1 & R & _ & _ & Nd). rewrite R.
  apply IH. now apply Nd.
Qed.

Lemma remove_change_NoDup (change : dict Denomination Z) :
  forall m, NoDup (dict_keys (inventory m)) ->
            NoDup (dict_keys (inventory (snd (remove_change change m)))).
Proof.
  induction change as [|[d q] change IH]; intros m N; [exact N|].
  cbn [remove_change].
  destruct (defaultdict_getitem 0 d (inventory m)) as [cur inv'] eqn:G.
  destruct (count_defaultdict_getitem m d cur inv' G) as (_ & _ & Nd).
  destruct (cur <? q); [now apply Nd|].
  apply IH. cbn [set_inventory inventory].
  apply (NoDup_dict_set Denomination_eqb_eq). now apply Nd.
Qed.

Lemma keeps_wellformed_trans (a b c : VendingMachine) :
  keeps_wellformed a b -> keeps_wellformed b c -> keeps_wellformed a c.
Proof. unfold keeps_wellformed. auto. Qed.

Lemma keeps_wellformed_of_parts (vm vm' : VendingMachine) :
  (NoDup (dict_keys (inventory (monetary_inventory vm))) ->
   NoDup (dict_keys (inventory (monetary_inventory vm')))) ->
  (queues_match_ids (stock vm) -> queues_match_ids (stock vm')) ->
  keeps_wellformed vm vm'.
Proof. intros A B [W1 W2]. split; auto. Qed.

Lemma before_keeps_wellformed (f : kwargs -> M VendingMachine unit)
    (tr : Transition) :
  In tr _get_transitions -> In f (before tr) ->
  forall kw, preserves keeps_wellformed (f kw).
Proof.
  intros It If kw vm. unfold _get_transitions in It. simpl in It.
  repeat (destruct It as [<-|It]; [simpl in If|]); try contradiction;
    destruct If as [<-|[]].
  - unfold _reload_change, on_monetary_inventory.
    pose proof (add_cash_NoDup
                  match kw_supply kw with Some s => s | None => [] end
                  (monetary_inventory vm)) as F.
    destruct (add_cash _ _) as [r m']. now apply keeps_wellformed_of_parts.
  - unfold _add_products, on_stock.
    pose proof (add_products_queues_match (stock vm)
                  match kw_products kw with Some l => l | None => [] end) as F.
    destruct (add_products _ _) as [r s']. now apply keeps_wellformed_of_parts.
  - now apply keeps_wellformed_of_parts.
  - unfold _insert. destruct (kw_denomination kw) as [v|];
      [|now apply keeps_wellformed_of_parts].
    unfold bind, modify, lift, on_monetary_inventory, add_monetary_unit.
    destruct (Denomination_init v) as [d|e];
      [|now apply keeps_wellformed_of_parts].
    cbn [monetary_inventory set_customer_balance].
    destruct (Denomination_in d _); cbn [negb];
      [|now apply keeps_wellformed_of_parts].
    destruct (inventory_iadd_spec d 1 (monetary_inventory vm))
      as (m1 & R & _ & _ & Nd).
    rewrite R. now apply keeps_wellformed_of_parts.
  - unfold _charge_customer.
    destruct (selected_product vm); [|now apply keeps_wellformed_of_parts].
    destruct (get_price_of _ _); now apply keeps_wellformed_of_parts.
  - unfold _charge_customer.
    destruct (selected_product vm); [|now apply keeps_wellformed_of_parts].
    destruct (get_price_of _ _); now apply keeps_wellformed_of_parts.
Qed.

Lemma return_change_keeps_wellformed :
  preserves keeps_wellformed _return_change.
Proof.
  intros vm. unfold _return_change.
  destruct (customer_balance vm =? 0); [now apply keeps_wellformed_of_parts|].
  destruct (find_optimal_change _ _) as [[cfg|]|e];
    try now apply keeps_wellformed_of_parts.
  destruct (configuration cfg) as [|kv rest];
    [now apply keeps_wellformed_of_parts|].
  unfold bind, on_monetary_inventory, modify.
  pose proof (remove_change_NoDup (kv :: rest) (monetary_inventory vm)) as Nd.
  destruct (remove_change (kv :: rest) (monetary_inventory vm))
    as [[[]|e] m']; now apply keeps_wellformed_of_parts.
Qed.

Lemma dispatch_product_keeps_wellformed :
  preserves keeps_wellformed _dispatch_product.
Proof.
  intros vm. unfold _dispatch_product, bind, on_stock, modify.
  pose proof (get_product_queues_match (stock vm) (selected_product vm)) as Q.
  destruct (get_product (selected_product vm) (stock vm)) as [[p|e] s'];
    now apply keeps_wellformed_of_parts.
Qed.

Lemma fire_keeps_wellformed (t : Trigger.t) (kw : kwargs) :
  preserves keeps_wellformed (fire t kw).
Proof.
  apply (fire_at_preserves keeps_wellformed).
  - intros vm W. exact W.
  - exact keeps_wellformed_trans.
  - exact before_keeps_wellformed.
  - intros s vm0. now apply keeps_wellformed_of_parts.
  - exact dispatch_product_keeps_wellformed.
  - exact return_change_keeps_wellformed.
Qed.

Lemma fresh_machine_wellformed (cat : dict ProductID ProductInfo)
    (ps : list Product) (m : MonetaryInventory) :
  distinct_keys (inventory m) = true ->
  wellformed (VendingMachine_init (Stock_init cat ps) m).
Proof.
  intros Dk. split.
  - now apply (distinct_keys_NoDup Denomination_eqb_eq).
  - unfold VendingMachine_init, Stock_init. cbn [stock].
    apply add_products_queues_match. intros i p I. destruct I.
Qed.

(** X22.  A machine built on a fresh [Stock] and an inventory without
    duplicate keys is well formed: the inventory has no duplicate keys and
    each queue holds units of its own id.  Every sequence of trigger calls
    leaves a well-formed machine well formed, at its end or at the call
    that raises. *)
Theorem run_keeps_wellformed :
  (forall cat ps m,
     distinct_keys (inventory m) = true ->
     wellformed (VendingMachine_init (Stock_init cat ps) m)) /\
  (forall (calls : list (Trigger.t * kwargs)) (vm : VendingMachine),
     wellformed vm ->
     wellformed (snd (run (map (fun c => fire (fst c) (snd c)) calls) vm))).
Proof.
  split; [exact fresh_machine_wellformed|].
  induction calls as [|[t kw] calls IH]; intros vm W; [exact W|].
  cbn [map fst snd]. rewrite run_cons.
  pose proof (fire_keeps_wellformed t kw vm W) as W1.
  destruct (fire t kw vm) as [[b|e] vm1]; cbn [snd] in *;
    [now apply IH | exact W1].
Qed.

Lemma run_keeps_wellformed_witness :
  NoDup (dict_keys (inventory (monetary_inventory
    (snd (run [start; select 2; insert 200; checkout] test_machine))))).
Proof.
  apply (proj2 run_keeps_wellformed
           [(Trigger.start, no_kwargs);
            (Trigger.select, mkKwargs (Some 2) None None None);
            (Trigger.insert, mkKwargs None (Some 200) None None);
            (Trigger.checkout, no_kwargs)] test_machine).
  apply (proj1 run_keeps_wellformed). reflexivity.
Defined.
(** ** Inserting money *)

(** X23.  [insert] of a value that is a supported denomination, while money
    is collected: the call returns [True], the state stays, the balance
    grows by the value and the count of that denomination by one.  The
    money held less the balance is therefore what it was; stock, selection
    and delivery log are untouched. *)
Theorem insert_supported_denomination (vm : VendingMachine) (v : Z)
    (Hstate : state vm = COLLECTING_PAYMENT)
    (Hsup : supports (monetary_inventory vm) v = true) :
  exists vm',
    insert v vm = (Ok true, vm') /\
    state vm' = COLLECTING_PAYMENT /\
    stock vm' = stock vm /\
    selected_product vm' = selected_product vm /\
    delivery_system vm' = delivery_system vm /\
    customer_balance vm' = customer_balance vm + v /\
    (forall d, count_of (monetary_inventory vm') d
               = count_of (monetary_inventory vm) d
                 + (if value d =? v then 1 else 0)) /\
    cash_total (monetary_inventory vm') - customer_balance vm'
    = cash_total (monetary_inventory vm) - customer_balance vm.
Proof.
  rewrite (insert_in_collecting_payment v vm Hstate).
  unfold supports in Hsup.
  destruct (Denomination_init_cases v) as [[_ R]|(d & R & V)];
    rewrite R in Hsup |- *; [discriminate|].
  rewrite Hsup.
  pose proof (inventory_iadd_total d 1 (monetary_inventory vm)) as T.
  destruct (inventory_iadd_spec d 1 (monetary_inventory vm))
    as (m1 & R1 & C & _).
  rewrite R1 in T |- *. cbn [snd] in T |- *.
  eexists. split; [reflexivity|].
  cbn [set_state set_monetary_inventory set_customer_balance state stock
       monetary_inventory selected_product customer_balance delivery_system].
  repeat (split; [reflexivity|]). split.
  - intros d'. rewrite C. subst v. reflexivity.
  - rewrite T, V. lia.
Qed.

Lemma insert_supported_denomination_witness :
  exists vm',
    insert 10 (snd (run [start; select 2] test_machine)) = (Ok true, vm') /\
    customer_balance vm' = 0 + 10.
Proof.
  destruct (insert_supported_denomination
              (snd (run [start; select 2] test_machine)) 10
              eq_refl eq_refl)
    as (vm' & R & _ & _ & _ & _ & B & _).
  exists vm'. split; [exact R | exact B].
Defined.

(** ** The offer *)

Lemma dict_in_defaultdict_getitem (s : Stock) (i0 : ProductID) :
  forall q prods,
    defaultdict_getitem [] (Some i0) (products s) = (q, prods) ->
    forall i, dict_in (Some i) prods
              = dict_in (Some i) (products s) || (i =? i0).
Proof.
  intros q prods. unfold defaultdict_getitem.
  destruct (dict_get (Some i0) (products s)) as [q0|] eqn:G.
  - intros [= <- <-] i. destruct (i =? i0) eqn:E.
    + apply Z.eqb_eq in E. subst i. unfold dict_in. rewrite G. reflexivity.
    + now rewrite orb_false_r.
  - intros [= <- <-] i. unfold dict_in. rewrite dict_get_app_absent.
    destruct (dict_get (Some i) (products s)); [reflexivity|].
    change (key_eqb (Some i) (Some i0)) with (i =? i0).
    now destruct (i =? i0).
Qed.

Lemma get_offer_loop_order (items : list (ProductID * ProductInfo)) :
  NoDup (dict_keys items) ->
  forall (acc : dict ProductID ProductInfo) (s : Stock),
    (forall k, In k (dict_keys items) -> ~ In k (dict_keys acc)) ->
    exists s',
      get_offer_loop items acc s
      = (Ok (acc ++ filter (fun kv => in_stock s (fst kv)) items), s') /\
      catalogue s' = catalogue s /\
      (forall i, queue_of s' i = queue_of s i) /\
      (forall i, dict_in (Some i) (products s')
                 = dict_in (Some i) (products s) || dict_in i items).
Proof.
  induction items as [|[pid info] items IH]; intros D acc s Fresh.
  - exists s. simpl. rewrite app_nil_r. repeat split.
    intros i. now rewrite orb_false_r.
  - inversion D as [|? ? N D']; subst. cbn [get_offer_loop].
    destruct (defaultdict_getitem [] (Some pid) (products s)) as [q prods] eqn:G.
    destruct (defaultdict_getitem_queue s pid q prods G) as (_ & S1 & Q1).
    destruct (queue_defaultdict_getitem s pid q prods G) as (_ & C1 & Q).
    pose proof (dict_in_defaultdict_getitem s pid q prods G) as K.
    set (acc' := match q with [] => acc | _ :: _ => dict_set pid info acc end).
    assert (A : acc' = acc ++ (if in_stock s pid then [(pid, info)] else [])).
    { unfold acc'. rewrite Q1. destruct q; [now rewrite app_nil_r|].
      apply (dict_set_absent Z_key_eqb_eq). apply Fresh. now left. }
    destruct (IH D' acc' (set_products prods s)) as (s' & R & C & Qs & Ks).
    { intros k I. rewrite A. unfold dict_keys. rewrite map_app, in_app_iff.
      intros [J|J].
      - apply (Fresh k); [now right | exact J].
      - destruct (in_stock s pid); [|contradiction].
        destruct J as [<-|[]]. now apply N. }
    exists s'. split.
    { rewrite R. f_equal. f_equal. rewrite A, <- app_assoc. f_equal.
      cbn [filter fst].
      rewrite (filter_ext _ (fun kv => in_stock s (fst kv)))
        by (intros kv; apply S1).
      now destruct (in_stock s pid). }
    split; [congruence|]. split; [intros i; now rewrite Qs, Q|].
    intros i. rewrite Ks. cbn [set_products products]. rewrite K.
    unfold dict_in at 4. cbn [dict_get].
    change (key_eqb i pid) with (i =? pid).
    rewrite <- orb_assoc. f_equal.
    destruct (i =? pid); [reflexivity|]. reflexivity.
Qed.

(** X24.  [get_offer] on a catalogue without duplicate ids returns the
    entries whose product is in stock, in the order of the catalogue.  It is
    not read-only: looking a queue up creates it, so that afterwards every
    id of the catalogue is a key of [products]; but no queue gains or loses
    a unit and the catalogue is as before. *)
Theorem get_offer_in_catalogue_order (s : Stock)
    (Hkeys : distinct_keys (catalogue s) = true) :
  exists s',
    get_offer s
    = (Ok (filter (fun kv => in_stock s (fst kv)) (catalogue s)), s') /\
    catalogue s' = catalogue s /\
    (forall i, queue_of s' i = queue_of s i) /\
    (forall i, dict_in (Some i) (products s')
               = dict_in (Some i) (products s) || dict_in i (catalogue s)).
Proof.
  apply (distinct_keys_NoDup Z_key_eqb_eq) in Hkeys.
  destruct (get_offer_loop_order (catalogue s) Hkeys [] s) as (s' & R & H);
    [intros k _ []|].
  exists s'. split; [exact R | exact H].
Qed.

Lemma get_offer_in_catalogue_order_witness :
  fst (get_offer
         (Stock_init [(1, mkProductInfo "Soda" 210);
                      (2, mkProductInfo "Water" 100);
                      (3, mkProductInfo "Ice tea" 195)]
            [mkProduct 3; mkProduct 1]))
  = Ok [(1, mkProductInfo "Soda" 210); (3, mkProductInfo "Ice tea" 195)].
Proof.
  destruct (get_offer_in_catalogue_order
              (Stock_init [(1, mkProductInfo "Soda" 210);
                           (2, mkProductInfo "Water" 100);
                           (3, mkProductInfo "Ice tea" 195)]
                 [mkProduct 3; mkProduct 1]) eq_refl)
    as (s' & R & _).
  rewrite R. reflexivity.
Defined.

Lemma filter_nonempty_existsb {A} (f : A -> bool) (l : list A) :
  match filter f l with [] => false | _ :: _ => true end = existsb f l.
Proof.
  induction l as [|a l IH]; [reflexivity|]. cbn [filter existsb].
  destruct (f a); [reflexivity | exact IH].
Qed.

(** X25.  A stock built by [Stock.__init__] has the catalogue it was given
    and queues the units by id in the order given; its offer lists, in
    catalogue order, the entries for which some unit was given. *)
Theorem Stock_init_offer (cat : dict ProductID ProductInfo) (ps : list Product)
    (Hkeys : distinct_keys cat = true) :
  catalogue (Stock_init cat ps) = cat /\
  (forall i, queue_of (Stock_init cat ps) i = filter (fun p => id p =? i) ps) /\
  fst (get_offer (Stock_init cat ps))
  = Ok (filter (fun kv => existsb (fun p => id p =? fst kv) ps) cat).
Proof.
  unfold Stock_init.
  destruct (add_products_queues ps (mkStock [] cat)) as (s & R & C & Q).
  rewrite R. cbn [snd]. cbn [catalogue] in C.
  split; [exact C|]. split; [intros i; now rewrite Q|].
  apply (distinct_keys_NoDup Z_key_eqb_eq) in Hkeys. rewrite <- C in Hkeys.
  destruct (get_offer_loop_order (catalogue s) Hkeys [] s) as (s' & Rg & _);
    [intros k _ []|].
  unfold get_offer. rewrite Rg. cbn [fst app]. rewrite C. f_equal.
  apply filter_ext. intros kv. rewrite in_stock_queue, Q.
  apply filter_nonempty_existsb.
Qed.

Lemma Stock_init_offer_witness :
  fst (get_offer (stock test_machine))
  = Ok [(1, mkProductInfo "Soda" 210); (2, mkProductInfo "Water" 100);
        (3, mkProductInfo "Ice tea" 195)].
Proof.
  apply (proj2 (proj2 (Stock_init_offer
           [(1, mkProductInfo "Soda" 210); (2, mkProductInfo "Water" 100);
            (3, mkProductInfo "Ice tea" 195)]
           [mkProduct 1; mkProduct 1; mkProduct 2; mkProduct 3] eq_refl))).
Defined.

(** ** Building an inventory *)

Lemma dict_set_last (k : Denomination) (v0 v : Z) (d : dict Denomination Z) :
  ~ In k (dict_keys d) -> dict_set k v (d ++ [(k, v0)]) = d ++ [(k, v)].
Proof.
  induction d as [|[k' v'] d IH]; intros N; simpl.
  - now rewrite (key_eqb_refl Denomination_eqb_eq).
  - rewrite (key_eqb_neq Denomination_eqb_eq)
      by (intros ->; apply N; now left).
    f_equal. apply IH. intros I. apply N. now right.
Qed.

Lemma add_cash_loop_fresh (items : dict Denomination Z) :
  NoDup (dict_keys items) ->
  forall inv sup,
    (forall k, In k (dict_keys items) -> ~ In k (dict_keys inv)) ->
    add_cash_loop items (mkMonetaryInventory inv sup)
    = (Ok tt, mkMonetaryInventory (inv ++ items) sup).
Proof.
  induction items as [|[k q] items IH]; intros D inv sup Fresh.
  - simpl. now rewrite app_nil_r.
  - inversion D as [|? ? N D']; subst.
    cbn [add_cash_loop]. unfold bind, inventory_iadd, defaultdict_getitem.
    cbn [inventory].
    assert (G : dict_get k inv = None).
    { apply (dict_get_None_keys Denomination_eqb_eq). apply Fresh. now left. }
    rewrite G. unfold set_inventory. cbn [_supported_denominantions].
    rewrite dict_set_last by (apply Fresh; now left).
    rewrite IH; [now rewrite <- app_assoc | exact D' |].
    intros k' I. unfold dict_keys. rewrite map_app, in_app_iff.
    intros [J|[<-|[]]].
    + apply (Fresh k'); [now right | exact J].
    + now apply N.
Qed.

(** X26.  [MonetaryInventory.__init__] with an initial inventory: when every
    key is among the supported denominations (those given, or the eight of
    the class) the new inventory holds exactly the initial items, in their
    order; otherwise the constructor raises [ValueError]. *)
Theorem MonetaryInventory_init_holds_the_supply
    (initial_inventory : dict Denomination Z)
    (supported_denominantions : option (list Denomination))
    (Hkeys : distinct_keys initial_inventory = true) :
  MonetaryInventory_init initial_inventory supported_denominantions
  = let supported := match supported_denominantions with
                     | Some l => l
                     | None => default_supported_denominantions
                     end in
    if forallb (fun d => Denomination_in d supported)
         (dict_keys initial_inventory)
    then Ok (mkMonetaryInventory initial_inventory supported)
    else Raise ValueError.
Proof.
  apply (distinct_keys_NoDup Denomination_eqb_eq) in Hkeys.
  unfold MonetaryInventory_init, add_cash, bind.
  rewrite add_cash_check_spec. cbn [_supported_denominantions].
  cbv zeta.
  destruct (forallb _ _); [|reflexivity].
  rewrite add_cash_loop_fresh; [reflexivity | exact Hkeys |].
  intros k _ [].
Qed.

Lemma MonetaryInventory_init_holds_the_supply_witness :
  MonetaryInventory_init [(D 100 eq_refl, 5); (D 10 eq_refl, 3)] None
  = Ok (monetary_inventory test_machine).
Proof.
  apply (MonetaryInventory_init_holds_the_supply
           [(D 100 eq_refl, 5); (D 10 eq_refl, 3)] None eq_refl).
Defined.

(** ** Printing a denomination *)

Lemma str_of_int_inj (a b : Z) : str_of_int a = str_of_int b -> a = b.
Proof.
  unfold str_of_int. intros E. apply to_int_inj.
  assert (P : forall z, NilZero.int_of_string
                          (NilZero.string_of_int (Z.to_int z))
                        = Some (Z.to_int z)).
  { intros z. apply NilZero.isi; intros N;
      pose proof (DecimalZ.of_to z) as O; rewrite N in O;
      simpl in O; subst z; discriminate. }
  pose proof (P a) as Pa. rewrite E, P in Pa. congruence.
Qed.

Lemma append_inj_r (s t u : string) : (s ++ u = t ++ u)%string -> s = t.
Proof.
  intros E.
  assert (A : forall x y, String.length (x ++ y)
                          = (String.length x + String.length y)%nat).
  { induction x as [|c x IHx]; intros y; simpl; [reflexivity|].
    now rewrite IHx. }
  assert (L : String.length s = String.length t).
  { apply (f_equal String.length) in E. rewrite !A in E. lia. }
  revert t E L. induction s as [|c s IH]; intros [|c' t] E L;
    try discriminate; [reflexivity|].
  simpl in E, L. injection E as -> E. f_equal. apply IH; [exact E | lia].
Qed.

Lemma pence_do_not_start_like_pounds (v : Z) (t : string) :
  0 <= v < 100 -> (str_of_int v ++ "p" <> pound_sign ++ t)%string.
Proof.
  intros B E.
  assert (C : forallb (fun n => match str_of_int (Z.of_nat n) with
                                | String c _ => negb (Ascii.eqb c (Ascii.ascii_of_nat 194))
                                | EmptyString => false
                                end) (seq 0 100) = true)
    by (vm_compute; reflexivity).
  rewrite forallb_forall in C. specialize (C (Z.to_nat v)).
  rewrite Z2Nat.id in C by lia.
  assert (I : In (Z.to_nat v) (seq 0 100)) by (apply in_seq; lia).
  specialize (C I).
  destruct (str_of_int v) as [|c r]; [discriminate|].
  simpl in E. injection E as -> _. vm_compute in C. discriminate.
Qed.

(** X27.  [Denomination.__str__] never reaches its [NotImplementedError]: a
    denomination under 100 prints as pence and every other one, being a
    multiple of 100, as pounds.  Two denominations that print alike are
    equal. *)
Theorem Denomination_str_total_and_injective (a b : Denomination) :
  (exists s, Denomination_str a = Some s) /\
  (Denomination_str a = Denomination_str b -> a = b).
Proof.
  assert (Ok100 : forall d : Denomination,
             (value d <? 100) = false -> (value d mod 100 =? 0) = true).
  { intros d L. pose proof (value_ok d) as O.
    unfold denomination_value_ok in O.
    apply Z.ltb_ge in L.
    destruct (value d mod 100 =? 0) eqn:M; [reflexivity|].
    destruct (value d >? 100) eqn:G.
    - rewrite orb_true_r in O. discriminate.
    - rewrite Z.gtb_ltb in G. apply Z.ltb_ge in G.
      assert (value d = 100) by lia.
      rewrite H in M. discriminate. }
  assert (Tot : forall d : Denomination, exists s, Denomination_str d = Some s).
  { intros d. unfold Denomination_str.
    destruct (value d <? 100) eqn:L; [eauto|].
    rewrite (Ok100 d L). eauto. }
  split; [apply Tot|].
  pose proof (denomination_value_nonneg a) as Na.
  pose proof (denomination_value_nonneg b) as Nb.
  unfold Denomination_str.
  destruct (value a <? 100) eqn:La; destruct (value b <? 100) eqn:Lb;
    rewrite ?(Ok100 a), ?(Ok100 b) by assumption; intros [= E].
  - apply append_inj_r, str_of_int_inj in E. now apply Denomination_ext.
  - apply Z.ltb_lt in La. exfalso.
    now apply (pence_do_not_start_like_pounds (value a)
                 (str_of_int (value b / 100))).
  - apply Z.ltb_lt in Lb. exfalso. symmetry in E.
    now apply (pence_do_not_start_like_pounds (value b)
                 (str_of_int (value a / 100))).
  - apply str_of_int_inj in E. apply Denomination_ext.
    pose proof (Ok100 a La) as Ma. pose proof (Ok100 b Lb) as Mb.
    apply Z.eqb_eq in Ma, Mb.
    rewrite (Z.div_mod (value a) 100), (Z.div_mod (value b) 100) by lia.
    lia.
Qed.

Lemma Denomination_str_total_and_injective_witness :
  exists s, Denomination_str (D 500 eq_refl) = Some s.
Proof.
  exact (proj1 (Denomination_str_total_and_injective
                  (D 500 eq_refl) (D 5 eq_refl))).
Defined.
